(** * create-mrn-app: configuration resolution, layout decision and manifests

    A shallow embedding of the decision logic of the scaffolding tool:
    the compatibility tables ([src/types/config.ts]), the interactive
    resolver [runPrompts] ([src/prompts/index.ts]), the backend factory and
    the two layout predicates ([src/generators/backends/index.ts]), the
    project generator [generate] with its single-package and monorepo
    branches ([src/generators/index.ts]) and [initGit] ([src/utils/git.ts]).

    TypeScript string-literal unions are inductive types, JavaScript objects
    used as string-to-string mappings are [gmap string string], and the
    asynchronous, throwing, logging code is written in a small monad that
    reads the outside world, collects the events it emits and may throw. *)

From stdpp Require Import base strings list gmap fin_maps fin_map_dom.

Open Scope string_scope.

(** ** Strings *)

(** The double-quote character, for the shell commands that contain it. *)
Definition dq : string := String (Ascii.ascii_of_nat 34) EmptyString.

(** The line feed. *)
Definition nl : string := String (Ascii.ascii_of_nat 10) EmptyString.

(** ** [src/types/config.ts] *)

Inductive Framework := next | react | vue | astro.

Inductive BackendFramework :=
| backend_none
| nextjs_builtin
| express
| fastify
| nestjs
| hono
| elysia
| backend_convex.

Inductive Database :=
| supabase
| db_convex
| neon
| sqlite
| turso
| planetscale
| mongodb
| db_none.

Inductive ORM := prisma | drizzle | orm_none.

Inductive HonoRuntime := rt_node | rt_bun.

Inductive Auth := next_auth | clerk | supabase_auth | better_auth | auth_none.

Inductive Styling := tailwind | tailwind_shadcn | css_modules | vanilla.

Inductive PackageManager := npm | pnpm | bun.

#[global] Instance Framework_eq_dec : EqDecision Framework.
Proof. solve_decision. Defined.
#[global] Instance BackendFramework_eq_dec : EqDecision BackendFramework.
Proof. solve_decision. Defined.
#[global] Instance Database_eq_dec : EqDecision Database.
Proof. solve_decision. Defined.
#[global] Instance ORM_eq_dec : EqDecision ORM.
Proof. solve_decision. Defined.
#[global] Instance HonoRuntime_eq_dec : EqDecision HonoRuntime.
Proof. solve_decision. Defined.
#[global] Instance Auth_eq_dec : EqDecision Auth.
Proof. solve_decision. Defined.
#[global] Instance Styling_eq_dec : EqDecision Styling.
Proof. solve_decision. Defined.
#[global] Instance PackageManager_eq_dec : EqDecision PackageManager.
Proof. solve_decision. Defined.

(** The string each literal stands for at run time; template literals and
    prompt option lists use these. *)
Class ToString (A : Type) := to_string : A → string.

#[global] Instance Framework_to_string : ToString Framework := λ f,
  match f with
  | next => "next" | react => "react" | vue => "vue" | astro => "astro"
  end.

#[global] Instance BackendFramework_to_string : ToString BackendFramework := λ b,
  match b with
  | backend_none => "none"
  | nextjs_builtin => "nextjs-builtin"
  | express => "express"
  | fastify => "fastify"
  | nestjs => "nestjs"
  | hono => "hono"
  | elysia => "elysia"
  | backend_convex => "convex"
  end.

#[global] Instance Database_to_string : ToString Database := λ d,
  match d with
  | supabase => "supabase"
  | db_convex => "convex"
  | neon => "neon"
  | sqlite => "sqlite"
  | turso => "turso"
  | planetscale => "planetscale"
  | mongodb => "mongodb"
  | db_none => "none"
  end.

#[global] Instance ORM_to_string : ToString ORM := λ o,
  match o with
  | prisma => "prisma" | drizzle => "drizzle" | orm_none => "none"
  end.

#[global] Instance HonoRuntime_to_string : ToString HonoRuntime := λ r,
  match r with rt_node => "node" | rt_bun => "bun" end.

#[global] Instance Auth_to_string : ToString Auth := λ a,
  match a with
  | next_auth => "next-auth"
  | clerk => "clerk"
  | supabase_auth => "supabase-auth"
  | better_auth => "better-auth"
  | auth_none => "none"
  end.

#[global] Instance Styling_to_string : ToString Styling := λ s,
  match s with
  | tailwind => "tailwind"
  | tailwind_shadcn => "tailwind-shadcn"
  | css_modules => "css-modules"
  | vanilla => "vanilla"
  end.

#[global] Instance PackageManager_to_string : ToString PackageManager := λ pm,
  match pm with npm => "npm" | pnpm => "pnpm" | bun => "bun" end.

Record Extras := {
  typescript : bool;
  eslint : bool;
  prettier : bool;
  testing : bool;
  playwright : bool;
  docker : bool
}.

Record ProjectConfig := {
  projectName : string;
  framework : Framework;
  backend : BackendFramework;
  database : Database;
  orm : ORM;
  auth : Auth;
  styling : Styling;
  packageManager : PackageManager;
  runtime : option HonoRuntime;
  extras : Extras
}.

(** [Array.prototype.includes] on an array of literals. *)
Definition includes {A} `{EqDecision A} (l : list A) (x : A) : bool :=
  bool_decide (x ∈ l).

Definition FRAMEWORK_AUTH_COMPAT (f : Framework) : list Auth :=
  match f with
  | next => [next_auth; clerk; supabase_auth; better_auth; auth_none]
  | react => [clerk; supabase_auth; better_auth; auth_none]
  | vue => [clerk; supabase_auth; better_auth; auth_none]
  | astro => [clerk; supabase_auth; better_auth; auth_none]
  end.

Definition FRAMEWORK_DB_COMPAT (f : Framework) : list Database :=
  match f with
  | next => [supabase; db_convex; neon; sqlite; turso; planetscale; mongodb; db_none]
  | react => [supabase; db_convex; neon; sqlite; turso; planetscale; mongodb; db_none]
  | vue => [supabase; neon; sqlite; turso; planetscale; mongodb; db_none]
  | astro => [supabase; neon; sqlite; turso; planetscale; mongodb; db_none]
  end.

Definition FRAMEWORK_BACKEND_COMPAT (f : Framework) : list BackendFramework :=
  match f with
  | next =>
      [backend_none; nextjs_builtin; express; fastify; nestjs; hono; elysia;
       backend_convex]
  | react => [backend_none; express; fastify; nestjs; hono; elysia; backend_convex]
  | vue => [backend_none; express; fastify; nestjs; hono; elysia]
  | astro => [backend_none; express; fastify; nestjs; hono; elysia]
  end.

Definition DATABASE_ORM_COMPAT (d : Database) : list ORM :=
  match d with
  | mongodb => [prisma]
  | supabase => [prisma; drizzle]
  | neon => [prisma; drizzle]
  | sqlite => [prisma; drizzle]
  | turso => [prisma; drizzle]
  | planetscale => [prisma; drizzle]
  | db_convex => [orm_none]
  | db_none => [orm_none]
  end.

Definition BUN_ONLY_BACKENDS : list BackendFramework := [elysia].

Definition RUNTIME_SELECTABLE_BACKENDS : list BackendFramework := [hono].

Definition SKIP_DB_BACKENDS : list BackendFramework := [backend_convex; backend_none].

(** ** [src/generators/backends/index.ts]: the layout predicates *)

Definition requiresSeparatePackage (framework : BackendFramework) : bool :=
  let separatePackageBackends := [express; fastify; hono; elysia; nestjs] in
  includes separatePackageBackends framework.

Definition integratesWithFrontend (framework : BackendFramework) : bool :=
  let integratedBackends := [nextjs_builtin; backend_convex] in
  includes integratedBackends framework.

(** The three-valued layout tag.  [generate] never stores it: it computes
    [isMonorepo] and [isIntegratedBackend] and branches on [isMonorepo]
    first, passing [isIntegratedBackend] to the single-package branch. *)
Inductive LayoutDecision := layout_none | layout_integrated | layout_separate.

Definition classify (b : BackendFramework) : LayoutDecision :=
  let isMonorepo := requiresSeparatePackage b in
  let isIntegratedBackend := integratesWithFrontend b in
  if isMonorepo then layout_separate
  else if isIntegratedBackend then layout_integrated
  else layout_none.

(** ** JavaScript objects used as mappings *)

(** [CopyDataProperties]: every own property of [source] is set on
    [target], one key at a time. *)
Definition copyDataProperties (target source : gmap string string)
  : gmap string string :=
  map_fold (λ k v acc, <[k:=v]> acc) target source.

(** The object literal [{ ...a, ...b }]. *)
Definition spread2 (a b : gmap string string) : gmap string string :=
  copyDataProperties (copyDataProperties ∅ a) b.

(** An object literal [{ k1: v1, ..., kn: vn }] with distinct keys. *)
Definition object (l : list (string * string)) : gmap string string :=
  list_to_map l.

(** ** [src/generators/index.ts]: the workspace-root manifest *)

Record RootPackageJson := {
  root_name : string;
  root_version : string;
  root_private : bool;
  root_workspaces : list string;
  root_scripts : gmap string string;
  root_devDependencies : gmap string string
}.

(** The object built by [createRootPackageJson], which the function then
    writes to [package.json] under the project path. *)
Definition rootPackageJson (config : ProjectConfig) : RootPackageJson :=
  let pm := to_string (packageManager config) in
  {| root_name := projectName config;
     root_version := "0.1.0";
     root_private := true;
     root_workspaces := ["packages/*"];
     root_scripts := object [
       ("dev", "concurrently " +:+ dq +:+ "pnpm --filter frontend dev" +:+ dq
                 +:+ " " +:+ dq +:+ "pnpm --filter backend dev" +:+ dq);
       ("dev:frontend", pm +:+ " --filter frontend dev");
       ("dev:backend", pm +:+ " --filter backend dev");
       ("build", pm +:+ " --filter frontend build && " +:+ pm
                   +:+ " --filter backend build");
       ("build:frontend", pm +:+ " --filter frontend build");
       ("build:backend", pm +:+ " --filter backend build");
       ("lint", pm +:+ " --filter " +:+ dq +:+ "*" +:+ dq +:+ " lint");
       ("test", pm +:+ " --filter " +:+ dq +:+ "*" +:+ dq +:+ " test")
     ];
     root_devDependencies := object [("concurrently", "^9.1.0")] |}.

(** ** The outside world, events and the effect monad *)

(** What a prompt returns: the chosen value, or the cancel symbol that
    [p.isCancel] recognises. *)
Inductive Answer (A : Type) := Cancel | Value (v : A).
Arguments Cancel {A}.
Arguments Value {A} v.

(** How a call ends: it returns, or it throws [new Error(e)]. *)
Inductive Res (A : Type) := Ok (a : A) | Throw (e : string).
Arguments Ok {A} a.
Arguments Throw {A} e.

(** A single-package manifest as [fs.readJSON] returns it and
    [fs.writeJSON] stores it. *)
Record PackageJson := {
  name : string;
  version : string;
  private : bool;
  type : string;
  scripts : gmap string string;
  dependencies : gmap string string;
  devDependencies : gmap string string
}.

#[global] Instance PackageJson_eq_dec : EqDecision PackageJson.
Proof. solve_decision. Defined.

Inductive JsonDoc :=
| JsonRoot (doc : RootPackageJson)
| JsonPackage (doc : PackageJson).

(** Everything the code does to the outside, in the order it does it.
    Colours ([pc.dim], [pc.cyan], ...) and the labels and hints of prompt
    options are terminal rendering and are left out. *)
Inductive Event :=
| EvIntro (title : string)
| EvOutro (message : string)
| EvText (message : string)
| EvSelect (message : string) (options : list string)
| EvMultiselect (message : string) (options : list string)
| EvConfirm (message : string)
| EvLogInfo (message : string)
| EvLogWarn (message : string)
| EvNote (message title : string)
| EvConsoleLog (message : string)
| EvSpinnerStart (message : string)
| EvSpinnerStop (message : string)
| EvExeca (cmd : string) (args : list string) (cwd : option string)
| EvEnsureDir (path : string)
| EvWriteJSON (path : string) (doc : JsonDoc)
| EvWriteFile (path : string) (file : string)
| EvFrontendGenerate (f : Framework) (path : string) (config : ProjectConfig)
| EvBackendGenerate (b : BackendFramework) (path : string) (config : ProjectConfig)
| EvDockerCompose (path : string) (config : ProjectConfig).

(** The outside world of one run: what the user answers to each prompt,
    how each child process and file operation ends, what the file system
    holds, and node's [path] and [process.cwd]. *)
Record World := {
  answer_projectName : Answer string;
  answer_framework : Answer Framework;
  answer_backend : Answer BackendFramework;
  answer_runtime : Answer HonoRuntime;
  answer_database : Answer Database;
  answer_orm : Answer ORM;
  answer_auth : Answer Auth;
  answer_styling : Answer Styling;
  answer_packageManager : Answer PackageManager;
  answer_extras : Answer (list string);
  answer_confirm : Answer bool;
  execa_result : string → list string → option string → Res unit;
  process_cwd : string;
  path_resolve : string → string → string;
  path_basename : string → string;
  path_join : list string → string;
  fs_existsSync : string → bool;
  fs_readdirSync : string → Res (list string);
  fs_readJSON : string → Res PackageJson;
  fs_ensureDir : string → Res unit;
  fs_writeJSON : string → JsonDoc → Res unit;
  fs_writeFile : string → string → Res unit;
  frontend_generate : Framework → string → ProjectConfig → Res unit;
  backend_generate : BackendFramework → string → ProjectConfig → Res unit;
  docker_compose : string → ProjectConfig → Res unit
}.

(** A computation reads the world, and returns or throws after emitting
    some events. *)
Definition M (A : Type) : Type := World → Res A * list Event.

#[global] Instance M_ret : MRet M := λ A a _, (Ok a, []).

#[global] Instance M_bind : MBind M := λ A B k m w,
  match m w with
  | (Ok a, evs) => let '(r, evs') := k a w in (r, (evs ++ evs')%list)
  | (Throw e, evs) => (Throw e, evs)
  end.

Definition throw {A} (e : string) : M A := λ _, (Throw e, []).

(** [try { m } catch (e) { h e }] *)
Definition try_catch {A} (m : M A) (h : string → M A) : M A := λ w,
  match m w with
  | (Ok a, evs) => (Ok a, evs)
  | (Throw e, evs) => let '(r, evs') := h e w in (r, (evs ++ evs')%list)
  end.

Definition emit (ev : Event) : M unit := λ _, (Ok (), [ev]).

(** An effect whose end the world decides. *)
Definition perform (ev : Event) (end_ : World → Res unit) : M unit := λ w,
  (end_ w, [ev]).

Definition ask {A} (f : World → A) : M A := λ w, (Ok (f w), []).

Definition outcome {A} (m : M A) (w : World) : Res A := (m w).1.

(** The value [m] returns, if it returns. *)
Definition outcome_value {A} (m : M A) (w : World) : option A :=
  match outcome m w with
  | Ok a => Some a
  | Throw _ => None
  end.

Definition events {A} (m : M A) (w : World) : list Event := (m w).2.

(** *** [@clack/prompts] *)

Definition p_intro (title : string) : M unit := emit (EvIntro title).
Definition p_outro (message : string) : M unit := emit (EvOutro message).
Definition p_log_info (message : string) : M unit := emit (EvLogInfo message).
Definition p_log_warn (message : string) : M unit := emit (EvLogWarn message).
Definition p_note (message title : string) : M unit := emit (EvNote message title).
Definition console_log (message : string) : M unit := emit (EvConsoleLog message).

Definition p_text (message : string) (answer : World → Answer string)
  : M (Answer string) :=
  emit (EvText message);; ask answer.

Definition p_select {A} `{ToString A} (message : string) (options : list A)
    (answer : World → Answer A) : M (Answer A) :=
  emit (EvSelect message (to_string <$> options));; ask answer.

Definition p_multiselect (message : string) (options : list string)
    (answer : World → Answer (list string)) : M (Answer (list string)) :=
  emit (EvMultiselect message options);; ask answer.

Definition p_confirm (message : string) (answer : World → Answer bool)
  : M (Answer bool) :=
  emit (EvConfirm message);; ask answer.

Definition isCancel {A} (a : Answer A) : bool :=
  match a with Cancel => true | Value _ => false end.

(** [if (p.isCancel(x)) { throw new Error("CANCELLED"); }], after which
    [x] is the value. *)
Definition throwIfCancel {A} (a : Answer A) : M A :=
  match a with
  | Cancel => throw "CANCELLED"
  | Value v => mret v
  end.

(** [flag || (await prompt)] for a flag that is a non-empty literal when
    present. *)
Definition flag_or {A} (flag : option A) (prompt : M (Answer A)) : M (Answer A) :=
  match flag with
  | Some v => mret (Value v)
  | None => prompt
  end.

(** The same for a string flag, which is falsy when empty. *)
Definition string_flag_or (flag : option string) (prompt : M (Answer string))
  : M (Answer string) :=
  match flag with
  | Some s => if bool_decide (s = EmptyString) then prompt else mret (Value s)
  | None => prompt
  end.

(** *** [execa] and [src/utils/runtime.ts] *)

Definition execa (cmd : string) (args : list string) (cwd : option string) : M unit :=
  perform (EvExeca cmd args cwd) (λ w, execa_result w cmd args cwd).

Definition checkBunInstalled : M bool :=
  try_catch
    (execa "bun" ["--version"] None;; mret true)
    (λ _, mret false).

(** ** [src/utils/git.ts] *)

Definition initGit (cwd : string) : M unit :=
  try_catch
    (execa "git" ["init"] (Some cwd);;
     execa "git" ["add"; "-A"] (Some cwd);;
     execa "git" ["commit"; "-m"; "Initial commit from create-mrn-app"] (Some cwd))
    (λ _, mret ()).

(** ** [src/prompts/index.ts] *)

Record PromptOptions := {
  opt_projectName : option string;
  opt_framework : option Framework;
  opt_backend : option BackendFramework;
  opt_database : option Database;
  opt_orm : option ORM;
  opt_auth : option Auth;
  opt_styling : option Styling;
  opt_packageManager : option PackageManager;
  opt_runtime : option HonoRuntime
}.

Definition runPrompts (options : PromptOptions) : M ProjectConfig :=
  p_intro " create-mrn-app ";;
  projectName ← string_flag_or (opt_projectName options)
    (p_text "What is your project name?" answer_projectName);
  projectName ← throwIfCancel projectName;
  framework ← flag_or (opt_framework options)
    (p_select "Which frontend framework would you like to use?"
       [next; react; vue; astro] answer_framework);
  framework ← throwIfCancel framework;
  (* Filter backend options based on frontend framework *)
  let availableBackends := FRAMEWORK_BACKEND_COMPAT framework in
  backend ← flag_or (opt_backend options)
    (p_select "Which backend framework would you like to use?"
       (List.filter (includes availableBackends)
          [backend_none; nextjs_builtin; express; fastify; nestjs; hono; elysia;
           backend_convex])
       answer_backend);
  backend ← throwIfCancel backend;
  (* Handle Elysia - requires Bun *)
  forcePackageManager ←
    (if includes BUN_ONLY_BACKENDS backend then
       bunInstalled ← checkBunInstalled;
       (if negb bunInstalled then
          p_log_warn "⚠️  Elysia requires Bun runtime. Please install Bun: https://bun.sh";;
          p_log_info "Run: curl -fsSL https://bun.sh/install | bash"
        else mret ());;
       mret (Some bun)
     else mret None);
  (* Handle Hono - ask for runtime *)
  '(runtime, forcePackageManager) ←
    (if includes RUNTIME_SELECTABLE_BACKENDS backend then
       runtime ← flag_or (opt_runtime options)
         (p_select "Which runtime for Hono?" [rt_node; rt_bun] answer_runtime);
       runtime ← throwIfCancel runtime;
       mret (Some runtime,
             if bool_decide (runtime = rt_bun) then Some bun else forcePackageManager)
     else mret (None, forcePackageManager));
  (* Database and ORM selection (skip for Convex backend) *)
  '(database, orm) ←
    (if negb (includes SKIP_DB_BACKENDS backend) then
       let availableDBs := FRAMEWORK_DB_COMPAT framework in
       database ← flag_or (opt_database options)
         (p_select "Which database would you like to use?"
            (List.filter (includes availableDBs)
               [supabase; neon; planetscale; mongodb; sqlite; turso; db_none])
            answer_database);
       database ← throwIfCancel database;
       (* ORM selection based on database *)
       if negb (bool_decide (database = db_none)) then
         let availableORMs := DATABASE_ORM_COMPAT database in
         if bool_decide (1 < length availableORMs) then
           orm ← flag_or (opt_orm options)
             (p_select "Which ORM would you like to use?"
                (List.filter (includes availableORMs) [prisma; drizzle])
                answer_orm);
           orm ← throwIfCancel orm;
           mret (database, orm)
         else
           (* Auto-select if only one ORM available (e.g., MongoDB -> Prisma) *)
           (* availableORMs[0]; every row of the table is non-empty *)
           match availableORMs !! 0 with
           | Some orm =>
               (if negb (bool_decide (orm = orm_none)) then
                  p_log_info ("Using " +:+ to_string orm +:+ " for "
                                +:+ to_string database)
                else mret ());;
               mret (database, orm)
           | None => throw "TypeError"
           end
       else mret (database, orm_none)
     else
       (if bool_decide (backend = backend_convex) then
          p_log_info "Convex includes its own database - skipping database selection"
        else mret ());;
       mret (db_none, orm_none));
  (* Filter auth options based on framework *)
  let availableAuths := FRAMEWORK_AUTH_COMPAT framework in
  auth ← flag_or (opt_auth options)
    (p_select "Which authentication would you like to use?"
       (List.filter (includes availableAuths)
          [next_auth; clerk; supabase_auth; better_auth; auth_none])
       answer_auth);
  auth ← throwIfCancel auth;
  styling ← flag_or (opt_styling options)
    (p_select "Which styling solution would you like to use?"
       [tailwind; tailwind_shadcn; css_modules; vanilla] answer_styling);
  styling ← throwIfCancel styling;
  packageManager ←
    match forcePackageManager with
    | Some forced =>
        p_log_info ("Using " +:+ to_string forced
                      +:+ " as package manager (required by "
                      +:+ to_string backend +:+ ")");;
        mret forced
    | None =>
        packageManager ← flag_or (opt_packageManager options)
          (p_select "Which package manager would you like to use?"
             [pnpm; npm; bun] answer_packageManager);
        throwIfCancel packageManager
    end;
  extras ← p_multiselect "Select additional features:"
    ["typescript"; "eslint"; "testing"; "playwright"; "docker"] answer_extras;
  extras ← throwIfCancel extras;
  p_outro "Configuration complete! Creating your project...";;
  mret {|
    projectName := projectName;
    framework := framework;
    backend := backend;
    database := database;
    orm := orm;
    auth := auth;
    styling := styling;
    packageManager := packageManager;
    runtime := runtime;
    extras := {|
      typescript := includes extras "typescript";
      eslint := includes extras "eslint";
      prettier := includes extras "eslint";
      testing := includes extras "testing";
      playwright := includes extras "playwright";
      docker := includes extras "docker"
    |}
  |}.

(** ** Backend generators *)

(** A backend generator object: its [framework] field and the three
    manifest getters that every generator class defines (so the tests
    ["getDependencies" in backendGenerator] and ["getScripts" in
    backendGenerator] of [generateSingleProject] hold for each of them).
    Its [generate] method writes template files; see [backendGenerate]. *)
Record BackendGenerator := {
  generator_framework : BackendFramework;
  getScripts : ProjectConfig → gmap string string;
  getDependencies : ProjectConfig → gmap string string;
  getDevDependencies : ProjectConfig → gmap string string
}.

(** [src/generators/backends/nextjs-api.ts] *)
Module NextJSAPI.

Definition getDependencies (config : ProjectConfig) : gmap string string :=
  let deps := object [("zod", "^3.23.0")] in
  let deps :=
    if bool_decide (orm config = prisma)
    then <["@prisma/client" := "^5.22.0"]> deps else deps in
  let deps :=
    if bool_decide (orm config = drizzle) then
      let deps := <["drizzle-orm" := "^0.36.0"]> deps in
      let deps :=
        if bool_decide (database config = sqlite) || bool_decide (database config = turso)
        then <["better-sqlite3" := "^11.6.0"]> deps else deps in
      let deps :=
        if bool_decide (database config = neon) || bool_decide (database config = supabase)
        then <["@neondatabase/serverless" := "^0.10.0"]> deps else deps in
      let deps :=
        if bool_decide (database config = planetscale)
        then <["@planetscale/database" := "^1.19.0"]> deps else deps in
      deps
    else deps in
  deps.

Definition getDevDependencies (config : ProjectConfig) : gmap string string :=
  let devDeps : gmap string string := ∅ in
  let devDeps :=
    if bool_decide (orm config = prisma)
    then <["prisma" := "^5.22.0"]> devDeps else devDeps in
  let devDeps :=
    if bool_decide (orm config = drizzle) then
      let devDeps := <["drizzle-kit" := "^0.28.0"]> devDeps in
      let devDeps :=
        if bool_decide (database config = sqlite) || bool_decide (database config = turso)
        then <["@types/better-sqlite3" := "^7.6.0"]> devDeps else devDeps in
      devDeps
    else devDeps in
  devDeps.

Definition getScripts (config : ProjectConfig) : gmap string string :=
  let scripts : gmap string string := ∅ in
  let scripts :=
    if bool_decide (orm config = prisma) then
      <["db:studio" := "prisma studio"]>
        (<["db:migrate" := "prisma migrate dev"]>
           (<["db:push" := "prisma db push"]>
              (<["db:generate" := "prisma generate"]> scripts)))
    else scripts in
  let scripts :=
    if bool_decide (orm config = drizzle) then
      <["db:studio" := "drizzle-kit studio"]>
        (<["db:migrate" := "drizzle-kit migrate"]>
           (<["db:push" := "drizzle-kit push"]>
              (<["db:generate" := "drizzle-kit generate"]> scripts)))
    else scripts in
  scripts.

End NextJSAPI.

Definition NextJSAPIGenerator : BackendGenerator := {|
  generator_framework := nextjs_builtin;
  getScripts := NextJSAPI.getScripts;
  getDependencies := NextJSAPI.getDependencies;
  getDevDependencies := NextJSAPI.getDevDependencies
|}.

(** [src/generators/backends/convex.ts] *)
Definition ConvexGenerator : BackendGenerator := {|
  generator_framework := backend_convex;
  getScripts := λ _, object [
    ("convex:dev", "convex dev");
    ("convex:deploy", "convex deploy");
    ("convex:codegen", "convex codegen")
  ];
  getDependencies := λ _, object [("convex", "^1.17.0")];
  getDevDependencies := λ _, ∅
|}.

(** [src/generators/next.ts]: the dependencies the Next.js frontend
    declares in the manifest it writes. *)
Module NextFrontend.

Definition getDependencies (config : ProjectConfig) : gmap string string :=
  let deps := object [
    ("next", "^15.1.0"); ("react", "^19.0.0"); ("react-dom", "^19.0.0")
  ] in
  (* Database *)
  let deps :=
    match database config with
    | supabase =>
        <["@supabase/ssr" := "^0.5.0"]>
          (<["@supabase/supabase-js" := "^2.47.0"]> deps)
    | db_convex => <["convex" := "^1.17.0"]> deps
    | neon =>
        <["drizzle-orm" := "^0.38.0"]>
          (<["@neondatabase/serverless" := "^0.10.0"]> deps)
    | planetscale =>
        <["drizzle-orm" := "^0.38.0"]>
          (<["@planetscale/database" := "^1.19.0"]> deps)
    | turso =>
        <["drizzle-orm" := "^0.38.0"]> (<["@libsql/client" := "^0.14.0"]> deps)
    | sqlite =>
        <["drizzle-orm" := "^0.38.0"]> (<["better-sqlite3" := "^11.7.0"]> deps)
    | mongodb | db_none => deps
    end in
  (* Auth *)
  let deps :=
    match auth config with
    | next_auth => <["next-auth" := "^5.0.0-beta.25"]> deps
    | clerk => <["@clerk/nextjs" := "^6.9.0"]> deps
    | better_auth => <["better-auth" := "^1.1.0"]> deps
    | supabase_auth | auth_none => deps
    end in
  deps.

End NextFrontend.

(** ** [src/utils/package-manager.ts] *)

Definition getInstallCommand (pm : PackageManager) : string * list string :=
  match pm with
  | npm => ("npm", ["install"])
  | pnpm => ("pnpm", ["install"])
  | bun => ("bun", ["install"])
  end.

Definition installDependencies (cwd : string) (pm : PackageManager) : M unit :=
  let command := getInstallCommand pm in
  execa command.1 command.2 (Some cwd).

(** ** [src/generators/index.ts] *)

(** *** File system and template catalog *)

Definition fs_ensureDir_ (path : string) : M unit :=
  perform (EvEnsureDir path) (λ w, fs_ensureDir w path).

Definition fs_writeJSON_ (path : string) (doc : JsonDoc) : M unit :=
  perform (EvWriteJSON path doc) (λ w, fs_writeJSON w path doc).

Definition fs_writeFile_ (path : string) (file : string) : M unit :=
  perform (EvWriteFile path file) (λ w, fs_writeFile w path file).

Definition fs_readJSON_ (path : string) : M PackageJson := λ w,
  (fs_readJSON w path, []).

Definition fs_readdirSync_ (path : string) : M (list string) := λ w,
  (fs_readdirSync w path, []).

Definition join (parts : list string) : M string :=
  ask (λ w, path_join w parts).

Definition s_start (message : string) : M unit := emit (EvSpinnerStart message).
Definition s_stop (message : string) : M unit := emit (EvSpinnerStop message).

Inductive FrontendGenerator :=
| NextGenerator
| ReactGenerator
| VueGenerator
| AstroGenerator.

(** The [default] branch, which throws, is not reachable from a value of
    type [Framework]. *)
Definition getFrontendGenerator (framework : Framework) : FrontendGenerator :=
  match framework with
  | next => NextGenerator
  | react => ReactGenerator
  | vue => VueGenerator
  | astro => AstroGenerator
  end.

Definition frontend_framework (g : FrontendGenerator) : Framework :=
  match g with
  | NextGenerator => next
  | ReactGenerator => react
  | VueGenerator => vue
  | AstroGenerator => astro
  end.

(** [generator.generate(path, config)] writes the template files of a
    frontend; which files, and whether a write fails, is the world's. *)
Definition frontendGenerate (g : FrontendGenerator) (path : string)
    (config : ProjectConfig) : M unit :=
  let f := frontend_framework g in
  perform (EvFrontendGenerate f path config) (λ w, frontend_generate w f path config).

Definition backendGenerate (g : BackendGenerator) (path : string)
    (config : ProjectConfig) : M unit :=
  let b := generator_framework g in
  perform (EvBackendGenerate b path config) (λ w, backend_generate w b path config).

(** [generateDockerCompose] writes [docker-compose.yml] and
    [.env.example] from templates. *)
Definition generateDockerCompose (projectPath : string) (config : ProjectConfig)
  : M unit :=
  perform (EvDockerCompose projectPath config) (λ w, docker_compose w projectPath config).

Definition with_projectName (config : ProjectConfig) (n : string) : ProjectConfig := {|
  projectName := n;
  framework := framework config;
  backend := backend config;
  database := database config;
  orm := orm config;
  auth := auth config;
  styling := styling config;
  packageManager := packageManager config;
  runtime := runtime config;
  extras := extras config
|}.

(** *** The manifest merge of [generateSingleProject] *)

Definition with_dependencies (p : PackageJson) (m : gmap string string) : PackageJson := {|
  name := name p; version := version p; private := private p; type := type p;
  scripts := scripts p; dependencies := m; devDependencies := devDependencies p
|}.

Definition with_devDependencies (p : PackageJson) (m : gmap string string) : PackageJson := {|
  name := name p; version := version p; private := private p; type := type p;
  scripts := scripts p; dependencies := dependencies p; devDependencies := m
|}.

Definition with_scripts (p : PackageJson) (m : gmap string string) : PackageJson := {|
  name := name p; version := version p; private := private p; type := type p;
  scripts := m; dependencies := dependencies p; devDependencies := devDependencies p
|}.

(** The three assignments between [fs.readJSON] and [fs.writeJSON]. *)
Definition mergeBackendManifest (backendGenerator : BackendGenerator)
    (config : ProjectConfig) (packageJson : PackageJson) : PackageJson :=
  (* Add dependencies *)
  let backendDeps := getDependencies backendGenerator config in
  let packageJson :=
    with_dependencies packageJson (spread2 (dependencies packageJson) backendDeps) in
  (* Add dev dependencies *)
  let backendDevDeps := getDevDependencies backendGenerator config in
  let packageJson :=
    with_devDependencies packageJson
      (spread2 (devDependencies packageJson) backendDevDeps) in
  (* Add scripts *)
  let backendScripts := getScripts backendGenerator config in
  let packageJson :=
    with_scripts packageJson (spread2 (scripts packageJson) backendScripts) in
  packageJson.

Section Catalog.

(** The generators of the five separate-package backends (subclasses of
    [BaseBackendGenerator]); their manifests belong to the template
    catalog. *)
Variable baseBackendGenerator : BackendFramework → BackendGenerator.

Definition getBackendGenerator (framework : BackendFramework)
  : option BackendGenerator :=
  match framework with
  | express => Some (baseBackendGenerator express)
  | fastify => Some (baseBackendGenerator fastify)
  | hono => Some (baseBackendGenerator hono)
  | elysia => Some (baseBackendGenerator elysia)
  | nestjs => Some (baseBackendGenerator nestjs)
  | backend_convex => Some ConvexGenerator
  | nextjs_builtin => Some NextJSAPIGenerator
  | backend_none => None
  end.

Definition generateSingleProject (projectPath : string) (config : ProjectConfig)
    (isIntegratedBackend : bool) : M unit :=
  (* Generate frontend files *)
  s_start "Generating project files...";;
  let generator := getFrontendGenerator (framework config) in
  frontendGenerate generator projectPath config;;
  (* Generate integrated backend files if applicable *)
  (if isIntegratedBackend then
     match getBackendGenerator (backend config) with
     | Some backendGenerator =>
         backendGenerate backendGenerator projectPath config;;
         (* Merge backend dependencies and scripts into frontend package.json *)
         packageJsonPath ← join [projectPath; "package.json"];
         packageJson ← fs_readJSON_ packageJsonPath;
         let packageJson := mergeBackendManifest backendGenerator config packageJson in
         fs_writeJSON_ packageJsonPath (JsonPackage packageJson)
     | None => mret ()
     end
   else mret ());;
  s_stop "Project files generated";;
  (* Install dependencies *)
  s_start ("Installing dependencies with " +:+ to_string (packageManager config)
             +:+ "...");;
  installDependencies projectPath (packageManager config);;
  s_stop "Dependencies installed".

Definition createRootPackageJson (projectPath : string) (config : ProjectConfig)
  : M unit :=
  path ← join [projectPath; "package.json"];
  fs_writeJSON_ path (JsonRoot (rootPackageJson config)).

Definition createPnpmWorkspace (projectPath : string) : M unit :=
  let workspaceYaml :=
    "packages:" +:+ nl +:+ "  - " +:+ dq +:+ "packages/*" +:+ dq +:+ nl in
  path ← join [projectPath; "pnpm-workspace.yaml"];
  fs_writeFile_ path workspaceYaml.

Definition generateMonorepoProject (projectPath : string) (config : ProjectConfig)
  : M unit :=
  frontendPath ← join [projectPath; "packages"; "frontend"];
  backendPath ← join [projectPath; "packages"; "backend"];
  (* Create monorepo structure *)
  s_start "Setting up monorepo structure...";;
  fs_ensureDir_ frontendPath;;
  fs_ensureDir_ backendPath;;
  (* Create root package.json for workspaces *)
  createRootPackageJson projectPath config;;
  (* Create workspace config based on package manager *)
  (if bool_decide (packageManager config = pnpm)
   then createPnpmWorkspace projectPath else mret ());;
  s_stop "Monorepo structure created";;
  (* Generate frontend *)
  s_start "Generating frontend...";;
  let frontendGenerator := getFrontendGenerator (framework config) in
  frontendGenerate frontendGenerator frontendPath (with_projectName config "frontend");;
  s_stop "Frontend generated";;
  (* Generate backend *)
  s_start "Generating backend...";;
  match getBackendGenerator (backend config) with
  | Some backendGenerator =>
      backendGenerate backendGenerator backendPath (with_projectName config "backend")
  | None => mret ()
  end;;
  s_stop "Backend generated";;
  (* Generate Docker files if enabled *)
  (if docker (extras config) then
     s_start "Generating Docker configuration...";;
     generateDockerCompose projectPath config;;
     s_stop "Docker configuration generated"
   else mret ());;
  (* Install dependencies from root *)
  s_start ("Installing dependencies with " +:+ to_string (packageManager config)
             +:+ "...");;
  installDependencies projectPath (packageManager config);;
  s_stop "Dependencies installed".

(** The [getRunCommand] of this file (for [bun] it differs from the one
    exported by [utils/package-manager.ts]). *)
Definition getRunCommand (pm : PackageManager) (script : string) : string :=
  match pm with
  | npm => "npm run " +:+ script
  | pnpm => "pnpm " +:+ script
  | bun => "bun " +:+ script
  end.

(** One line of a template literal, with its line feed. *)
Definition ln (line : string) : string := line +:+ nl.

Definition printSuccessMessage (config : ProjectConfig) (projectPath : string)
    (isCurrentDir isMonorepo : bool) : M unit :=
  let pm := packageManager config in
  let runCmd := λ script, getRunCommand pm script in
  let message :=
    ln ("Success! Created " +:+ projectName config +:+ " at " +:+ projectPath)
    +:+ ln EmptyString
    +:+ ln "Inside that directory, you can run:" in
  let message :=
    if isMonorepo then
      let message :=
        message
        +:+ ln EmptyString
        +:+ ln ("  " +:+ runCmd "dev")
        +:+ ln "    Starts both frontend and backend in development mode"
        +:+ ln EmptyString
        +:+ ln ("  " +:+ runCmd "dev:frontend")
        +:+ ln "    Starts only the frontend development server"
        +:+ ln EmptyString
        +:+ ln ("  " +:+ runCmd "dev:backend")
        +:+ ln "    Starts only the backend development server"
        +:+ ln EmptyString
        +:+ ln ("  " +:+ runCmd "build")
        +:+ ln "    Builds both frontend and backend for production" in
      if docker (extras config) then
        message
        +:+ ln EmptyString
        +:+ ln "  docker-compose up"
        +:+ ln "    Runs the full stack with Docker"
      else message
    else
      message
      +:+ ln EmptyString
      +:+ ln ("  " +:+ runCmd "dev")
      +:+ ln "    Starts the development server"
      +:+ ln EmptyString
      +:+ ln ("  " +:+ runCmd "build")
      +:+ ln "    Builds the app for production"
      +:+ ln EmptyString
      +:+ ln ("  " +:+ runCmd "start")
      +:+ ln "    Runs the built app in production mode" in
  (* Add backend-specific instructions *)
  let message :=
    if bool_decide (backend config = backend_convex) then
      message
      +:+ ln EmptyString
      +:+ ln ("  " +:+ runCmd "convex:dev")
      +:+ ln "    Starts Convex development server"
    else message in
  (* Add database instructions *)
  let message :=
    if bool_decide (orm config = prisma) then
      message
      +:+ ln EmptyString
      +:+ ln ("  " +:+ runCmd "db:push")
      +:+ ln "    Push schema changes to database"
      +:+ ln EmptyString
      +:+ ln ("  " +:+ runCmd "db:studio")
      +:+ ln "    Open Prisma Studio"
    else if bool_decide (orm config = drizzle) then
      message
      +:+ ln EmptyString
      +:+ ln ("  " +:+ runCmd "db:push")
      +:+ ln "    Push schema changes to database"
      +:+ ln EmptyString
      +:+ ln ("  " +:+ runCmd "db:studio")
      +:+ ln "    Open Drizzle Studio"
    else message in
  let getStartedSteps :=
    if isCurrentDir then "  " +:+ runCmd "dev"
    else ln ("  cd " +:+ projectName config) +:+ "  " +:+ runCmd "dev" in
  let message :=
    message
    +:+ ln EmptyString
    +:+ ln "Get started by running:"
    +:+ ln EmptyString
    +:+ getStartedSteps in
  p_note message "Next steps".

Definition generate (config : ProjectConfig) : M unit :=
  (* Handle "." for current directory *)
  let isCurrentDir := bool_decide (projectName config = ".") in
  projectPath ← ask (λ w,
    if isCurrentDir then process_cwd w
    else path_resolve w (process_cwd w) (projectName config));
  (* Get actual project name from folder for package.json *)
  actualProjectName ← ask (λ w,
    if isCurrentDir then path_basename w (process_cwd w)
    else path_basename w (projectName config));
  (* Update config with actual project name *)
  let finalConfig := with_projectName config actualProjectName in
  (* Determine project structure *)
  let isMonorepo := requiresSeparatePackage (backend finalConfig) in
  let isIntegratedBackend := integratesWithFrontend (backend finalConfig) in
  (* Check if directory exists and not empty *)
  projectPathExists ← ask (λ w, fs_existsSync w projectPath);
  (if projectPathExists : bool then
     entries ← fs_readdirSync_ projectPath;
     let files :=
       List.filter
         (λ f, negb (String.prefix "." f) || bool_decide (f = ".env")) entries in
     if bool_decide (0 < length files) then
       shouldContinue ← p_confirm
         (if isCurrentDir then "Current directory is not empty. Continue anyway?"
          else "Directory " +:+ projectName config
                 +:+ " is not empty. Continue anyway?")
         answer_confirm;
       match shouldContinue with
       | Value true => mret ()
       | Value false | Cancel => throw "CANCELLED"
       end
     else mret ()
   else mret ());;
  (* Create project directory (skip if current dir) *)
  (if negb isCurrentDir then
     s_start "Creating project directory...";;
     fs_ensureDir_ projectPath;;
     s_stop "Project directory created"
   else mret ());;
  (if isMonorepo then
     (* Monorepo structure with packages/frontend and packages/backend *)
     generateMonorepoProject projectPath finalConfig
   else
     (* Single project (frontend only, or frontend with integrated backend) *)
     generateSingleProject projectPath finalConfig isIntegratedBackend);;
  (* Initialize git (skip if already in git repo) *)
  gitDir ← join [projectPath; ".git"];
  hasGit ← ask (λ w, fs_existsSync w gitDir);
  (if negb hasGit then
     s_start "Initializing git repository...";;
     initGit projectPath;;
     s_stop "Git repository initialized"
   else mret ());;
  (* Print success message *)
  console_log EmptyString;;
  printSuccessMessage finalConfig projectPath isCurrentDir isMonorepo;;
  console_log EmptyString.

End Catalog.

(** * More of the code *)

(** ** [src/generators/backends/index.ts]: the package names *)

(** "Get the backend package name for monorepo setups", and the
    frontend's. *)
Definition getBackendPackageName (config : ProjectConfig) : string :=
  projectName config +:+ "-backend".

Definition getFrontendPackageName (config : ProjectConfig) : string :=
  projectName config +:+ "-frontend".

(** ** The manifests the generators write *)

(** [src/generators/base.ts]: the three manifest getters that every
    frontend generator defines, and [BaseGenerator.getPackageJson], which
    each of them writes to [package.json]. *)
Record FrontendManifestGetters := {
  frontend_getScripts : ProjectConfig → gmap string string;
  frontend_getDependencies : ProjectConfig → gmap string string;
  frontend_getDevDependencies : ProjectConfig → gmap string string
}.

Module BaseGenerator.

Definition getPackageJson (this : FrontendManifestGetters)
    (config : ProjectConfig) : PackageJson := {|
  name := projectName config;
  version := "0.1.0";
  private := true;
  type := "module";
  scripts := frontend_getScripts this config;
  dependencies := frontend_getDependencies this config;
  devDependencies := frontend_getDevDependencies this config
|}.

End BaseGenerator.

(** [src/generators/backends/base-backend.ts]: what each of the five
    separate-package generators writes to [package.json]. *)
Module BaseBackendGenerator.

Definition getPackageJson (this : BackendGenerator) (config : ProjectConfig)
  : PackageJson := {|
  name := projectName config +:+ "-backend";
  version := "0.1.0";
  private := true;
  type := "module";
  scripts := getScripts this config;
  dependencies := getDependencies this config;
  devDependencies := getDevDependencies this config
|}.

End BaseBackendGenerator.

(** ** [src/utils/git.ts]: the probe *)

Definition isGitInstalled : M bool :=
  try_catch
    (execa "git" ["--version"] None;; mret true)
    (λ _, mret false).

(** ** [src/utils/package-manager.ts]: the functions next to [installDependencies] *)

(** [isDev] has the default [false]. *)
Module package_manager.

Definition getAddCommand (pm : PackageManager) (packages : list string)
    (isDev : bool) : string * list string :=
  match pm with
  | npm =>
      ("npm", ["install"] ++ (if isDev then ["--save-dev"] else []) ++ packages)
  | pnpm => ("pnpm", ["add"] ++ (if isDev then ["-D"] else []) ++ packages)
  | bun => ("bun", ["add"] ++ (if isDev then ["-d"] else []) ++ packages)
  end%list.

Definition addDependencies (cwd : string) (pm : PackageManager)
    (packages : list string) (isDev : bool) : M unit :=
  let command := getAddCommand pm packages isDev in
  execa command.1 command.2 (Some cwd).

Definition getRunCommand (pm : PackageManager) (script : string) : string :=
  match pm with
  | npm => "npm run " +:+ script
  | pnpm => "pnpm " +:+ script
  | bun => "bun run " +:+ script
  end.

Definition getExecCommand (pm : PackageManager) : string :=
  match pm with
  | npm => "npx"
  | pnpm => "pnpm dlx"
  | bun => "bunx"
  end.

End package_manager.

(** ** [src/generators/next.ts]: scripts and development dependencies *)

Module Next.

Definition getScripts (config : ProjectConfig) : gmap string string :=
  let scripts := object [
    ("dev", "next dev"); ("build", "next build"); ("start", "next start");
    ("lint", "next lint")
  ] in
  let scripts :=
    if testing (extras config)
    then <["test:ui" := "vitest --ui"]> (<["test" := "vitest"]> scripts)
    else scripts in
  let scripts :=
    if bool_decide (database config = db_convex)
    then <["convex" := "convex dev"]>
           (<["dev" := "convex dev --once && next dev"]> scripts)
    else scripts in
  scripts.

Definition getDevDependencies (config : ProjectConfig) : gmap string string :=
  let devDeps : gmap string string := ∅ in
  let devDeps :=
    if typescript (extras config)
    then <["@types/react-dom" := "^19.0.0"]>
           (<["@types/react" := "^19.0.0"]>
              (<["@types/node" := "^22.10.0"]>
                 (<["typescript" := "^5.7.0"]> devDeps)))
    else devDeps in
  let devDeps :=
    if bool_decide (styling config = tailwind)
       || bool_decide (styling config = tailwind_shadcn)
    then <["autoprefixer" := "^10.4.0"]>
           (<["postcss" := "^8.4.0"]> (<["tailwindcss" := "^3.4.0"]> devDeps))
    else devDeps in
  let devDeps :=
    if eslint (extras config)
    then <["prettier" := "^3.4.0"]>
           (<["eslint-config-next" := "^15.1.0"]>
              (<["eslint" := "^9.17.0"]> devDeps))
    else devDeps in
  let devDeps :=
    if testing (extras config)
    then <["@testing-library/react" := "^16.1.0"]>
           (<["@vitejs/plugin-react" := "^4.3.0"]>
              (<["vitest" := "^2.1.0"]> devDeps))
    else devDeps in
  let devDeps :=
    if bool_decide (database config = sqlite)
    then <["@types/better-sqlite3" := "^7.6.0"]> devDeps else devDeps in
  let devDeps :=
    if bool_decide (database config = neon)
       || bool_decide (database config = planetscale)
       || bool_decide (database config = turso)
       || bool_decide (database config = sqlite)
    then <["drizzle-kit" := "^0.30.0"]> devDeps else devDeps in
  devDeps.

End Next.

(** The getters of [NextGenerator]. *)
Definition NextGenerator_getters : FrontendManifestGetters := {|
  frontend_getScripts := Next.getScripts;
  frontend_getDependencies := NextFrontend.getDependencies;
  frontend_getDevDependencies := Next.getDevDependencies
|}.

(** ** [src/utils/logger.ts] *)

Module logger.

Definition warn (message : string) : M unit :=
  console_log ("warn" +:+ " - " +:+ message).

Definition error (message : string) : M unit :=
  console_log ("error" +:+ " - " +:+ message).

End logger.

Definition banner : M unit :=
  console_log EmptyString;;
  console_log "  create-mrn-app ";;
  console_log "  Scaffold modern full-stack apps";;
  console_log EmptyString.

(** ** [src/cli.ts] *)

(** What commander hands to the action: a flag that was not given is
    [undefined]. *)
Record CLIOptions := {
  flag_framework : option Framework;
  flag_backend : option BackendFramework;
  flag_db : option Database;
  flag_orm : option ORM;
  flag_runtime : option HonoRuntime;
  flag_auth : option Auth;
  flag_styling : option Styling;
  flag_pm : option PackageManager;
  flag_typescript : option bool;
  flag_eslint : option bool;
  flag_docker : option bool;
  flag_testing : option bool;
  flag_playwright : option bool;
  flag_yes : option bool
}.

(** Truthiness of an optional literal of a union type (never empty), of
    an optional boolean and of an optional string. *)
Definition truthy {A} (x : option A) : bool :=
  match x with Some _ => true | None => false end.

Definition truthy_bool (x : option bool) : bool := default false x.

Definition truthy_string (x : option string) : bool :=
  match x with
  | Some s => negb (bool_decide (s = EmptyString))
  | None => false
  end.

Definition hasAllFlags (options : CLIOptions) : bool :=
  truthy (flag_framework options)
  && truthy (flag_backend options)
  && truthy (flag_db options)
  && truthy (flag_auth options)
  && truthy (flag_styling options)
  && truthy (flag_pm options).

(** How the action ends: it returns, or it leaves through
    [process.exit]. *)
Inductive Completion := Returned | Exited (code : nat).

(** The [extras] object literal of the two non-interactive branches. *)
Definition flag_extras (options : CLIOptions) : Extras := {|
  typescript := default true (flag_typescript options);
  eslint := default true (flag_eslint options);
  prettier := default true (flag_eslint options);
  testing := default false (flag_testing options);
  playwright := default false (flag_playwright options);
  docker := default false (flag_docker options)
|}.

Section Cli.

Variable baseBackendGenerator : BackendFramework → BackendGenerator.

(** The callback of [program.action].  Everything thrown in the model is
    an [Error] with its message. *)
Definition action (projectName : option string) (options : CLIOptions)
  : M Completion :=
  banner;;
  try_catch
    (config ←
       (if truthy_bool (flag_yes options) && truthy_string projectName then
          (* Use defaults with provided project name *)
          mret {|
            projectName := default EmptyString projectName;
            framework := default next (flag_framework options);
            backend := default backend_none (flag_backend options);
            database := default db_none (flag_db options);
            orm := default orm_none (flag_orm options);
            auth := default auth_none (flag_auth options);
            styling := default tailwind (flag_styling options);
            packageManager := default pnpm (flag_pm options);
            runtime := flag_runtime options;
            extras := flag_extras options
          |}
        else if hasAllFlags options && truthy_string projectName then
          (* All flags provided *)
          match flag_framework options, flag_backend options, flag_db options,
                flag_auth options, flag_styling options, flag_pm options with
          | Some framework, Some backend, Some db, Some auth, Some styling,
            Some pm =>
              mret {|
                projectName := default EmptyString projectName;
                framework := framework;
                backend := backend;
                database := db;
                orm := default orm_none (flag_orm options);
                auth := auth;
                styling := styling;
                packageManager := pm;
                runtime := flag_runtime options;
                extras := flag_extras options
              |}
          | _, _, _, _, _, _ => throw "TypeError"
          end
        else
          (* Interactive mode *)
          runPrompts {|
            opt_projectName := projectName;
            opt_framework := flag_framework options;
            opt_backend := flag_backend options;
            opt_database := flag_db options;
            opt_orm := flag_orm options;
            opt_auth := flag_auth options;
            opt_styling := flag_styling options;
            opt_packageManager := flag_pm options;
            opt_runtime := flag_runtime options
          |});
     generate baseBackendGenerator config;;
     mret Returned)
    (λ error,
       if bool_decide (error = "CANCELLED") then
         logger.warn "Operation cancelled";;
         mret (Exited 0)
       else
         logger.error error;;
         mret (Exited 1)).

End Cli.

(** * Notions used in the statements *)

(** The value a resolution step settles on: the flag when it is given, the
    prompt's answer otherwise. *)
Definition selected {A} (flag : option A) (answer : Answer A) : Answer A :=
  match flag with
  | Some v => Value v
  | None => answer
  end.

Definition selected_backend (options : PromptOptions) (w : World)
  : Answer BackendFramework :=
  selected (opt_backend options) (answer_backend w).

Definition selected_database (options : PromptOptions) (w : World)
  : Answer Database :=
  selected (opt_database options) (answer_database w).

(** A user who answers every prompt of [runPrompts]. *)
Definition never_cancels (w : World) : bool :=
  negb (isCancel (answer_projectName w))
  && negb (isCancel (answer_framework w))
  && negb (isCancel (answer_backend w))
  && negb (isCancel (answer_runtime w))
  && negb (isCancel (answer_database w))
  && negb (isCancel (answer_orm w))
  && negb (isCancel (answer_auth w))
  && negb (isCancel (answer_styling w))
  && negb (isCancel (answer_packageManager w))
  && negb (isCancel (answer_extras w)).

(** The notice that the package manager was forced: the template literal
    of [runPrompts] at some package manager and backend. *)
Definition override_notices : list string :=
  pm ← [npm; pnpm; bun];
  b ← [backend_none; nextjs_builtin; express; fastify; nestjs; hono; elysia;
       backend_convex];
  ["Using " +:+ to_string pm +:+ " as package manager (required by "
     +:+ to_string b +:+ ")"].

Definition is_override_notice (ev : Event) : bool :=
  match ev with
  | EvLogInfo message => bool_decide (message ∈ override_notices)
  | _ => false
  end.

Definition is_orm_prompt (ev : Event) : bool :=
  match ev with
  | EvSelect message _ => bool_decide (message = "Which ORM would you like to use?")
  | _ => false
  end.

Definition is_select (message : string) (options : list string) (ev : Event)
  : bool :=
  match ev with
  | EvSelect message' options' =>
      bool_decide (message' = message) && bool_decide (options' = options)
  | _ => false
  end.

(** The ORMs of a database's allow-list other than ["none"]. *)
Definition real_orms (d : Database) : list ORM :=
  List.filter (λ o, negb (bool_decide (o = orm_none))) (DATABASE_ORM_COMPAT d).

Definition is_info (message : string) (ev : Event) : bool :=
  match ev with
  | EvLogInfo message' => bool_decide (message' = message)
  | _ => false
  end.

(** How many of the events satisfy [φ]. *)
Definition tally (φ : Event → bool) (evs : list Event) : nat :=
  length (List.filter φ evs).

(** [wp φ m w Q E]: in world [w], when [m] returns [a] after events of
    which [n] satisfy [φ], [Q a n] holds; when it throws after events of
    which [n] satisfy [φ], [E n] holds. *)
Definition wp {A} (φ : Event → bool) (m : M A) (w : World)
    (Q : A → nat → Prop) (E : nat → Prop) : Prop :=
  match m w with
  | (Ok a, evs) => Q a (tally φ evs)
  | (Throw _, evs) => E (tally φ evs)
  end.

(** Partial correctness: nothing is said of a run that throws. *)
Definition may_throw : nat → Prop := λ _, True.

(** Total correctness: the run returns. *)
Definition never_throws : nat → Prop := λ _, False.

(** [wpl φ m w Q E]: as [wp], with the events that satisfy [φ]
    themselves, in the order of the run, instead of their number. *)
Definition wpl {A} (φ : Event → bool) (m : M A) (w : World)
    (Q : A → list Event → Prop) (E : list Event → Prop) : Prop :=
  match m w with
  | (Ok a, evs) => Q a (List.filter φ evs)
  | (Throw _, evs) => E (List.filter φ evs)
  end.

(** Nothing is said of a run that throws. *)
Definition may_throw_after : list Event → Prop := λ _, True.

(** The world [w] with the end of every command replaced. *)
Definition with_execa (w : World)
    (result : string → list string → option string → Res unit) : World := {|
  answer_projectName := answer_projectName w;
  answer_framework := answer_framework w;
  answer_backend := answer_backend w;
  answer_runtime := answer_runtime w;
  answer_database := answer_database w;
  answer_orm := answer_orm w;
  answer_auth := answer_auth w;
  answer_styling := answer_styling w;
  answer_packageManager := answer_packageManager w;
  answer_extras := answer_extras w;
  answer_confirm := answer_confirm w;
  execa_result := result;
  process_cwd := process_cwd w;
  path_resolve := path_resolve w;
  path_basename := path_basename w;
  path_join := path_join w;
  fs_existsSync := fs_existsSync w;
  fs_readdirSync := fs_readdirSync w;
  fs_readJSON := fs_readJSON w;
  fs_ensureDir := fs_ensureDir w;
  fs_writeJSON := fs_writeJSON w;
  fs_writeFile := fs_writeFile w;
  frontend_generate := frontend_generate w;
  backend_generate := backend_generate w;
  docker_compose := docker_compose w
|}.

(** The world [w] with the end of every [git] command replaced. *)
Definition with_git (w : World) (git : list string → option string → Res unit)
  : World :=
  with_execa w (λ cmd args cwd,
    if bool_decide (cmd = "git") then git args cwd
    else execa_result w cmd args cwd).

(** The outcome of [m] does not depend on how [git] commands end. *)
Definition git_independent {A} (m : M A) : Prop :=
  ∀ w git, outcome m (with_git w git) = outcome m w.

(** Writes of a workspace-root manifest, and those among them whose
    document fails a test. *)
Definition is_root_write (ev : Event) : bool :=
  match ev with
  | EvWriteJSON _ (JsonRoot _) => true
  | _ => false
  end.

Definition is_root_write_failing (good : RootPackageJson → bool) (ev : Event)
  : bool :=
  match ev with
  | EvWriteJSON _ (JsonRoot doc) => negb (good doc)
  | _ => false
  end.

Definition has_the_eight_scripts (doc : RootPackageJson) : bool :=
  bool_decide
    (dom (root_scripts doc)
     = list_to_set ["dev"; "dev:frontend"; "dev:backend"; "build";
                    "build:frontend"; "build:backend"; "lint"; "test"]).

(** The manifest that the single-package branch is to write when the
    backend is integrated: the backend generator's three mappings merged
    into what [fs.readJSON] returns for the frontend's [package.json]. *)
Definition merged_manifest (catalog : BackendFramework → BackendGenerator)
    (projectPath : string) (config : ProjectConfig) (w : World)
  : option PackageJson :=
  match getBackendGenerator catalog (backend config),
        fs_readJSON w (path_join w [projectPath; "package.json"]) with
  | Some g, Ok p => Some (mergeBackendManifest g config p)
  | _, _ => None
  end.

Definition is_package_write (ev : Event) : bool :=
  match ev with
  | EvWriteJSON _ (JsonPackage _) => true
  | _ => false
  end.

Definition is_package_write_other_than (expected : option PackageJson)
    (ev : Event) : bool :=
  match ev with
  | EvWriteJSON _ (JsonPackage doc) => negb (bool_decide (Some doc = expected))
  | _ => false
  end.

Definition is_ensureDir_of (paths : list string) (ev : Event) : bool :=
  match ev with
  | EvEnsureDir path => bool_decide (path ∈ paths)
  | _ => false
  end.

Definition is_ensureDir (ev : Event) : bool :=
  match ev with
  | EvEnsureDir _ => true
  | _ => false
  end.

(** Anything the user would see: log lines, notes, console output. *)
Definition is_output (ev : Event) : bool :=
  match ev with
  | EvLogInfo _ | EvLogWarn _ | EvNote _ _ | EvConsoleLog _ => true
  | _ => false
  end.

Definition is_git_command (cwd : string) (ev : Event) : bool :=
  match ev with
  | EvExeca cmd _ cwd' => bool_decide (cmd = "git") && bool_decide (cwd' = Some cwd)
  | _ => false
  end.

(** *** Sample inputs *)

(** A catalog whose separate-package backends declare nothing. *)
Definition sample_catalog (b : BackendFramework) : BackendGenerator := {|
  generator_framework := b;
  getScripts := λ _, ∅;
  getDependencies := λ _, ∅;
  getDevDependencies := λ _, ∅
|}.

Definition express_config : ProjectConfig := {|
  projectName := "my-app";
  framework := react;
  backend := express;
  database := db_none;
  orm := orm_none;
  auth := auth_none;
  styling := tailwind;
  packageManager := npm;
  runtime := None;
  extras := {| typescript := true; eslint := true; prettier := true;
               testing := false; playwright := false; docker := false |}
|}.

Definition no_options : PromptOptions := {|
  opt_projectName := None;
  opt_framework := None;
  opt_backend := None;
  opt_database := None;
  opt_orm := None;
  opt_auth := None;
  opt_styling := None;
  opt_packageManager := None;
  opt_runtime := None
|}.

(** [--db mongodb] and nothing else. *)
Definition mongodb_options : PromptOptions := {|
  opt_projectName := None;
  opt_framework := None;
  opt_backend := None;
  opt_database := Some mongodb;
  opt_orm := None;
  opt_auth := None;
  opt_styling := None;
  opt_packageManager := None;
  opt_runtime := None
|}.

(** The selection [{framework: "next", backend: "nextjs-builtin",
    database: "sqlite"}]. *)
Definition next_builtin_sqlite_options : PromptOptions := {|
  opt_projectName := None;
  opt_framework := Some next;
  opt_backend := Some nextjs_builtin;
  opt_database := Some sqlite;
  opt_orm := None;
  opt_auth := None;
  opt_styling := None;
  opt_packageManager := None;
  opt_runtime := None
|}.

(** The selection [{framework: "react", backend: "elysia",
    packageManager: "npm"}]. *)
Definition react_elysia_npm_options : PromptOptions := {|
  opt_projectName := None;
  opt_framework := Some react;
  opt_backend := Some elysia;
  opt_database := None;
  opt_orm := None;
  opt_auth := None;
  opt_styling := None;
  opt_packageManager := Some npm;
  opt_runtime := None
|}.

Definition empty_manifest : PackageJson := {|
  name := "my-app"; version := "0.1.0"; private := true; type := "module";
  scripts := ∅; dependencies := ∅; devDependencies := ∅
|}.

(** A world in which every command and file operation succeeds, nothing
    exists on disk yet, and the user picks the given backend, database,
    ORM and package manager. *)
Definition sample_world (b : BackendFramework) (d : Database) (o : ORM)
    (pm : PackageManager) : World := {|
  answer_projectName := Value "my-app";
  answer_framework := Value next;
  answer_backend := Value b;
  answer_runtime := Value rt_node;
  answer_database := Value d;
  answer_orm := Value o;
  answer_auth := Value auth_none;
  answer_styling := Value tailwind;
  answer_packageManager := Value pm;
  answer_extras := Value ["typescript"; "eslint"];
  answer_confirm := Value true;
  execa_result := λ _ _ _, Ok ();
  process_cwd := "/home/user";
  path_resolve := λ a b, a +:+ "/" +:+ b;
  path_basename := λ a, a;
  path_join := λ parts, String.concat "/" parts;
  fs_existsSync := λ _, false;
  fs_readdirSync := λ _, Ok [];
  fs_readJSON := λ _, Ok empty_manifest;
  fs_ensureDir := λ _, Ok ();
  fs_writeJSON := λ _ _, Ok ();
  fs_writeFile := λ _ _, Ok ();
  frontend_generate := λ _ _ _, Ok ();
  backend_generate := λ _ _ _, Ok ();
  docker_compose := λ _ _, Ok ()
|}.

(** ** Further notions *)

Definition selected_framework (options : PromptOptions) (w : World)
  : Answer Framework :=
  selected (opt_framework options) (answer_framework w).

Definition selected_runtime (options : PromptOptions) (w : World)
  : Answer HonoRuntime :=
  selected (opt_runtime options) (answer_runtime w).

Definition selected_packageManager (options : PromptOptions) (w : World)
  : Answer PackageManager :=
  selected (opt_packageManager options) (answer_packageManager w).

(** What the ORM step settles on for a database it is run on. *)
Definition resolved_orm (options : PromptOptions) (w : World) (d : Database)
  : Answer ORM :=
  if bool_decide (d = db_none) then Value orm_none
  else if bool_decide (1 < length (DATABASE_ORM_COMPAT d))
       then selected (opt_orm options) (answer_orm w)
       else match DATABASE_ORM_COMPAT d !! 0 with
            | Some o => Value o
            | None => Cancel
            end.

Definition is_question (ev : Event) : bool :=
  match ev with
  | EvText _ | EvSelect _ _ => true
  | _ => false
  end.

Definition is_multiselect (ev : Event) : bool :=
  match ev with
  | EvMultiselect _ _ => true
  | _ => false
  end.

Definition is_select_message (message : string) (ev : Event) : bool :=
  match ev with
  | EvSelect message' _ => bool_decide (message' = message)
  | _ => false
  end.

(** [m] throws nothing but [new Error(e)]. *)
Definition throws_only {A} (e : string) (m : M A) : Prop :=
  ∀ w e', outcome m w = Throw e' → e' = e.

(** Every flag that [runPrompts] reads is given. *)
Definition all_flags_given (options : PromptOptions) : bool :=
  truthy_string (opt_projectName options)
  && truthy (opt_framework options)
  && truthy (opt_backend options)
  && truthy (opt_database options)
  && truthy (opt_orm options)
  && truthy (opt_auth options)
  && truthy (opt_styling options)
  && truthy (opt_packageManager options)
  && truthy (opt_runtime options).

(** A select prompt with the given message that shows other options than
    the given ones. *)
Definition is_select_other_than (message : string) (options : list string)
    (ev : Event) : bool :=
  match ev with
  | EvSelect message' options' =>
      bool_decide (message' = message) && negb (bool_decide (options' = options))
  | _ => false
  end.

(** The database prompt or the ORM prompt. *)
Definition is_database_or_orm_prompt (ev : Event) : bool :=
  is_select_message "Which database would you like to use?" ev
  || is_orm_prompt ev.

(** The directory [generate] works in. *)
Definition projectPath_of (config : ProjectConfig) (w : World) : string :=
  if bool_decide (projectName config = ".") then process_cwd w
  else path_resolve w (process_cwd w) (projectName config).

Definition is_writeFile (ev : Event) : bool :=
  match ev with
  | EvWriteFile _ _ => true
  | _ => false
  end.

Definition is_dockerCompose (ev : Event) : bool :=
  match ev with
  | EvDockerCompose _ _ => true
  | _ => false
  end.


#[global] Instance Extras_eq_dec : EqDecision Extras.
Proof. solve_decision. Defined.

#[global] Instance ProjectConfig_eq_dec : EqDecision ProjectConfig.
Proof. solve_decision. Defined.

(** A call of a frontend generator with other arguments than the given
    ones. *)
Definition is_frontendGenerate_other_than (f : Framework) (path : string)
    (config : ProjectConfig) (ev : Event) : bool :=
  match ev with
  | EvFrontendGenerate f' path' config' =>
      negb (bool_decide (f' = f ∧ path' = path ∧ config' = config))
  | _ => false
  end.

Definition is_backendGenerate_other_than (b : option BackendFramework)
    (path : string) (config : ProjectConfig) (ev : Event) : bool :=
  match ev with
  | EvBackendGenerate b' path' config' =>
      negb (bool_decide (Some b' = b ∧ path' = path ∧ config' = config))
  | _ => false
  end.

Definition is_frontendGenerate (ev : Event) : bool :=
  match ev with
  | EvFrontendGenerate _ _ _ => true
  | _ => false
  end.

(** A call of a generator's [generate], of a frontend or of a backend. *)
Definition is_generator_call (ev : Event) : bool :=
  match ev with
  | EvFrontendGenerate _ _ _ | EvBackendGenerate _ _ _ => true
  | _ => false
  end.

(** An [fs.writeFile] at the given path, whatever is written. *)
Definition is_writeFile_at (path : string) (ev : Event) : bool :=
  match ev with
  | EvWriteFile path' _ => bool_decide (path' = path)
  | _ => false
  end.

(** The write of [pnpm-workspace.yaml] with its one glob. *)
Definition is_workspace_file (path : string) (ev : Event) : bool :=
  match ev with
  | EvWriteFile path' file =>
      bool_decide (path' = path)
      && bool_decide (file = "packages:" +:+ nl +:+ "  - " +:+ dq
                               +:+ "packages/*" +:+ dq +:+ nl)
  | _ => false
  end.

Definition is_confirm (ev : Event) : bool :=
  match ev with
  | EvConfirm _ => true
  | _ => false
  end.

(** A [git] command, in whatever directory. *)
Definition is_git (ev : Event) : bool :=
  match ev with
  | EvExeca cmd _ _ => bool_decide (cmd = "git")
  | _ => false
  end.

Definition is_note (ev : Event) : bool :=
  match ev with
  | EvNote _ _ => true
  | _ => false
  end.

(** The command that installs with the configuration's package manager
    in the given directory, and the commands that are neither it nor a
    [git] command. *)
Definition is_install (config : ProjectConfig) (cwd : string) (ev : Event)
  : bool :=
  match ev with
  | EvExeca cmd args cwd' =>
      bool_decide (cmd = to_string (packageManager config))
      && bool_decide (args = ["install"])
      && bool_decide (cwd' = Some cwd)
  | _ => false
  end.

Definition is_other_command (config : ProjectConfig) (cwd : string)
    (ev : Event) : bool :=
  match ev with
  | EvExeca _ _ _ => negb (is_git ev) && negb (is_install config cwd ev)
  | _ => false
  end.


(** The entries of [before] that [after] holds with another value, or not
    at all: the key, the old value and what [after] has. *)
Definition changed_entries (before after : gmap string string)
  : list (string * string * option string) :=
  omap (λ '(k, v),
          if bool_decide (after !! k = Some v) then None
          else Some (k, v, after !! k))
       (map_to_list before).

(** The configuration read off the flags, with the defaults of [--yes]. *)
Definition flags_config (name : string) (options : CLIOptions)
  : ProjectConfig := {|
  projectName := name;
  framework := default next (flag_framework options);
  backend := default backend_none (flag_backend options);
  database := default db_none (flag_db options);
  orm := default orm_none (flag_orm options);
  auth := default auth_none (flag_auth options);
  styling := default tailwind (flag_styling options);
  packageManager := default pnpm (flag_pm options);
  runtime := flag_runtime options;
  extras := flag_extras options
|}.

(** What only [runPrompts] does: its frame, its questions, its notices
    and the probe for Bun. *)
Definition is_resolver_event (ev : Event) : bool :=
  match ev with
  | EvIntro _ | EvOutro _ | EvText _ | EvSelect _ _ | EvMultiselect _ _
  | EvLogInfo _ | EvLogWarn _ => true
  | EvExeca cmd args cwd =>
      bool_decide (cmd = "bun") && bool_decide (args = ["--version"])
      && bool_decide (cwd = None)
  | _ => false
  end.

Definition banner_lines : list Event :=
  [EvConsoleLog EmptyString; EvConsoleLog "  create-mrn-app ";
   EvConsoleLog "  Scaffold modern full-stack apps"; EvConsoleLog EmptyString].

(** *** Further sample inputs *)

(** A machine on which the user answers every question of [runPrompts]
    (Next.js, no backend), with the given answers to the extras and
    confirm prompts, the given directory listing and command results. *)
Definition sample_machine (extras : Answer (list string))
    (confirm : Answer bool) (existsSync : string → bool)
    (entries : list string)
    (commands : string → list string → option string → Res unit) : World := {|
  answer_projectName := Value "my-app";
  answer_framework := Value next;
  answer_backend := Value backend_none;
  answer_runtime := Value rt_node;
  answer_database := Value db_none;
  answer_orm := Value orm_none;
  answer_auth := Value auth_none;
  answer_styling := Value tailwind;
  answer_packageManager := Value npm;
  answer_extras := extras;
  answer_confirm := confirm;
  execa_result := commands;
  process_cwd := "/home/user";
  path_resolve := λ a b, a +:+ "/" +:+ b;
  path_basename := λ a, a;
  path_join := λ parts, String.concat "/" parts;
  fs_existsSync := existsSync;
  fs_readdirSync := λ _, Ok entries;
  fs_readJSON := λ _, Ok empty_manifest;
  fs_ensureDir := λ _, Ok ();
  fs_writeJSON := λ _ _, Ok ();
  fs_writeFile := λ _ _, Ok ();
  frontend_generate := λ _ _ _, Ok ();
  backend_generate := λ _ _ _, Ok ();
  docker_compose := λ _ _, Ok ()
|}.

(** [--framework vue --backend nextjs-builtin --db convex --auth next-auth],
    none of which the tables allow for Vue. *)
Definition vue_mismatch_options : PromptOptions := {|
  opt_projectName := Some "my-app";
  opt_framework := Some vue;
  opt_backend := Some nextjs_builtin;
  opt_database := Some db_convex;
  opt_orm := None;
  opt_auth := Some next_auth;
  opt_styling := None;
  opt_packageManager := None;
  opt_runtime := None
|}.

Definition all_flags_options : PromptOptions := {|
  opt_projectName := Some "my-app";
  opt_framework := Some react;
  opt_backend := Some hono;
  opt_database := Some sqlite;
  opt_orm := Some drizzle;
  opt_auth := Some clerk;
  opt_styling := Some tailwind;
  opt_packageManager := Some pnpm;
  opt_runtime := Some rt_node
|}.

Definition vue_options : PromptOptions := {|
  opt_projectName := None;
  opt_framework := Some vue;
  opt_backend := None;
  opt_database := None;
  opt_orm := None;
  opt_auth := None;
  opt_styling := None;
  opt_packageManager := None;
  opt_runtime := None
|}.

(** [--db sqlite --orm prisma] with the Convex backend. *)
Definition convex_sqlite_options : PromptOptions := {|
  opt_projectName := None;
  opt_framework := None;
  opt_backend := Some backend_convex;
  opt_database := Some sqlite;
  opt_orm := Some prisma;
  opt_auth := None;
  opt_styling := None;
  opt_packageManager := None;
  opt_runtime := None
|}.

Definition next_config (b : BackendFramework) (d : Database) (o : ORM)
    (pm : PackageManager) : ProjectConfig := {|
  projectName := "my-app";
  framework := next;
  backend := b;
  database := d;
  orm := o;
  auth := auth_none;
  styling := tailwind;
  packageManager := pm;
  runtime := None;
  extras := {| typescript := true; eslint := true; prettier := true;
               testing := false; playwright := false; docker := false |}
|}.

(** [my-app --framework react --backend elysia --db none --auth none
    --styling tailwind --pm npm] *)
Definition elysia_npm_flags : CLIOptions := {|
  flag_framework := Some react;
  flag_backend := Some elysia;
  flag_db := Some db_none;
  flag_orm := None;
  flag_runtime := None;
  flag_auth := Some auth_none;
  flag_styling := Some tailwind;
  flag_pm := Some npm;
  flag_typescript := Some true;
  flag_eslint := Some true;
  flag_docker := None;
  flag_testing := None;
  flag_playwright := None;
  flag_yes := None
|}.

Definition all_succeed : string → list string → option string → Res unit :=
  λ _ _ _, Ok ().

Definition nothing_on_disk : string → bool := λ _, false.

Definition install_fails : string → list string → option string → Res unit :=
  λ _ args _,
    if bool_decide (args = ["install"]) then Throw "spawn npm ENOENT"
    else Ok ().

(** * Properties *)

(** ** Mappings *)

Lemma copyDataProperties_union (target source : gmap string string) :
  copyDataProperties target source = source ∪ target.
Proof.
  unfold copyDataProperties.
  apply (map_fold_weak_ind (λ r m, r = m ∪ target)).
  - by rewrite (left_id_L ∅ (∪)).
  - intros k v m r _ ->. by rewrite insert_union_l.
Qed.

Lemma spread2_union (a b : gmap string string) : spread2 a b = b ∪ a.
Proof.
  unfold spread2. rewrite !copyDataProperties_union.
  by rewrite (right_id_L ∅ (∪)).
Qed.

Lemma spread2_lookup (a b : gmap string string) (k : string) :
  spread2 a b !! k = match b !! k with Some v => Some v | None => a !! k end.
Proof.
  rewrite spread2_union, lookup_union.
  destruct (b !! k), (a !! k); reflexivity.
Qed.

Lemma spread2_dom (a b : gmap string string) :
  dom (spread2 a b) = dom a ∪ dom b.
Proof. rewrite spread2_union, dom_union_L. apply (comm_L (∪)). Qed.

(** The two examples of the manifest merger's contract. *)
Example spread2_collision :
  spread2 (object [("a", "1")]) (object [("a", "2")]) = object [("a", "2")].
Proof. rewrite spread2_union. vm_compute. reflexivity. Qed.

Example spread2_disjoint :
  spread2 (object [("a", "1"); ("b", "2")]) (object [("c", "3")])
  = object [("a", "1"); ("b", "2"); ("c", "3")].
Proof. rewrite spread2_union. vm_compute. reflexivity. Qed.

(** ** Reasoning about computations *)

Lemma bind_run {A B} (m : M A) (k : A → M B) (w : World) :
  (m ≫= k) w =
    match m w with
    | (Ok a, evs) => ((k a w).1, (evs ++ (k a w).2)%list)
    | (Throw e, evs) => (Throw e, evs)
    end.
Proof.
  unfold mbind, M_bind. destruct (m w) as [[a|e] evs]; [|done].
  by destruct (k a w).
Qed.

Lemma outcome_bind {A B} (m : M A) (k : A → M B) (w : World) :
  outcome (m ≫= k) w =
    match outcome m w with
    | Ok a => outcome (k a) w
    | Throw e => Throw e
    end.
Proof. unfold outcome. rewrite bind_run. by destruct (m w) as [[a|e] evs]. Qed.

Lemma tally_app φ (evs1 evs2 : list Event) :
  tally φ (evs1 ++ evs2)%list = tally φ evs1 + tally φ evs2.
Proof. unfold tally. by rewrite List.filter_app, length_app. Qed.

Section WP.
Context (φ : Event → bool) (w : World).

Lemma wp_ret {A} (a : A) (Q : A → nat → Prop) E :
  Q a 0 → wp φ (mret a) w Q E.
Proof. done. Qed.

Lemma wp_throw {A} (e : string) (Q : A → nat → Prop) (E : nat → Prop) :
  E 0 → wp φ (throw e) w Q E.
Proof. done. Qed.

Lemma wp_bind {A B} (m : M A) (k : A → M B) (Q : B → nat → Prop) E :
  wp φ m w
     (λ a n1, wp φ (k a) w (λ b n2, Q b (n1 + n2)) (λ n2, E (n1 + n2))) E →
  wp φ (m ≫= k) w Q E.
Proof.
  unfold wp. rewrite bind_run. destruct (m w) as [[a|e] evs]; [|done].
  destruct (k a w) as [[b|e] evs']; cbn; by rewrite tally_app.
Qed.

Lemma wp_mono {A} (m : M A) (Q Q' : A → nat → Prop) (E E' : nat → Prop) :
  wp φ m w Q E → (∀ a n, Q a n → Q' a n) → (∀ n, E n → E' n) →
  wp φ m w Q' E'.
Proof. unfold wp. destruct (m w) as [[a|e] evs]; auto. Qed.

(** Sequencing through an intermediate assertion. *)
Lemma wp_cut {A B} (R : A → nat → Prop) (m : M A) (k : A → M B)
    (Q : B → nat → Prop) E :
  wp φ m w R E →
  (∀ a n1, R a n1 →
     wp φ (k a) w (λ b n2, Q b (n1 + n2)) (λ n2, E (n1 + n2))) →
  wp φ (m ≫= k) w Q E.
Proof.
  intros Hm Hk. apply wp_bind. eapply wp_mono; [exact Hm | exact Hk | done].
Qed.

Lemma wp_emit_skip (ev : Event) (Q : unit → nat → Prop) E :
  φ ev = false → Q () 0 → wp φ (emit ev) w Q E.
Proof. unfold wp, emit, tally. cbn. by intros ->. Qed.

Lemma wp_emit_hit (ev : Event) (Q : unit → nat → Prop) E :
  φ ev = true → Q () 1 → wp φ (emit ev) w Q E.
Proof. unfold wp, emit, tally. cbn. by intros ->. Qed.

Lemma wp_perform_skip (ev : Event) (end_ : World → Res unit)
    (Q : unit → nat → Prop) (E : nat → Prop) :
  φ ev = false → Q () 0 → E 0 → wp φ (perform ev end_) w Q E.
Proof.
  unfold wp, perform, tally. cbn. intros -> ? ?. by destruct (end_ w) as [[]|].
Qed.

Lemma wp_perform_hit (ev : Event) (end_ : World → Res unit)
    (Q : unit → nat → Prop) (E : nat → Prop) :
  φ ev = true → Q () 1 → E 1 → wp φ (perform ev end_) w Q E.
Proof.
  unfold wp, perform, tally. cbn. intros -> ? ?. by destruct (end_ w) as [[]|].
Qed.

Lemma wp_ask {A} (f : World → A) (Q : A → nat → Prop) E :
  Q (f w) 0 → wp φ (ask f) w Q E.
Proof. done. Qed.

Lemma wp_throwIfCancel {A} (a : Answer A) (Q : A → nat → Prop) (E : nat → Prop) :
  (a = Cancel → E 0) → (∀ v, a = Value v → Q v 0) →
  wp φ (throwIfCancel a) w Q E.
Proof. destruct a; unfold wp; cbn; auto. Qed.

Lemma wp_p_select {A} `{ToString A} message (options : list A)
    (answer : World → Answer A) (Q : Answer A → nat → Prop) E :
  φ (EvSelect message (to_string <$> options)) = false →
  Q (answer w) 0 →
  wp φ (p_select message options answer) w Q E.
Proof.
  intros Hφ HQ. unfold p_select. apply wp_bind.
  apply wp_emit_skip; [done |]. by apply wp_ask.
Qed.

Lemma wp_p_select_hit {A} `{ToString A} message (options : list A)
    (answer : World → Answer A) (Q : Answer A → nat → Prop) E :
  φ (EvSelect message (to_string <$> options)) = true →
  Q (answer w) 1 →
  wp φ (p_select message options answer) w Q E.
Proof.
  intros Hφ HQ. unfold p_select. apply wp_bind.
  apply wp_emit_hit; [done |]. by apply wp_ask.
Qed.

Lemma wp_flag_or_select {A} `{ToString A} (flag : option A) message
    (options : list A) (answer : World → Answer A) (Q : Answer A → nat → Prop) E :
  φ (EvSelect message (to_string <$> options)) = false →
  Q (selected flag (answer w)) 0 →
  wp φ (flag_or flag (p_select message options answer)) w Q E.
Proof. destruct flag; [done |]. apply wp_p_select. Qed.

Lemma wp_string_flag_or_text (flag : option string) message
    (answer : World → Answer string) (Q : Answer string → nat → Prop) E :
  φ (EvText message) = false →
  (∀ a, (∃ s, a = Value s) ∨ a = answer w → Q a 0) →
  wp φ (string_flag_or flag (p_text message answer)) w Q E.
Proof.
  intros Hφ HQ.
  assert (wp φ (p_text message answer) w Q E) as Hp.
  { unfold p_text. apply wp_bind. apply wp_emit_skip; [done |].
    apply wp_ask. cbn. apply HQ. by right. }
  unfold string_flag_or. destruct flag as [s|]; [|done].
  case_bool_decide; [done |]. apply wp_ret, HQ. eauto.
Qed.

Lemma wp_p_multiselect message options answer
    (Q : Answer (list string) → nat → Prop) E :
  φ (EvMultiselect message options) = false →
  Q (answer w) 0 →
  wp φ (p_multiselect message options answer) w Q E.
Proof.
  intros Hφ HQ. unfold p_multiselect. apply wp_bind.
  apply wp_emit_skip; [done |]. by apply wp_ask.
Qed.

Lemma wp_checkBunInstalled (Q : bool → nat → Prop) E :
  φ (EvExeca "bun" ["--version"] None) = false →
  (∀ b, Q b 0) → wp φ checkBunInstalled w Q E.
Proof.
  intros Hφ HQ. unfold wp, checkBunInstalled, try_catch.
  rewrite bind_run. unfold execa, perform. cbn.
  destruct (execa_result w "bun" ["--version"] None); cbn;
    unfold tally; cbn; rewrite Hφ; apply HQ.
Qed.

Lemma wp_returned {A} (m : M A) (Q : A → nat → Prop) E a evs :
  wp φ m w Q E → m w = (Ok a, evs) → Q a (tally φ evs).
Proof. unfold wp. intros H Hm. by rewrite Hm in H. Qed.

Lemma wp_returns {A} (m : M A) (Q : A → nat → Prop) :
  wp φ m w Q never_throws → ∃ a evs, m w = (Ok a, evs) ∧ Q a (tally φ evs).
Proof. unfold wp. destruct (m w) as [[a|e] evs]; [eauto | done]. Qed.

Lemma wp_events {A} (m : M A) (P : nat → Prop) :
  wp φ m w (λ _, P) P → P (tally φ (events m w)).
Proof. unfold wp, events. by destruct (m w) as [[a|e] evs]. Qed.

End WP.

Section WPEffects.
Context (φ : Event → bool) (w : World).

Lemma wp_readJSON path (Q : PackageJson → nat → Prop) (E : nat → Prop) :
  (∀ p, fs_readJSON w path = Ok p → Q p 0) → E 0 →
  wp φ (fs_readJSON_ path) w Q E.
Proof.
  intros HQ HE. unfold wp, fs_readJSON_.
  destruct (fs_readJSON w path) eqn:?; cbn; auto.
Qed.

Lemma wp_readdirSync path (Q : list string → nat → Prop) (E : nat → Prop) :
  (∀ l, Q l 0) → E 0 → wp φ (fs_readdirSync_ path) w Q E.
Proof.
  intros HQ HE. unfold wp, fs_readdirSync_.
  destruct (fs_readdirSync w path) eqn:?; cbn; auto.
Qed.

(** [initGit] returns whatever its three commands do. *)
Lemma wp_initGit cwd (Q : unit → nat → Prop) (E : nat → Prop) :
  (∀ args, φ (EvExeca "git" args (Some cwd)) = false) →
  Q () 0 → wp φ (initGit cwd) w Q E.
Proof.
  intros Hφ HQ. unfold wp, initGit, try_catch. rewrite !bind_run.
  unfold execa, perform, tally. cbn.
  destruct (execa_result w "git" ["init"] (Some cwd)) as [[]|]; cbn;
    rewrite ?Hφ; [|done].
  destruct (execa_result w "git" ["add"; "-A"] (Some cwd)) as [[]|]; cbn;
    rewrite ?Hφ; [|done].
  by destruct (execa_result w "git" _ (Some cwd)) as [[]|]; cbn; rewrite ?Hφ.
Qed.

End WPEffects.

(** *** Symbolic execution *)

Create HintDb effects.

#[local] Hint Unfold s_start s_stop console_log p_note p_confirm join
  fs_ensureDir_ fs_writeJSON_ fs_writeFile_ frontendGenerate backendGenerate
  generateDockerCompose execa createRootPackageJson createPnpmWorkspace
  printSuccessMessage generateSingleProject generateMonorepoProject
  p_intro p_outro p_log_info p_log_warn : effects.

Lemma rootPackageJson_script_keys (config : ProjectConfig) :
  dom (root_scripts (rootPackageJson config))
  = list_to_set ["dev"; "dev:frontend"; "dev:backend"; "build"; "build:frontend";
                 "build:backend"; "lint"; "test"].
Proof.
  unfold rootPackageJson. cbn [root_scripts]. unfold object.
  rewrite dom_list_to_map_L. reflexivity.
Qed.

Lemma root_write_passes path config :
  is_root_write_failing has_the_eight_scripts
    (EvWriteJSON path (JsonRoot (rootPackageJson config))) = false.
Proof.
  cbn. unfold has_the_eight_scripts.
  by rewrite bool_decide_eq_true_2 by apply rootPackageJson_script_keys.
Qed.

#[local] Hint Resolve root_write_passes : effects.

Lemma ensureDir_of_hit paths path :
  path ∈ paths → is_ensureDir_of paths (EvEnsureDir path) = true.
Proof. intros. cbn. by apply bool_decide_eq_true_2. Qed.

(** Whether the event at hand is counted. *)
Ltac wp_side :=
  first [ solve [auto 1 with effects nocore]
        | reflexivity
        | apply ensureDir_of_hit; by repeat constructor ].

Ltac wp_eval_if c :=
  let c' := eval hnf in c in
  lazymatch c' with
  | true => change c with true; cbv iota
  | false => change c with false; cbv iota
  end.

Ltac wp_eval_option x :=
  let x' := eval hnf in x in
  lazymatch x' with
  | Some _ => change x with x'; cbv iota
  | None => change x with x'; cbv iota
  end.

(** One step of symbolic execution.  An event whose text depends on a
    variable of a literal type is decided by cases on the variable. *)
Ltac wp_step :=
  lazymatch goal with
  | |- wp _ (mret _) _ _ _ => apply wp_ret
  | |- wp _ (throw _) _ _ _ => apply wp_throw
  | |- wp _ (emit ?ev) _ _ _ =>
      first [ apply wp_emit_skip; [wp_side |]
            | apply wp_emit_hit; [wp_side |]
            | match ev with context [to_string ?x] => is_var x; destruct x end ]
  | |- wp _ (perform ?ev _) _ _ _ =>
      first [ apply wp_perform_skip; [wp_side | |]
            | apply wp_perform_hit; [wp_side | |] ]
  | |- wp _ (ask _) _ _ _ => apply wp_ask
  | |- wp _ checkBunInstalled _ _ _ =>
      apply wp_checkBunInstalled; [reflexivity | intros ?]
  | |- wp _ (fs_readJSON_ _) _ _ _ => apply wp_readJSON; [intros ? ? |]
  | |- wp _ (fs_readdirSync_ _) _ _ _ => apply wp_readdirSync; [intros ? |]
  | |- wp _ (initGit _) _ _ _ => apply wp_initGit; [intros ?; reflexivity |]
  | |- wp _ (installDependencies _ ?pm) _ _ _ =>
      unfold installDependencies; destruct pm; cbn [getInstallCommand fst snd]
  | |- wp _ (flag_or _ (p_select _ _ _)) _ _ _ =>
      first [ apply wp_flag_or_select; [reflexivity |]
            | unfold flag_or ]
  | |- wp _ (p_select _ _ _) _ _ _ =>
      first [ apply wp_p_select; [reflexivity |]
            | apply wp_p_select_hit; [reflexivity |] ]
  | |- wp _ (string_flag_or _ (p_text _ _)) _ _ _ =>
      apply wp_string_flag_or_text; [reflexivity | intros ? ?]
  | |- wp _ (p_multiselect _ _ _) _ _ _ =>
      apply wp_p_multiselect; [reflexivity |]
  | |- wp _ (throwIfCancel ?a) _ _ _ =>
      try lazymatch goal with H : a = Value _ |- _ => rewrite H end;
      apply wp_throwIfCancel;
      [try done | let H := fresh in intros ? H; try (injection H; clear H; intros <-)]
  | |- wp _ ((if true then _ else _) ≫= _) _ _ _ => cbv iota
  | |- wp _ (_ ≫= _) _ _ _ => apply wp_bind
  | |- wp _ (if negb (bool_decide (?d = db_none)) then _ else _) _ _ _ =>
      tryif is_var d then destruct d
      else wp_eval_if (negb (bool_decide (d = db_none)))
  | |- wp _ (if ?c then _ else _) _ _ _ =>
      first [ wp_eval_if c | destruct c eqn:? ]
  | |- wp _ (match ?x with Some _ => _ | None => _ end) _ _ _ =>
      first [ wp_eval_option x
            | lazymatch goal with H : x = _ |- _ => rewrite H end
            | destruct x eqn:? ]
  | |- wp _ (let '(_, _) := ?x in _) _ _ _ =>
      tryif is_var x then destruct x else cbv beta iota
  | |- wp _ (match ?x with _ => _ end) _ _ _ => destruct x eqn:?
  | |- wp _ _ _ _ _ => progress autounfold with effects
  end.

(** At a branching step followed by more code, continue from the
    assertion [R] instead of once per branch. *)
Tactic Notation "wp_cut_branch" uconstr(R) :=
  lazymatch goal with
  | |- wp _ ((if true then _ else _) ≫= _) _ _ _ => fail
  | |- wp _ ((if _ then _ else _) ≫= _) _ _ _ =>
      apply (wp_cut _ _ R); [| intros ? ? ?]
  | |- wp _ ((match _ with Some _ => _ | None => _ end) ≫= _) _ _ _ =>
      apply (wp_cut _ _ R); [| intros ? ? ?]
  end.

(** *** The events themselves *)

Section WPL.
Context (φ : Event → bool) (w : World).

Lemma wpl_ret {A} (a : A) (Q : A → list Event → Prop) E :
  Q a [] → wpl φ (mret a) w Q E.
Proof. done. Qed.

Lemma wpl_throw {A} (e : string) (Q : A → list Event → Prop)
    (E : list Event → Prop) :
  E [] → wpl φ (throw e) w Q E.
Proof. done. Qed.

Lemma wpl_bind {A B} (m : M A) (k : A → M B) (Q : B → list Event → Prop) E :
  wpl φ m w
      (λ a l1, wpl φ (k a) w (λ b l2, Q b (l1 ++ l2)%list)
                 (λ l2, E (l1 ++ l2)%list)) E →
  wpl φ (m ≫= k) w Q E.
Proof.
  unfold wpl. rewrite bind_run. destruct (m w) as [[a|e] evs]; [|done].
  destruct (k a w) as [[b|e] evs']; cbn; by rewrite List.filter_app.
Qed.

Lemma wpl_mono {A} (m : M A) (Q Q' : A → list Event → Prop)
    (E E' : list Event → Prop) :
  wpl φ m w Q E → (∀ a l, Q a l → Q' a l) → (∀ l, E l → E' l) →
  wpl φ m w Q' E'.
Proof. unfold wpl. destruct (m w) as [[a|e] evs]; auto. Qed.

Lemma wpl_cut {A B} (R : A → list Event → Prop) (m : M A) (k : A → M B)
    (Q : B → list Event → Prop) E :
  wpl φ m w R E →
  (∀ a l1, R a l1 →
     wpl φ (k a) w (λ b l2, Q b (l1 ++ l2)%list) (λ l2, E (l1 ++ l2)%list)) →
  wpl φ (m ≫= k) w Q E.
Proof.
  intros Hm Hk. apply wpl_bind. eapply wpl_mono; [exact Hm | exact Hk | done].
Qed.

Lemma wpl_emit (ev : Event) (Q : unit → list Event → Prop) E :
  Q () (if φ ev then [ev] else []) → wpl φ (emit ev) w Q E.
Proof. unfold wpl, emit. cbn. by destruct (φ ev). Qed.

Lemma wpl_perform (ev : Event) (end_ : World → Res unit)
    (Q : unit → list Event → Prop) (E : list Event → Prop) :
  Q () (if φ ev then [ev] else []) → E (if φ ev then [ev] else []) →
  wpl φ (perform ev end_) w Q E.
Proof.
  unfold wpl, perform. cbn. intros ? ?.
  by destruct (end_ w) as [[]|], (φ ev).
Qed.

Lemma wpl_ask {A} (f : World → A) (Q : A → list Event → Prop) E :
  Q (f w) [] → wpl φ (ask f) w Q E.
Proof. done. Qed.

Lemma wpl_readJSON path (Q : PackageJson → list Event → Prop)
    (E : list Event → Prop) :
  (∀ p, Q p []) → E [] → wpl φ (fs_readJSON_ path) w Q E.
Proof.
  intros HQ HE. unfold wpl, fs_readJSON_.
  destruct (fs_readJSON w path); cbn; auto.
Qed.

Lemma wpl_readdirSync path (Q : list string → list Event → Prop)
    (E : list Event → Prop) :
  (∀ l, Q l []) → E [] → wpl φ (fs_readdirSync_ path) w Q E.
Proof.
  intros HQ HE. unfold wpl, fs_readdirSync_.
  destruct (fs_readdirSync w path); cbn; auto.
Qed.

Lemma wpl_initGit cwd (Q : unit → list Event → Prop) (E : list Event → Prop) :
  (∀ args, φ (EvExeca "git" args (Some cwd)) = false) →
  Q () [] → wpl φ (initGit cwd) w Q E.
Proof.
  intros Hφ HQ. unfold wpl, initGit, try_catch. rewrite !bind_run.
  unfold execa, perform. cbn.
  destruct (execa_result w "git" ["init"] (Some cwd)) as [[]|]; cbn;
    rewrite ?Hφ; [|done].
  destruct (execa_result w "git" ["add"; "-A"] (Some cwd)) as [[]|]; cbn;
    rewrite ?Hφ; [|done].
  by destruct (execa_result w "git" _ (Some cwd)) as [[]|]; cbn; rewrite ?Hφ.
Qed.

Lemma wpl_returned {A} (m : M A) (Q : A → list Event → Prop) E a evs :
  wpl φ m w Q E → m w = (Ok a, evs) → Q a (List.filter φ evs).
Proof. unfold wpl. intros H Hm. by rewrite Hm in H. Qed.

End WPL.

(** One step of the same symbolic execution for [wpl]. *)
Ltac wpl_step :=
  lazymatch goal with
  | |- wpl _ (mret _) _ _ _ => apply wpl_ret
  | |- wpl _ (throw _) _ _ _ => apply wpl_throw
  | |- wpl _ (emit _) _ _ _ => apply wpl_emit
  | |- wpl _ (perform _ _) _ _ _ => apply wpl_perform
  | |- wpl _ (ask _) _ _ _ => apply wpl_ask
  | |- wpl _ (fs_readJSON_ _) _ _ _ => apply wpl_readJSON; [intros ? |]
  | |- wpl _ (fs_readdirSync_ _) _ _ _ => apply wpl_readdirSync; [intros ? |]
  | |- wpl _ (initGit _) _ _ _ => apply wpl_initGit; [intros ?; reflexivity |]
  | |- wpl _ (installDependencies _ ?pm) _ _ _ =>
      unfold installDependencies; destruct pm; cbn [getInstallCommand fst snd]
  | |- wpl _ ((if true then _ else _) ≫= _) _ _ _ => cbv iota
  | |- wpl _ ((if false then _ else _) ≫= _) _ _ _ => cbv iota
  | |- wpl _ (_ ≫= _) _ _ _ => apply wpl_bind
  | |- wpl _ (if ?c then _ else _) _ _ _ =>
      first [ wp_eval_if c | destruct c eqn:? ]
  | |- wpl _ (match ?x with Some _ => _ | None => _ end) _ _ _ =>
      first [ wp_eval_option x | destruct x eqn:? ]
  | |- wpl _ (match ?x with _ => _ end) _ _ _ => destruct x eqn:?
  | |- wpl _ _ _ _ _ => progress autounfold with effects
  end.

(** At a branching step followed by more code, continue from the
    assertion [R]; a branch whose condition is known is taken instead. *)
Tactic Notation "wpl_cut_branch" uconstr(R) :=
  lazymatch goal with
  | |- wpl _ ((if ?c then _ else _) ≫= _) _ _ _ =>
      first [ wp_eval_if c | apply (wpl_cut _ _ R); [| intros ? ? ?] ]
  | |- wpl _ ((match ?x with Some _ => _ | None => _ end) ≫= _) _ _ _ =>
      first [ wp_eval_option x | apply (wpl_cut _ _ R); [| intros ? ? ?] ]
  end.

(** *** Independence of [git] *)

Lemma initGit_outcome cwd w : outcome (initGit cwd) w = Ok ().
Proof.
  unfold outcome, initGit, try_catch. rewrite !bind_run.
  unfold execa, perform. cbn.
  destruct (execa_result w "git" ["init"] (Some cwd)) as [[]|]; [|done].
  destruct (execa_result w "git" ["add"; "-A"] (Some cwd)) as [[]|]; [|done].
  by destruct (execa_result w "git" _ (Some cwd)) as [[]|].
Qed.

Section GitIndependent.

Lemma gi_ret {A} (a : A) : git_independent (mret a).
Proof. done. Qed.

Lemma gi_throw {A} e : git_independent (throw e : M A).
Proof. done. Qed.

Lemma gi_emit ev : git_independent (emit ev).
Proof. done. Qed.

Lemma gi_ask {A} (f : World → A) :
  (∀ w git, f (with_git w git) = f w) → git_independent (ask f).
Proof. intros Hf w git. unfold outcome, ask. cbn. by rewrite Hf. Qed.

Lemma gi_perform ev end_ :
  (∀ w git, end_ (with_git w git) = end_ w) →
  git_independent (perform ev end_).
Proof. intros Hf w git. unfold outcome, perform. cbn. by rewrite Hf. Qed.

Lemma gi_bind {A B} (m : M A) (k : A → M B) :
  git_independent m → (∀ a, git_independent (k a)) →
  git_independent (m ≫= k).
Proof.
  intros Hm Hk w git. rewrite !outcome_bind, Hm.
  destruct (outcome m w); [apply Hk | done].
Qed.

Lemma gi_initGit cwd : git_independent (initGit cwd).
Proof. intros w git. by rewrite !initGit_outcome. Qed.

Lemma gi_readJSON path : git_independent (fs_readJSON_ path).
Proof. done. Qed.

Lemma gi_readdirSync path : git_independent (fs_readdirSync_ path).
Proof. done. Qed.

End GitIndependent.

Ltac gi_step :=
  lazymatch goal with
  | |- git_independent (mret _) => apply gi_ret
  | |- git_independent (throw _) => apply gi_throw
  | |- git_independent (emit _) => apply gi_emit
  | |- git_independent (ask _) => apply gi_ask; reflexivity
  | |- git_independent (perform _ _) => apply gi_perform; reflexivity
  | |- git_independent (initGit _) => apply gi_initGit
  | |- git_independent (fs_readJSON_ _) => apply gi_readJSON
  | |- git_independent (fs_readdirSync_ _) => apply gi_readdirSync
  | |- git_independent (installDependencies _ ?pm) =>
      unfold installDependencies; destruct pm; cbn [getInstallCommand fst snd]
  | |- git_independent (_ ≫= _) => apply gi_bind; [| intros ?]
  | |- git_independent (if ?c then _ else _) => destruct c
  | |- git_independent (match ?x with _ => _ end) => destruct x
  | |- git_independent _ => progress autounfold with effects
  end.

(** ** The layout classifier *)

(** C2. For a backend that the framework's allow-list admits, the layout is
    one of the three tags, read off the backend alone by the table below
    (the framework does not occur in it), and each tag is characterised by
    the two layout predicates. *)
Theorem classify_depends_on_backend_only (f : Framework) (b : BackendFramework) :
  includes (FRAMEWORK_BACKEND_COMPAT f) b = true →
  classify b =
    match b with
    | express | fastify | hono | elysia | nestjs => layout_separate
    | nextjs_builtin | backend_convex => layout_integrated
    | backend_none => layout_none
    end
  ∧ (classify b = layout_separate ↔ requiresSeparatePackage b = true)
  ∧ (classify b = layout_integrated ↔ integratesWithFrontend b = true)
  ∧ (classify b = layout_none ↔
       requiresSeparatePackage b = false ∧ integratesWithFrontend b = false).
Proof. intros _. destruct b; vm_compute; intuition congruence. Qed.

Lemma classify_depends_on_backend_only_witness :
  includes (FRAMEWORK_BACKEND_COMPAT next) nextjs_builtin = true
  ∧ classify nextjs_builtin = layout_integrated.
Proof.
  split; [reflexivity |].
  exact (proj1 (classify_depends_on_backend_only next nextjs_builtin eq_refl)).
Defined.

(** C8. No backend is both in the separate-package set and in the
    integrated set. *)
Theorem layout_sets_disjoint (b : BackendFramework) :
  ¬ (requiresSeparatePackage b = true ∧ integratesWithFrontend b = true).
Proof. destruct b; vm_compute; intros [? ?]; discriminate. Qed.

(** ** The manifest merge *)

Lemma mergeBackendManifest_fields g config p :
  dependencies (mergeBackendManifest g config p)
    = spread2 (dependencies p) (getDependencies g config)
  ∧ devDependencies (mergeBackendManifest g config p)
    = spread2 (devDependencies p) (getDevDependencies g config)
  ∧ scripts (mergeBackendManifest g config p)
    = spread2 (scripts p) (getScripts g config).
Proof. done. Qed.

(** Backend entries of [dependencies] survive the merge with their own
    values. *)
Lemma mergeBackendManifest_dependencies g config p k v :
  getDependencies g config !! k = Some v →
  dependencies (mergeBackendManifest g config p) !! k = Some v.
Proof.
  intros Hk. destruct (mergeBackendManifest_fields g config p) as (-> & _).
  by rewrite spread2_lookup, Hk.
Qed.

(** In the single-package branch with an integrated backend, whatever is
    written as a package manifest is the merged manifest. *)
Lemma generateSingleProject_writes_merged catalog projectPath config w :
  wp (is_package_write_other_than (merged_manifest catalog projectPath config w))
     (generateSingleProject catalog projectPath config true) w
     (λ _ n, n = 0) (λ n, n = 0).
Proof.
  unfold generateSingleProject.
  repeat first [ wp_cut_branch (λ _ n, n = 0) | wp_step ].
  all: try (subst; cbn; done).
  apply wp_perform_skip; [| done | done].
  cbn. unfold merged_manifest.
  match goal with
  | Hg : getBackendGenerator _ _ = _, Hp : fs_readJSON _ _ = _ |- _ =>
      rewrite Hg, Hp
  end.
  by rewrite bool_decide_eq_true_2.
Qed.

(** C1. The merge of an integrated backend into the frontend manifest is
    right-biased on each of [dependencies], [devDependencies] and
    [scripts]: at every key the merged mapping holds the backend's value
    when the backend has the key, and the frontend's entry (or none)
    otherwise; so its keys are those of the frontend together with those of
    the backend, and the rest of the manifest is unchanged.  In the
    single-package branch with an integrated backend, no package manifest
    other than this merged one is written. *)
Theorem merge_is_right_biased (catalog : BackendFramework → BackendGenerator)
    (projectPath : string) (config : ProjectConfig) (w : World) :
  (∀ (g : BackendGenerator) (p : PackageJson),
     let merged := mergeBackendManifest g config p in
     (∀ k, dependencies merged !! k =
             match getDependencies g config !! k with
             | Some v => Some v
             | None => dependencies p !! k
             end)
     ∧ (∀ k, devDependencies merged !! k =
               match getDevDependencies g config !! k with
               | Some v => Some v
               | None => devDependencies p !! k
               end)
     ∧ (∀ k, scripts merged !! k =
               match getScripts g config !! k with
               | Some v => Some v
               | None => scripts p !! k
               end)
     ∧ dom (dependencies merged)
         = dom (dependencies p) ∪ dom (getDependencies g config)
     ∧ dom (devDependencies merged)
         = dom (devDependencies p) ∪ dom (getDevDependencies g config)
     ∧ dom (scripts merged) = dom (scripts p) ∪ dom (getScripts g config)
     ∧ name merged = name p ∧ version merged = version p
     ∧ private merged = private p ∧ type merged = type p)
  ∧ tally (is_package_write_other_than
             (merged_manifest catalog projectPath config w))
          (events (generateSingleProject catalog projectPath config true) w)
      = 0.
Proof.
  split.
  - intros g p merged.
    destruct (mergeBackendManifest_fields g config p) as (Hd & Hv & Hs).
    subst merged. rewrite Hd, Hv, Hs.
    repeat split; intros; first [apply spread2_lookup | apply spread2_dom].
  - apply (wp_events _ _ _ (λ n, n = 0)).
    apply generateSingleProject_writes_merged.
Qed.

(** A collision on real data: with [sqlite] and [drizzle] the Next.js
    frontend and the built-in API both declare [drizzle-orm] and
    [better-sqlite3], and the merged manifest has the API's versions. *)
Example merge_next_sqlite_drizzle :
  let config := {|
    projectName := "my-app"; framework := next; backend := nextjs_builtin;
    database := sqlite; orm := drizzle; auth := auth_none; styling := tailwind;
    packageManager := pnpm; runtime := None;
    extras := {| typescript := true; eslint := true; prettier := true;
                 testing := false; playwright := false; docker := false |}
  |} in
  let frontend := {|
    name := "my-app"; version := "0.1.0"; private := true; type := "module";
    scripts := ∅; dependencies := NextFrontend.getDependencies config;
    devDependencies := ∅
  |} in
  let merged := dependencies (mergeBackendManifest NextJSAPIGenerator config frontend) in
  dependencies frontend !! "drizzle-orm" = Some "^0.38.0"
  ∧ merged !! "drizzle-orm" = Some "^0.36.0"
  ∧ dependencies frontend !! "better-sqlite3" = Some "^11.7.0"
  ∧ merged !! "better-sqlite3" = Some "^11.6.0"
  ∧ merged !! "next" = Some "^15.1.0"
  ∧ merged !! "zod" = Some "^3.23.0".
Proof. vm_compute. done. Qed.

(** ** The workspace-root manifest *)

Lemma generate_root_writes_pass catalog config w :
  wp (is_root_write_failing has_the_eight_scripts) (generate catalog config) w
    (λ _ n, n = 0) (λ n, n = 0).
Proof.
  unfold generate.
  repeat first [ wp_cut_branch (λ _ n, n = 0) | wp_step ].
  all: subst; cbn; done.
Qed.

Lemma generate_writes_one_root catalog config w :
  requiresSeparatePackage (backend config) = true →
  wp is_root_write (generate catalog config) w (λ _ n, n = 1) may_throw.
Proof.
  intros Hsep. unfold generate.
  cbn [backend with_projectName]. rewrite Hsep.
  repeat first [ wp_cut_branch (λ _ n, n = 0) | wp_step ].
  all: subst; cbn; done.
Qed.

(** C6. Whatever the configuration, the [scripts] of the workspace-root
    manifest have exactly the eight keys [dev], [dev:frontend],
    [dev:backend], [build], [build:frontend], [build:backend], [lint] and
    [test].  No run of [generate] writes a root manifest without exactly
    these, and a run that takes the separate-package branch and returns
    has written one root manifest. *)
Theorem root_scripts_keys (catalog : BackendFramework → BackendGenerator)
    (config : ProjectConfig) (w : World) :
  dom (root_scripts (rootPackageJson config))
  = list_to_set ["dev"; "dev:frontend"; "dev:backend"; "build"; "build:frontend";
                 "build:backend"; "lint"; "test"]
  ∧ size (root_scripts (rootPackageJson config)) = 8
  ∧ tally (is_root_write_failing has_the_eight_scripts)
          (events (generate catalog config) w) = 0
  ∧ (requiresSeparatePackage (backend config) = true →
     ∀ evs, generate catalog config w = (Ok (), evs) →
            tally is_root_write evs = 1).
Proof.
  split; [apply rootPackageJson_script_keys |]. split; [| split].
  - rewrite <- size_dom, rootPackageJson_script_keys. vm_compute. reflexivity.
  - apply (wp_events _ _ _ (λ n, n = 0)), generate_root_writes_pass.
  - intros Hsep evs Hrun.
    exact (wp_returned _ _ _ _ _ _ _
             (generate_writes_one_root catalog config w Hsep) Hrun).
Qed.

Lemma root_scripts_keys_witness :
  ∃ evs,
    generate sample_catalog express_config
      (sample_world backend_none db_none orm_none npm) = (Ok (), evs)
    ∧ tally is_root_write evs = 1.
Proof.
  eexists. split; [vm_compute; reflexivity |].
  refine (proj2 (proj2 (proj2 (root_scripts_keys sample_catalog express_config
    (sample_world backend_none db_none orm_none npm)))) eq_refl _ _).
  vm_compute. reflexivity.
Defined.

(** C7 as stated fails: the [workspaces] field does not list the two
    sub-package directories. *)
Lemma root_workspaces_not_the_two_directories :
  requiresSeparatePackage (backend express_config) = true
  ∧ (root_workspaces (rootPackageJson express_config)
       ≠ ["packages/frontend"; "packages/backend"])
  ∧ ("packages/frontend" ∉ root_workspaces (rootPackageJson express_config))
  ∧ ("packages/backend" ∉ root_workspaces (rootPackageJson express_config)).
Proof.
  split; [reflexivity |]. cbn [root_workspaces rootPackageJson].
  split; [discriminate |].
  split; intros H; apply list_elem_of_singleton in H; discriminate.
Qed.

Lemma generateMonorepoProject_directories catalog projectPath config w :
  wp (is_ensureDir_of [path_join w [projectPath; "packages"; "frontend"];
                       path_join w [projectPath; "packages"; "backend"]])
     (generateMonorepoProject catalog projectPath config) w
     (λ _ n, n = 2) may_throw
  ∧ wp is_ensureDir (generateMonorepoProject catalog projectPath config) w
      (λ _ n, n = 2) may_throw.
Proof.
  split; unfold generateMonorepoProject.
  all: repeat first [ wp_cut_branch (λ _ n, n = 0) | wp_step ].
  all: subst; cbn; done.
Qed.

(** The directories that the monorepo branch creates, in order. *)
Lemma generateMonorepoProject_creates catalog projectPath config w :
  wpl is_ensureDir (generateMonorepoProject catalog projectPath config) w
    (λ _ l, l = [EvEnsureDir (path_join w [projectPath; "packages"; "frontend"]);
                 EvEnsureDir (path_join w [projectPath; "packages"; "backend"])])
    may_throw_after.
Proof.
  unfold generateMonorepoProject.
  repeat first [ wpl_cut_branch (λ _ l, l = []) | wpl_step ].
  all: subst; cbn; done.
Qed.

(** C7, amended.  The [workspaces] field of the workspace-root manifest is
    the one-element list [["packages/*"]], a glob; the directories that the
    monorepo branch creates are the two sub-package directories: in a run
    that returns, its [fs.ensureDir] calls are [packages/frontend] under
    the project path and then [packages/backend] under the project path,
    and no other. *)
Theorem root_workspaces_is_the_packages_glob
    (catalog : BackendFramework → BackendGenerator) (projectPath : string)
    (config : ProjectConfig) (w : World) :
  root_workspaces (rootPackageJson config) = ["packages/*"]
  ∧ ∀ evs, generateMonorepoProject catalog projectPath config w = (Ok (), evs) →
      List.filter is_ensureDir evs
      = [EvEnsureDir (path_join w [projectPath; "packages"; "frontend"]);
         EvEnsureDir (path_join w [projectPath; "packages"; "backend"])]
      ∧ tally is_ensureDir evs = 2
      ∧ tally (is_ensureDir_of
                 [path_join w [projectPath; "packages"; "frontend"];
                  path_join w [projectPath; "packages"; "backend"]]) evs = 2.
Proof.
  split; [reflexivity |]. intros evs Hrun.
  destruct (generateMonorepoProject_directories catalog projectPath config w)
    as [Hof Hall].
  split; [| split].
  - exact (wpl_returned _ _ _ _ _ _ _
             (generateMonorepoProject_creates catalog projectPath config w) Hrun).
  - exact (wp_returned _ _ _ _ _ _ _ Hall Hrun).
  - exact (wp_returned _ _ _ _ _ _ _ Hof Hrun).
Qed.

Lemma root_workspaces_is_the_packages_glob_witness :
  ∃ evs,
    generateMonorepoProject sample_catalog "/home/user/my-app" express_config
      (sample_world backend_none db_none orm_none npm) = (Ok (), evs)
    ∧ List.filter is_ensureDir evs
      = [EvEnsureDir "/home/user/my-app/packages/frontend";
         EvEnsureDir "/home/user/my-app/packages/backend"].
Proof.
  eexists. split; [vm_compute; reflexivity |].
  refine (proj1 (proj2 (root_workspaces_is_the_packages_glob sample_catalog
    "/home/user/my-app" express_config
    (sample_world backend_none db_none orm_none npm)) _ _)).
  vm_compute. reflexivity.
Defined.

(** C10. The [dev] script of the workspace-root manifest is one fixed
    string that names [pnpm], whatever the package manager of the
    configuration; the other seven scripts are built from the
    configuration's package manager. *)
Theorem root_dev_script_ignores_package_manager (config : ProjectConfig) :
  let scripts := root_scripts (rootPackageJson config) in
  let pm := to_string (packageManager config) in
  scripts !! "dev"
    = Some ("concurrently " +:+ dq +:+ "pnpm --filter frontend dev" +:+ dq
              +:+ " " +:+ dq +:+ "pnpm --filter backend dev" +:+ dq)
  ∧ (∀ config', root_scripts (rootPackageJson config') !! "dev" = scripts !! "dev")
  ∧ scripts !! "dev:frontend" = Some (pm +:+ " --filter frontend dev")
  ∧ scripts !! "dev:backend" = Some (pm +:+ " --filter backend dev")
  ∧ scripts !! "build"
      = Some (pm +:+ " --filter frontend build && " +:+ pm
                +:+ " --filter backend build")
  ∧ scripts !! "build:frontend" = Some (pm +:+ " --filter frontend build")
  ∧ scripts !! "build:backend" = Some (pm +:+ " --filter backend build")
  ∧ scripts !! "lint" = Some (pm +:+ " --filter " +:+ dq +:+ "*" +:+ dq +:+ " lint")
  ∧ scripts !! "test" = Some (pm +:+ " --filter " +:+ dq +:+ "*" +:+ dq +:+ " test").
Proof.
  intros scripts pm. subst scripts pm.
  unfold rootPackageJson. cbn [root_scripts]. unfold object.
  cbn [list_to_map foldr uncurry fst snd].
  repeat split; intros; by simplify_map_eq.
Qed.

(** With [npm] the [dev] script still runs [pnpm], next to scripts that
    run [npm]. *)
Example root_scripts_with_npm :
  root_scripts (rootPackageJson express_config) !! "dev"
    = Some ("concurrently " +:+ dq +:+ "pnpm --filter frontend dev" +:+ dq
              +:+ " " +:+ dq +:+ "pnpm --filter backend dev" +:+ dq)
  ∧ root_scripts (rootPackageJson express_config) !! "dev:frontend"
    = Some "npm --filter frontend dev".
Proof. vm_compute. done. Qed.

(** ** The resolver *)

Lemma includes_BUN_ONLY (b : BackendFramework) :
  includes BUN_ONLY_BACKENDS b = bool_decide (b = elysia).
Proof. by destruct b. Qed.

Lemma never_cancels_answers (w : World) :
  never_cancels w = true →
  answer_projectName w ≠ Cancel ∧ answer_framework w ≠ Cancel
  ∧ answer_backend w ≠ Cancel ∧ answer_runtime w ≠ Cancel
  ∧ answer_database w ≠ Cancel ∧ answer_orm w ≠ Cancel
  ∧ answer_auth w ≠ Cancel ∧ answer_styling w ≠ Cancel
  ∧ answer_packageManager w ≠ Cancel ∧ answer_extras w ≠ Cancel.
Proof.
  unfold never_cancels. rewrite !andb_true_iff, !negb_true_iff.
  intros H. destruct_and!.
  repeat split; intros Hc;
    match goal with
    | H : isCancel ?a = false |- _ => rewrite Hc in H; discriminate H
    end.
Qed.

(** The answer under scrutiny is not the cancel symbol. *)
Ltac not_cancelled :=
  let Hc := fresh in
  intros Hc;
  repeat match goal with
    | H : _ ∨ _ |- _ => destruct H
    | H : ∃ _, _ |- _ => destruct H
    end;
  subst; unfold selected in *; repeat case_match; congruence.

(** With a user who answers every prompt, [runPrompts] returns. *)
Lemma runPrompts_returns (options : PromptOptions) (w : World) :
  never_cancels w = true →
  ∃ cfg evs, runPrompts options w = (Ok cfg, evs).
Proof.
  intros Hw. apply never_cancels_answers in Hw.
  destruct Hw as (? & ? & ? & ? & ? & ? & ? & ? & ? & ?).
  cut (wp (λ _, false) (runPrompts options) w (λ _ _, True) never_throws).
  { intros Hwp. apply wp_returns in Hwp as (cfg & evs & ? & _). eauto. }
  unfold runPrompts.
  repeat first [ wp_cut_branch (λ _ _, True) | wp_step ];
    try done; not_cancelled.
Qed.

Lemma runPrompts_override φ (options : PromptOptions) (w : World) :
  φ = is_override_notice
  ∨ φ = is_info "Using bun as package manager (required by elysia)" →
  selected_backend options w = Value elysia →
  wp φ (runPrompts options) w
    (λ cfg n, backend cfg = elysia ∧ packageManager cfg = bun ∧ n = 1) may_throw.
Proof.
  unfold selected_backend. intros [-> | ->] Hsel; unfold runPrompts.
  all: repeat wp_step; by cbn.
Qed.

(** C3. When the backend settled on is Bun-only (that is, [elysia]), the
    resolver returns for every user who answers the prompts, and whatever
    package manager the flags or the user name, each configuration it
    returns has [packageManager = bun]; among the events of the run there
    is exactly one override notice, and it reads
    ["Using bun as package manager (required by elysia)"]. *)
Theorem bun_only_backend_forces_bun (options : PromptOptions) (w : World)
    (b : BackendFramework) :
  selected_backend options w = Value b →
  includes BUN_ONLY_BACKENDS b = true →
  (never_cancels w = true → ∃ cfg evs, runPrompts options w = (Ok cfg, evs))
  ∧ (∀ cfg evs, runPrompts options w = (Ok cfg, evs) →
       backend cfg = b
       ∧ packageManager cfg = bun
       ∧ tally is_override_notice evs = 1
       ∧ tally (is_info "Using bun as package manager (required by elysia)") evs
           = 1).
Proof.
  intros Hsel Hb. rewrite includes_BUN_ONLY in Hb.
  apply bool_decide_eq_true_1 in Hb. subst b.
  split; [apply runPrompts_returns |]. intros cfg evs Hrun.
  pose proof (wp_returned _ _ _ _ _ _ _
    (runPrompts_override _ options w (or_introl eq_refl) Hsel) Hrun)
    as (? & ? & ?).
  pose proof (wp_returned _ _ _ _ _ _ _
    (runPrompts_override _ options w (or_intror eq_refl) Hsel) Hrun)
    as (_ & _ & ?).
  done.
Qed.

Lemma bun_only_backend_forces_bun_witness :
  ∃ cfg evs,
    runPrompts react_elysia_npm_options (sample_world backend_none db_none orm_none npm)
      = (Ok cfg, evs)
    ∧ packageManager cfg = bun
    ∧ tally is_override_notice evs = 1.
Proof.
  destruct (bun_only_backend_forces_bun react_elysia_npm_options
              (sample_world backend_none db_none orm_none npm) elysia
              eq_refl eq_refl) as [Hreturns Hforced].
  destruct (Hreturns eq_refl) as (cfg & evs & Hrun).
  exists cfg, evs. split; [exact Hrun |].
  destruct (Hforced cfg evs Hrun) as (_ & Hpm & Hn & _). by split.
Defined.

(** Without Bun on the machine the run also warns and hints at the
    installer; the override notice is still logged once. *)
Example elysia_without_bun :
  let w := with_execa (sample_world backend_none db_none orm_none npm)
             (λ _ _ _, Throw "spawn bun ENOENT") in
  List.filter is_output (events (runPrompts react_elysia_npm_options) w)
  = [EvLogWarn "⚠️  Elysia requires Bun runtime. Please install Bun: https://bun.sh";
     EvLogInfo "Run: curl -fsSL https://bun.sh/install | bash";
     EvLogInfo "Using bun as package manager (required by elysia)"]
  ∧ tally is_override_notice (events (runPrompts react_elysia_npm_options) w) = 1
  ∧ (packageManager <$> outcome_value (runPrompts react_elysia_npm_options) w)
    = Some bun.
Proof. vm_compute. done. Qed.

Lemma runPrompts_single_orm (options : PromptOptions) (w : World) b :
  selected_backend options w = Value b →
  includes SKIP_DB_BACKENDS b = false →
  selected_database options w = Value mongodb →
  wp is_orm_prompt (runPrompts options) w
    (λ cfg n, database cfg = mongodb ∧ orm cfg = prisma ∧ n = 0) may_throw
  ∧ wp (is_info "Using prisma for mongodb") (runPrompts options) w
      (λ cfg n, n = 1) may_throw.
Proof.
  unfold selected_backend, selected_database. intros Hb Hskip Hd.
  split; unfold runPrompts.
  all: destruct b; try discriminate Hskip.
  all: repeat wp_step; by cbn.
Qed.

(** C4 as stated fails: with [--db mongodb] and the backend answered
    ["none"], the database step is skipped and the configuration has
    neither the database nor its single ORM. *)
Lemma single_orm_not_assigned_when_database_step_skipped :
  opt_orm mongodb_options = None
  ∧ selected_database mongodb_options
      (sample_world backend_none mongodb prisma pnpm) = Value mongodb
  ∧ real_orms mongodb = [prisma]
  ∧ ∃ cfg evs,
      runPrompts mongodb_options (sample_world backend_none mongodb prisma pnpm)
        = (Ok cfg, evs)
      ∧ database cfg = db_none
      ∧ orm cfg = orm_none
      ∧ orm cfg ≠ prisma
      ∧ tally (is_info "Using prisma for mongodb") evs = 0.
Proof.
  do 3 (split; [reflexivity |]).
  eexists _, _. split; [vm_compute; reflexivity |].
  cbn [database orm]. do 2 (split; [reflexivity |]). split; [discriminate |].
  vm_compute. reflexivity.
Qed.

(** C4, amended.  When [orm] is unset, the backend settled on is outside
    the skip-database set, and the database settled on has exactly one
    ORM other than ["none"] in its allow-list, the resolver returns for
    every user who answers the prompts, and each configuration it returns
    has that database and that ORM; the ORM prompt is not shown and the
    notice ["Using <orm> for <database>"] is logged once. *)
Theorem single_orm_is_auto_assigned (options : PromptOptions) (w : World)
    (b : BackendFramework) (d : Database) (o : ORM) :
  opt_orm options = None →
  selected_backend options w = Value b →
  includes SKIP_DB_BACKENDS b = false →
  selected_database options w = Value d →
  real_orms d = [o] →
  (never_cancels w = true → ∃ cfg evs, runPrompts options w = (Ok cfg, evs))
  ∧ (∀ cfg evs, runPrompts options w = (Ok cfg, evs) →
       database cfg = d
       ∧ orm cfg = o
       ∧ tally is_orm_prompt evs = 0
       ∧ tally (is_info ("Using " +:+ to_string o +:+ " for " +:+ to_string d)) evs
           = 1).
Proof.
  intros _ Hb Hskip Hd Ho.
  split; [apply runPrompts_returns |]. intros cfg evs Hrun.
  destruct d; try discriminate Ho. injection Ho as <-.
  destruct (runPrompts_single_orm options w b Hb Hskip Hd) as [Hp Hi].
  pose proof (wp_returned _ _ _ _ _ _ _ Hp Hrun) as (? & ? & ?).
  pose proof (wp_returned _ _ _ _ _ _ _ Hi Hrun).
  done.
Qed.

Lemma single_orm_is_auto_assigned_witness :
  ∃ cfg evs,
    runPrompts mongodb_options (sample_world express mongodb drizzle pnpm)
      = (Ok cfg, evs)
    ∧ database cfg = mongodb
    ∧ orm cfg = prisma
    ∧ tally is_orm_prompt evs = 0.
Proof.
  destruct (single_orm_is_auto_assigned mongodb_options
              (sample_world express mongodb drizzle pnpm) express mongodb prisma
              eq_refl eq_refl eq_refl eq_refl eq_refl) as [Hreturns Hassigned].
  destruct (Hreturns eq_refl) as (cfg & evs & Hrun).
  exists cfg, evs. split; [exact Hrun |].
  destruct (Hassigned cfg evs Hrun) as (Hd & Ho & Hn & _). by repeat split.
Defined.

Lemma runPrompts_sqlite φ (options : PromptOptions) (w : World) :
  φ = is_orm_prompt
  ∨ φ = is_select "Which ORM would you like to use?" ["prisma"; "drizzle"] →
  opt_framework options = Some next →
  opt_backend options = Some nextjs_builtin →
  opt_database options = Some sqlite →
  opt_orm options = None →
  wp φ (runPrompts options) w
    (λ cfg n, framework cfg = next ∧ backend cfg = nextjs_builtin
              ∧ database cfg = sqlite ∧ answer_orm w = Value (orm cfg) ∧ n = 1)
    may_throw.
Proof.
  intros [-> | ->] Hf Hb Hd Ho; unfold runPrompts; rewrite Hf, Hb, Hd, Ho.
  all: repeat wp_step; by cbn.
Qed.

(** C5 as stated fails: [sqlite] has two ORMs other than ["none"], and on
    the selection [{next, nextjs-builtin, sqlite}] the ORM prompt is shown;
    the configuration has whichever ORM the user picks. *)
Lemma sqlite_orm_is_prompted :
  real_orms sqlite = [prisma; drizzle]
  ∧ (∃ cfg evs,
       runPrompts next_builtin_sqlite_options
         (sample_world backend_none db_none prisma pnpm) = (Ok cfg, evs)
       ∧ orm cfg = prisma ∧ tally is_orm_prompt evs = 1)
  ∧ (∃ cfg evs,
       runPrompts next_builtin_sqlite_options
         (sample_world backend_none db_none drizzle pnpm) = (Ok cfg, evs)
       ∧ orm cfg = drizzle ∧ tally is_orm_prompt evs = 1).
Proof.
  split; [reflexivity |].
  split; eexists _, _; (split; [vm_compute; reflexivity |]);
    (split; [reflexivity | vm_compute; reflexivity]).
Qed.

(** C5, amended.  On the selection [{framework: "next", backend:
    "nextjs-builtin", database: "sqlite"}] with [orm] unset, the resolver
    returns for every user who answers the prompts; it shows the ORM
    prompt once, with the options [prisma] and [drizzle], and each
    configuration it returns has the ORM the user answered.  The layout of
    that configuration is integrated, its backend generator is the Next.js
    API generator, and every dependency that generator declares is in the
    merged manifest with the generator's value, whatever the frontend
    manifest holds. *)
Theorem next_builtin_sqlite_scenario
    (catalog : BackendFramework → BackendGenerator) (options : PromptOptions)
    (w : World) :
  opt_framework options = Some next →
  opt_backend options = Some nextjs_builtin →
  opt_database options = Some sqlite →
  opt_orm options = None →
  (never_cancels w = true → ∃ cfg evs, runPrompts options w = (Ok cfg, evs))
  ∧ (∀ cfg evs, runPrompts options w = (Ok cfg, evs) →
       framework cfg = next
       ∧ backend cfg = nextjs_builtin
       ∧ database cfg = sqlite
       ∧ answer_orm w = Value (orm cfg)
       ∧ tally is_orm_prompt evs = 1
       ∧ tally (is_select "Which ORM would you like to use?"
                  ["prisma"; "drizzle"]) evs = 1
       ∧ classify (backend cfg) = layout_integrated
       ∧ getBackendGenerator catalog (backend cfg) = Some NextJSAPIGenerator
       ∧ ∀ (p : PackageJson) k v,
           getDependencies NextJSAPIGenerator cfg !! k = Some v →
           dependencies (mergeBackendManifest NextJSAPIGenerator cfg p) !! k
             = Some v).
Proof.
  intros Hf Hb Hd Ho.
  split; [apply runPrompts_returns |]. intros cfg evs Hrun.
  pose proof (wp_returned _ _ _ _ _ _ _
    (runPrompts_sqlite _ options w (or_introl eq_refl) Hf Hb Hd Ho) Hrun)
    as (? & Hbackend & ? & ? & ?).
  pose proof (wp_returned _ _ _ _ _ _ _
    (runPrompts_sqlite _ options w (or_intror eq_refl) Hf Hb Hd Ho) Hrun)
    as (_ & _ & _ & _ & ?).
  rewrite Hbackend. repeat (split; [done |]).
  intros p k v. apply mergeBackendManifest_dependencies.
Qed.

Lemma next_builtin_sqlite_scenario_witness :
  ∃ cfg evs,
    runPrompts next_builtin_sqlite_options
      (sample_world backend_none db_none drizzle pnpm) = (Ok cfg, evs)
    ∧ orm cfg = drizzle
    ∧ classify (backend cfg) = layout_integrated
    ∧ dependencies (mergeBackendManifest NextJSAPIGenerator cfg empty_manifest)
        !! "drizzle-orm" = Some "^0.36.0".
Proof.
  destruct (next_builtin_sqlite_scenario sample_catalog
              next_builtin_sqlite_options
              (sample_world backend_none db_none drizzle pnpm)
              eq_refl eq_refl eq_refl eq_refl) as [Hreturns Hscenario].
  destruct (Hreturns eq_refl) as (cfg & evs & Hrun).
  exists cfg, evs. split; [exact Hrun |].
  destruct (Hscenario cfg evs Hrun)
    as (_ & _ & Hd & Ho & _ & _ & Hlayout & _ & Hdeps).
  assert (orm cfg = drizzle) as Horm by (by injection Ho).
  repeat split; [done | done |].
  apply Hdeps. unfold getDependencies, NextJSAPIGenerator, NextJSAPI.getDependencies.
  rewrite Horm, Hd. reflexivity.
Defined.

(** ** Version control *)

Lemma initGit_quiet cwd w :
  wp is_output (initGit cwd) w (λ _ n, n = 0) (λ n, n = 0)
  ∧ wp (λ ev, negb (is_git_command cwd ev)) (initGit cwd) w
      (λ _ n, n = 0) (λ n, n = 0).
Proof.
  split; apply wp_initGit; try done.
  intros args. cbn. by rewrite !bool_decide_eq_true_2.
Qed.

Lemma generate_git_independent catalog config :
  git_independent (generate catalog config).
Proof. unfold generate. repeat gi_step. Qed.

(** C9. [initGit] returns in every world and for every directory, however
    its [git] commands end; it emits nothing but those commands (no log
    line, note or console output); and the outcome of [generate] is the
    same however the [git] commands end. *)
Theorem initGit_is_best_effort :
  (∀ cwd w, outcome (initGit cwd) w = Ok ())
  ∧ (∀ cwd w, tally is_output (events (initGit cwd) w) = 0)
  ∧ (∀ cwd w,
       tally (λ ev, negb (is_git_command cwd ev)) (events (initGit cwd) w) = 0)
  ∧ (∀ catalog config w git,
       outcome (generate catalog config) (with_git w git)
       = outcome (generate catalog config) w).
Proof.
  split; [apply initGit_outcome |]. split; [| split].
  - intros cwd w. apply (wp_events _ _ _ (λ n, n = 0)), initGit_quiet.
  - intros cwd w. apply (wp_events _ _ _ (λ n, n = 0)), initGit_quiet.
  - intros catalog config w git. apply generate_git_independent.
Qed.

(** When no [git] command can be run, [initGit] has tried [git init] only,
    and the project is created all the same. *)
Example generate_without_git :
  let w := with_git (sample_world backend_none db_none orm_none npm)
             (λ _ _, Throw "spawn git ENOENT") in
  initGit "/home/user/my-app" w
    = (Ok (), [EvExeca "git" ["init"] (Some "/home/user/my-app")])
  ∧ outcome (generate sample_catalog express_config) w = Ok ().
Proof. vm_compute. done. Qed.

(** * Further properties *)

(** ** The resolver, continued *)

(** [wp_step], also through prompts whose event is counted. *)
Ltac wp_step_any :=
  first [ wp_step
        | progress unfold p_multiselect, p_text, p_select, flag_or,
            string_flag_or ].

(** Symbolic execution that keeps the values: by cases on the backend
    and on the runtime, without cuts. *)
Ltac wp_run :=
  repeat first
    [ lazymatch goal with
      | |- wp _ ((if includes _ ?b then _ else _) ≫= _) _ _ _ =>
          is_var b; destruct b
      | |- wp _ (mret (Some ?r, _)) _ _ _ => is_var r; destruct r
      end
    | wp_step_any ].

(** Membership of a known backend in a table. *)
Ltac eval_includes :=
  repeat match goal with
    | |- context [includes ?l ?b] =>
        let c := eval vm_compute in (includes l b) in
        change (includes l b) with c
    end.

(** What [runPrompts] returns, field by field. *)
Lemma runPrompts_config (options : PromptOptions) (w : World) :
  wp (λ _, false) (runPrompts options) w
    (λ cfg _,
       selected_framework options w = Value (framework cfg)
       ∧ selected_backend options w = Value (backend cfg)
       ∧ (if includes RUNTIME_SELECTABLE_BACKENDS (backend cfg)
          then ∃ r, runtime cfg = Some r ∧ selected_runtime options w = Value r
          else runtime cfg = None)
       ∧ (if includes SKIP_DB_BACKENDS (backend cfg)
          then database cfg = db_none ∧ orm cfg = orm_none
          else selected_database options w = Value (database cfg)
               ∧ resolved_orm options w (database cfg) = Value (orm cfg))
       ∧ selected (opt_auth options) (answer_auth w) = Value (auth cfg)
       ∧ selected (opt_styling options) (answer_styling w) = Value (styling cfg)
       ∧ (if includes BUN_ONLY_BACKENDS (backend cfg)
             || bool_decide (runtime cfg = Some rt_bun)
          then packageManager cfg = bun
          else selected_packageManager options w = Value (packageManager cfg))
       ∧ (∃ picked, answer_extras w = Value picked
            ∧ extras cfg = {|
                typescript := includes picked "typescript";
                eslint := includes picked "eslint";
                prettier := includes picked "eslint";
                testing := includes picked "testing";
                playwright := includes picked "playwright";
                docker := includes picked "docker" |}))
    may_throw.
Proof.
  unfold selected_framework, selected_backend, selected_database,
    selected_runtime, selected_packageManager, runPrompts.
  wp_run.
  all: cbn; unfold resolved_orm; cbn; repeat split; try done;
    eval_includes; cbn; eauto.
Qed.

(** X1. A configuration that [runPrompts] returns has a runtime exactly
    when its backend is [hono]: then it is the [--runtime] flag or the
    answer to the runtime prompt; for every other backend the field is
    undefined, also when [--runtime] was given. *)
Theorem runtime_is_set_for_hono_only (options : PromptOptions) (w : World)
    (cfg : ProjectConfig) (evs : list Event) :
  runPrompts options w = (Ok cfg, evs) →
  (backend cfg = hono →
     ∃ r, runtime cfg = Some r ∧ selected_runtime options w = Value r)
  ∧ (backend cfg ≠ hono → runtime cfg = None).
Proof.
  intros Hrun.
  pose proof (wp_returned _ _ _ _ _ _ _ (runPrompts_config options w) Hrun)
    as (_ & _ & Hrt & _).
  destruct (backend cfg); cbn in Hrt; split; intros; try done.
Qed.

Lemma runtime_is_set_for_hono_only_witness :
  ∃ cfg evs,
    runPrompts no_options (sample_world hono db_none orm_none npm) = (Ok cfg, evs)
    ∧ backend cfg = hono
    ∧ runtime cfg = Some rt_node.
Proof.
  eexists _, _. split; [vm_compute; reflexivity |]. split; [reflexivity |].
  edestruct (runtime_is_set_for_hono_only no_options
               (sample_world hono db_none orm_none npm)) as [Hhono _];
    [vm_compute; reflexivity |].
  destruct (Hhono eq_refl) as (r & Hr & Hsel).
  injection Hsel as <-. exact Hr.
Defined.

Lemma runPrompts_skips_database (options : PromptOptions) (w : World) b :
  selected_backend options w = Value b →
  includes SKIP_DB_BACKENDS b = true →
  wp is_database_or_orm_prompt (runPrompts options) w
    (λ cfg n, n = 0 ∧ database cfg = db_none ∧ orm cfg = orm_none)
    (λ n, n = 0).
Proof.
  unfold selected_backend. intros Hsel Hskip. unfold runPrompts.
  destruct b; try discriminate Hskip.
  all: (repeat wp_step).
  all: try done.
Qed.

(** X2. With the backend [convex] or [none], [runPrompts] shows neither
    the database prompt nor the ORM prompt, and every configuration it
    returns has database [none] and ORM [none], whatever [--db] and
    [--orm] say. *)
Theorem skip_database_backends_ignore_the_database (options : PromptOptions)
    (w : World) (b : BackendFramework) :
  selected_backend options w = Value b →
  includes SKIP_DB_BACKENDS b = true →
  tally is_database_or_orm_prompt (events (runPrompts options) w) = 0
  ∧ ∀ cfg evs, runPrompts options w = (Ok cfg, evs) →
      database cfg = db_none ∧ orm cfg = orm_none.
Proof.
  intros Hsel Hskip.
  pose proof (runPrompts_skips_database options w b Hsel Hskip) as Hwp.
  split.
  - apply (wp_events _ _ _ (λ n, n = 0)).
    eapply wp_mono; [exact Hwp | by intros ? ? (? & _) | done].
  - intros cfg evs Hrun.
    by pose proof (wp_returned _ _ _ _ _ _ _ Hwp Hrun) as (_ & ? & ?).
Qed.

Lemma skip_database_backends_ignore_the_database_witness :
  ∃ cfg evs,
    runPrompts convex_sqlite_options
      (sample_world backend_none sqlite prisma npm) = (Ok cfg, evs)
    ∧ database cfg = db_none
    ∧ orm cfg = orm_none.
Proof.
  eexists _, _. split; [vm_compute; reflexivity |].
  refine (proj2 (skip_database_backends_ignore_the_database
                   convex_sqlite_options
                   (sample_world backend_none sqlite prisma npm)
                   backend_convex eq_refl eq_refl) _ _ _).
  vm_compute. reflexivity.
Defined.

(** X3. In a configuration that [runPrompts] returns, the package
    manager is [bun] when the backend is [elysia] and when the runtime is
    [bun] (which only [hono] has); in every other case it is the [--pm]
    flag or the answer to the package-manager prompt. *)
Theorem package_manager_is_forced_or_selected (options : PromptOptions)
    (w : World) (cfg : ProjectConfig) (evs : list Event) :
  runPrompts options w = (Ok cfg, evs) →
  (backend cfg = elysia → packageManager cfg = bun)
  ∧ (runtime cfg = Some rt_bun → backend cfg = hono ∧ packageManager cfg = bun)
  ∧ (backend cfg ≠ elysia → runtime cfg ≠ Some rt_bun →
     selected_packageManager options w = Value (packageManager cfg)).
Proof.
  intros Hrun.
  pose proof (wp_returned _ _ _ _ _ _ _ (runPrompts_config options w) Hrun)
    as (_ & _ & Hrt & _ & _ & _ & Hpm & _).
  destruct (backend cfg) eqn:Hb; cbn in Hrt; try rewrite Hrt in Hpm;
    try (destruct Hrt as (r & Hr & _); rewrite Hr in *; destruct r);
    revert Hpm; eval_includes; cbn; intros Hpm;
    repeat split; intros; try done; try congruence.
Qed.

Lemma package_manager_is_forced_or_selected_witness :
  ∃ cfg evs,
    runPrompts no_options (sample_world elysia db_none orm_none npm)
      = (Ok cfg, evs)
    ∧ backend cfg = elysia
    ∧ packageManager cfg = bun.
Proof.
  eexists _, _. split; [vm_compute; reflexivity |]. split; [reflexivity |].
  edestruct (package_manager_is_forced_or_selected no_options
               (sample_world elysia db_none orm_none npm)) as [Hforced _];
    [vm_compute; reflexivity |].
  exact (Hforced eq_refl).
Defined.

(** X4. In a configuration that [runPrompts] returns, the ORM is [none]
    when the database is [none]; it is the single entry of the database's
    allow-list when that list has one entry; and it is the [--orm] flag or
    the answer to the ORM prompt when the list has more. *)
Theorem orm_follows_the_database (options : PromptOptions) (w : World)
    (cfg : ProjectConfig) (evs : list Event) :
  runPrompts options w = (Ok cfg, evs) →
  (database cfg = db_none → orm cfg = orm_none)
  ∧ ((length (DATABASE_ORM_COMPAT (database cfg)) ≤ 1)%nat →
     DATABASE_ORM_COMPAT (database cfg) !! 0 = Some (orm cfg))
  ∧ ((1 < length (DATABASE_ORM_COMPAT (database cfg)))%nat →
     selected (opt_orm options) (answer_orm w) = Value (orm cfg)).
Proof.
  intros Hrun.
  pose proof (wp_returned _ _ _ _ _ _ _ (runPrompts_config options w) Hrun)
    as (_ & _ & _ & Hdb & _).
  destruct (includes SKIP_DB_BACKENDS (backend cfg)).
  - destruct Hdb as [-> ->]. cbn. repeat split; intros; first [done | lia].
  - destruct Hdb as [_ Horm]. unfold resolved_orm in Horm.
    destruct (database cfg); repeat case_bool_decide; cbn in *;
      repeat split; intros; try done; try lia; congruence.
Qed.

Lemma orm_follows_the_database_witness :
  ∃ cfg evs,
    runPrompts no_options (sample_world express mongodb drizzle npm)
      = (Ok cfg, evs)
    ∧ database cfg = mongodb
    ∧ orm cfg = prisma.
Proof.
  eexists _, _. split; [vm_compute; reflexivity |]. split; [reflexivity |].
  edestruct (orm_follows_the_database no_options
               (sample_world express mongodb drizzle npm)) as (_ & Hsingle & _);
    [vm_compute; reflexivity |].
  symmetry. exact (inj Some _ _ (Hsingle (le_n 1))).
Defined.

(** X5. A value given by flag is taken as it is: [runPrompts] does not
    check the framework, backend, database or auth flags against the
    compatibility tables.  (The witness is Vue with [nextjs-builtin],
    [next-auth] and the [convex] database, none of which Vue's rows
    allow.) *)
Theorem flags_are_not_validated (options : PromptOptions) (w : World)
    (f : Framework) (b : BackendFramework) (d : Database) (a : Auth)
    (cfg : ProjectConfig) (evs : list Event) :
  opt_framework options = Some f →
  opt_backend options = Some b →
  opt_database options = Some d →
  opt_auth options = Some a →
  runPrompts options w = (Ok cfg, evs) →
  framework cfg = f
  ∧ backend cfg = b
  ∧ auth cfg = a
  ∧ (includes SKIP_DB_BACKENDS b = false → database cfg = d).
Proof.
  intros Hf Hb Hd Ha Hrun.
  pose proof (wp_returned _ _ _ _ _ _ _ (runPrompts_config options w) Hrun)
    as (Hf' & Hb' & _ & Hdb & Ha' & _).
  unfold selected_framework, selected_backend, selected_database in *.
  rewrite Hf in Hf'. rewrite Hb in Hb'. rewrite Ha in Ha'. rewrite Hd in Hdb.
  unfold selected in *.
  injection Hf' as Hf'. injection Hb' as Hb'. injection Ha' as Ha'.
  repeat split; try done. intros Hskip. rewrite <- Hb', Hskip in Hdb.
  destruct Hdb as [Hdb _]. by injection Hdb.
Qed.

Lemma flags_are_not_validated_witness :
  ∃ cfg evs,
    runPrompts vue_mismatch_options
      (sample_world backend_none db_none orm_none npm) = (Ok cfg, evs)
    ∧ framework cfg = vue
    ∧ backend cfg = nextjs_builtin
    ∧ auth cfg = next_auth
    ∧ database cfg = db_convex
    ∧ includes (FRAMEWORK_BACKEND_COMPAT vue) nextjs_builtin = false
    ∧ includes (FRAMEWORK_AUTH_COMPAT vue) next_auth = false
    ∧ includes (FRAMEWORK_DB_COMPAT vue) db_convex = false.
Proof.
  eexists _, _. split; [vm_compute; reflexivity |].
  edestruct (flags_are_not_validated vue_mismatch_options
               (sample_world backend_none db_none orm_none npm)
               vue nextjs_builtin db_convex next_auth)
    as (Hf & Hb & Ha & Hd);
    [reflexivity | reflexivity | reflexivity | reflexivity
    | vm_compute; reflexivity |].
  repeat split; first [done | exact (Hd eq_refl)].
Defined.

(** *** What is thrown *)

Lemma to_ret {A} e (a : A) : throws_only e (mret a).
Proof. by intros w e'. Qed.

Lemma to_throw {A} e : throws_only e (throw e : M A).
Proof. intros w e'. unfold outcome, throw. cbn. congruence. Qed.

Lemma to_emit e ev : throws_only e (emit ev).
Proof. by intros w e'. Qed.

Lemma to_ask {A} e (f : World → A) : throws_only e (ask f).
Proof. by intros w e'. Qed.

Lemma to_bind {A B} e (m : M A) (k : A → M B) :
  throws_only e m → (∀ a, throws_only e (k a)) → throws_only e (m ≫= k).
Proof.
  intros Hm Hk w e'. rewrite outcome_bind.
  destruct (outcome m w) eqn:Ho; [apply Hk |].
  intros [= <-]. by apply (Hm w).
Qed.

Lemma checkBunInstalled_returns w : ∃ b, outcome checkBunInstalled w = Ok b.
Proof.
  unfold outcome, checkBunInstalled, try_catch. rewrite bind_run.
  unfold execa, perform. cbn.
  destruct (execa_result w "bun" ["--version"] None) as [[]|]; eauto.
Qed.

Lemma to_checkBunInstalled e : throws_only e checkBunInstalled.
Proof.
  intros w e'. destruct (checkBunInstalled_returns w) as [b ->]. done.
Qed.

(** One step of the same execution for [throws_only]. *)
Ltac to_step :=
  lazymatch goal with
  | |- throws_only _ (mret _) => apply to_ret
  | |- throws_only _ (throw _) => apply to_throw
  | |- throws_only _ (emit _) => apply to_emit
  | |- throws_only _ (ask _) => apply to_ask
  | |- throws_only _ checkBunInstalled => apply to_checkBunInstalled
  | |- throws_only _ (_ ≫= _) => apply to_bind; [| intros ?]
  | |- throws_only _ (if negb (bool_decide (?d = db_none)) then _ else _) =>
      tryif is_var d then destruct d
      else destruct (negb (bool_decide (d = db_none)))
  | |- throws_only _ (if ?c then _ else _) => destruct c
  | |- throws_only _ (match ?x with _ => _ end) =>
      first [ wp_eval_option x | destruct x ]
  | |- throws_only _ _ =>
      first [ progress autounfold with effects
            | progress unfold p_select, p_text, p_multiselect, flag_or,
                string_flag_or, throwIfCancel ]
  end.

Lemma runPrompts_throws_only (options : PromptOptions) :
  throws_only "CANCELLED" (runPrompts options).
Proof. unfold runPrompts. repeat to_step. Qed.

(** X6. Called with flags each of which is absent or a value of its
    declared type ([Framework], [BackendFramework], [Database], [ORM],
    [AuthProvider], ...), the only error [runPrompts] throws is
    [CANCELLED]: the Bun probe never fails it, and [availableORMs[0]] is
    never undefined.  The flags of [PromptOptions] here are exactly the
    flags of those types.  A string outside its type, which the command
    line does not reject, is not covered: with such a [--db],
    [DATABASE_ORM_COMPAT[database]] is undefined and reading its [length]
    throws a [TypeError]. *)
Theorem runPrompts_throws_cancelled_only (options : PromptOptions) (w : World)
    (e : string) :
  outcome (runPrompts options) w = Throw e → e = "CANCELLED".
Proof.
  intros Hthrows. exact (runPrompts_throws_only options w e Hthrows).
Qed.

Lemma runPrompts_throws_cancelled_only_witness :
  outcome (runPrompts no_options)
    (sample_machine Cancel (Value true) nothing_on_disk [] all_succeed)
  = Throw "CANCELLED".
Proof.
  destruct (outcome (runPrompts no_options)
              (sample_machine Cancel (Value true) nothing_on_disk [] all_succeed))
    as [cfg|e] eqn:Hout; [vm_compute in Hout; discriminate Hout |].
  f_equal.
  exact (runPrompts_throws_cancelled_only no_options
           (sample_machine Cancel (Value true) nothing_on_disk [] all_succeed)
           e Hout).
Defined.

(** *** What is asked *)

(** Counting only: branches are cut at [n = 0]. *)
Ltac wp_run_cut :=
  repeat first [ wp_cut_branch (λ _ n, n = 0) | wp_step_any ].

Lemma runPrompts_multiselect (options : PromptOptions) (w : World) :
  wp is_multiselect (runPrompts options) w (λ _ n, n = 1) may_throw.
Proof. unfold runPrompts. wp_run_cut. all: subst; cbn; done. Qed.

(** X7. A run of [runPrompts] that returns has shown the extras
    multiselect exactly once, and each extra of the configuration is
    whether its name was picked, except [prettier], which is whether
    [eslint] was picked. *)
Theorem extras_come_from_the_multiselect (options : PromptOptions) (w : World)
    (cfg : ProjectConfig) (evs : list Event) :
  runPrompts options w = (Ok cfg, evs) →
  ∃ picked,
    answer_extras w = Value picked
    ∧ typescript (extras cfg) = includes picked "typescript"
    ∧ eslint (extras cfg) = includes picked "eslint"
    ∧ prettier (extras cfg) = eslint (extras cfg)
    ∧ testing (extras cfg) = includes picked "testing"
    ∧ playwright (extras cfg) = includes picked "playwright"
    ∧ docker (extras cfg) = includes picked "docker"
    ∧ tally is_multiselect evs = 1.
Proof.
  intros Hrun.
  pose proof (wp_returned _ _ _ _ _ _ _ (runPrompts_config options w) Hrun)
    as (_ & _ & _ & _ & _ & _ & _ & picked & Hp & ->).
  exists picked. repeat split; try done.
  exact (wp_returned _ _ _ _ _ _ _ (runPrompts_multiselect options w) Hrun).
Qed.

Lemma extras_come_from_the_multiselect_witness :
  ∃ cfg evs,
    runPrompts no_options (sample_world backend_none db_none orm_none npm)
      = (Ok cfg, evs)
    ∧ eslint (extras cfg) = true
    ∧ prettier (extras cfg) = true
    ∧ tally is_multiselect evs = 1.
Proof.
  eexists _, _. split; [vm_compute; reflexivity |].
  edestruct (extras_come_from_the_multiselect no_options
               (sample_world backend_none db_none orm_none npm))
    as (picked & Hp & _ & He & Hpr & _ & _ & _ & Hn);
    [vm_compute; reflexivity |].
  injection Hp as <-. rewrite Hpr, He. by repeat split.
Defined.

Lemma runPrompts_cancelled_extras (options : PromptOptions) (w : World) :
  answer_extras w = Cancel →
  wp (λ _, false) (runPrompts options) w (λ _ _, False) may_throw.
Proof.
  intros Hc. unfold runPrompts.
  repeat first [ wp_cut_branch (λ _ _, True) | wp_step ].
  all: try done; congruence.
Qed.

(** X8. No flag skips the extras prompt: when the user cancels it,
    [runPrompts] throws [CANCELLED], whatever flags were given. *)
Theorem cancelling_the_extras_prompt_aborts (options : PromptOptions)
    (w : World) :
  answer_extras w = Cancel →
  outcome (runPrompts options) w = Throw "CANCELLED".
Proof.
  intros Hc. pose proof (runPrompts_cancelled_extras options w Hc) as Hwp.
  pose proof (runPrompts_throws_only options w) as Hto.
  unfold wp in Hwp. unfold outcome in *.
  destruct (runPrompts options w) as [[cfg|e] evs]; [done |].
  cbn in *. by rewrite (Hto e eq_refl).
Qed.

Lemma cancelling_the_extras_prompt_aborts_witness :
  outcome (runPrompts all_flags_options)
    (sample_machine Cancel (Value true) nothing_on_disk [] all_succeed)
  = Throw "CANCELLED".
Proof.
  exact (cancelling_the_extras_prompt_aborts all_flags_options
           (sample_machine Cancel (Value true) nothing_on_disk [] all_succeed)
           eq_refl).
Defined.

Lemma runPrompts_all_flags (options : PromptOptions) (w : World) :
  all_flags_given options = true →
  wp is_question (runPrompts options) w (λ _ n, n = 0) (λ n, n = 0)
  ∧ wp is_multiselect (runPrompts options) w (λ _ n, n = 1) (λ n, n = 1).
Proof.
  unfold all_flags_given. intros H.
  destruct options as [[s|] [f|] [b|] [d|] [o|] [a|] [st|] [pm|] [rt|]];
    cbn in H; rewrite ?andb_true_r, ?andb_false_r in H; try discriminate H;
    apply negb_true_iff in H;
    apply bool_decide_eq_false_1 in H.
  all: split; unfold runPrompts, string_flag_or; cbn;
    rewrite bool_decide_eq_false_2 by done.
  all: wp_run.
  all: subst; cbn; done.
Qed.

(** X9. When all nine flags are given (the name non-empty),
    [runPrompts] asks no text or select question, and shows the extras
    multiselect exactly once. *)
Theorem all_flags_leave_one_prompt (options : PromptOptions) (w : World) :
  all_flags_given options = true →
  tally is_question (events (runPrompts options) w) = 0
  ∧ tally is_multiselect (events (runPrompts options) w) = 1.
Proof.
  intros Hall. destruct (runPrompts_all_flags options w Hall) as [Hq Hm].
  split.
  - by apply (wp_events _ _ _ (λ n, n = 0)).
  - by apply (wp_events _ _ _ (λ n, n = 1)).
Qed.

Lemma all_flags_leave_one_prompt_witness :
  all_flags_given all_flags_options = true
  ∧ tally is_question
      (events (runPrompts all_flags_options)
         (sample_world backend_none db_none orm_none npm)) = 0.
Proof.
  split; [reflexivity |].
  exact (proj1 (all_flags_leave_one_prompt all_flags_options
                  (sample_world backend_none db_none orm_none npm) eq_refl)).
Defined.

(** The option lists depend on the framework: by cases on it as soon as
    a table is applied to it. *)
Ltac wp_run_tables :=
  repeat first
    [ lazymatch goal with
      | |- wp _ ?m _ _ _ =>
          match m with
          | context [FRAMEWORK_BACKEND_COMPAT ?f] => is_var f; destruct f
          | context [FRAMEWORK_DB_COMPAT ?f] => is_var f; destruct f
          | context [FRAMEWORK_AUTH_COMPAT ?f] => is_var f; destruct f
          end
      end
    | wp_cut_branch (λ _ n, n = 0)
    | wp_step_any ].

Lemma runPrompts_database_options (options : PromptOptions) (w : World) :
  wp (is_select_other_than "Which database would you like to use?"
        (to_string <$> [supabase; neon; planetscale; mongodb; sqlite; turso;
                        db_none]))
     (runPrompts options) w (λ _ n, n = 0) (λ n, n = 0)
  ∧ wp (is_select_other_than "Which ORM would you like to use?"
          (to_string <$> [prisma; drizzle]))
      (runPrompts options) w (λ _ n, n = 0) (λ n, n = 0).
Proof.
  split; unfold runPrompts.
  all: wp_run_tables.
  all: try (subst; cbn; done).
Qed.

(** X10. Whenever [runPrompts] shows the database prompt, its options
    are [supabase], [neon], [planetscale], [mongodb], [sqlite], [turso]
    and [none], for every framework: filtering by [FRAMEWORK_DB_COMPAT]
    removes nothing, and [convex] is never offered.  Whenever it shows the
    ORM prompt, the options are [prisma] and [drizzle]. *)
Theorem database_and_orm_prompts_are_fixed (options : PromptOptions) (w : World) :
  tally (is_select_other_than "Which database would you like to use?"
           ["supabase"; "neon"; "planetscale"; "mongodb"; "sqlite"; "turso";
            "none"])
        (events (runPrompts options) w) = 0
  ∧ tally (is_select_other_than "Which ORM would you like to use?"
             ["prisma"; "drizzle"])
          (events (runPrompts options) w) = 0.
Proof.
  destruct (runPrompts_database_options options w) as [Hd Ho].
  split.
  - by apply (wp_events _ _ _ (λ n, n = 0)).
  - by apply (wp_events _ _ _ (λ n, n = 0)).
Qed.

Lemma runPrompts_framework_options (options : PromptOptions) (w : World)
    (f : Framework) :
  selected_framework options w = Value f →
  wp (is_select_other_than "Which backend framework would you like to use?"
        (to_string <$> FRAMEWORK_BACKEND_COMPAT f))
     (runPrompts options) w (λ _ n, n = 0) (λ n, n = 0)
  ∧ wp (is_select_other_than "Which authentication would you like to use?"
          (to_string <$> FRAMEWORK_AUTH_COMPAT f))
      (runPrompts options) w (λ _ n, n = 0) (λ n, n = 0).
Proof.
  unfold selected_framework. intros Hf.
  split; unfold runPrompts; destruct f.
  all: (repeat first [ wp_cut_branch (λ _ n, n = 0) | wp_step_any ]).
  all: try (subst; cbn; done).
Qed.

(** X11. Whenever [runPrompts] shows the backend prompt or the auth
    prompt, its options are exactly the allow-list of the framework
    settled on, in the order of the table. *)
Theorem backend_and_auth_prompts_show_the_allow_list (options : PromptOptions)
    (w : World) (f : Framework) :
  selected_framework options w = Value f →
  tally (is_select_other_than "Which backend framework would you like to use?"
           (to_string <$> FRAMEWORK_BACKEND_COMPAT f))
        (events (runPrompts options) w) = 0
  ∧ tally (is_select_other_than "Which authentication would you like to use?"
             (to_string <$> FRAMEWORK_AUTH_COMPAT f))
          (events (runPrompts options) w) = 0.
Proof.
  intros Hf. destruct (runPrompts_framework_options options w f Hf) as [Hb Ha].
  split.
  - by apply (wp_events _ _ _ (λ n, n = 0)).
  - by apply (wp_events _ _ _ (λ n, n = 0)).
Qed.

Lemma backend_and_auth_prompts_show_the_allow_list_witness :
  let evs := events (runPrompts vue_options)
               (sample_world backend_none db_none orm_none npm) in
  tally (is_select "Which backend framework would you like to use?"
           ["none"; "express"; "fastify"; "nestjs"; "hono"; "elysia"]) evs = 1
  ∧ tally (is_select_other_than
             "Which backend framework would you like to use?"
             ["none"; "express"; "fastify"; "nestjs"; "hono"; "elysia"]) evs = 0.
Proof.
  split; [vm_compute; reflexivity |].
  exact (proj1 (backend_and_auth_prompts_show_the_allow_list vue_options
                  (sample_world backend_none db_none orm_none npm) vue eq_refl)).
Defined.

(** ** Generation *)

Lemma append_cancel_l (s t u : string) : s +:+ t = s +:+ u → t = u.
Proof. induction s as [|c s IH]; simpl; [done |]. intros [= H]. by apply IH. Qed.

Lemma length_append (s t : string) :
  String.length (s +:+ t) = String.length s + String.length t.
Proof. induction s as [|c s IH]; [done |]. simpl. by f_equal. Qed.

(** A branch whose condition is known is taken, not cut. *)
Ltac wp_eval_branch :=
  lazymatch goal with
  | |- wp _ ((if ?c then _ else _) ≫= _) _ _ _ => wp_eval_if c
  | |- wp _ ((match ?x with Some _ => _ | None => _ end) ≫= _) _ _ _ =>
      wp_eval_option x
  end.

Ltac wp_go :=
  repeat first [ wp_eval_branch | wp_cut_branch (λ _ n, n = 0) | wp_step ].

Lemma generate_single_layout catalog config w :
  requiresSeparatePackage (backend config) = false →
  wp is_root_write (generate catalog config) w (λ _ n, n = 0) (λ n, n = 0)
  ∧ wp is_writeFile (generate catalog config) w (λ _ n, n = 0) (λ n, n = 0)
  ∧ wp is_dockerCompose (generate catalog config) w (λ _ n, n = 0) (λ n, n = 0).
Proof.
  intros Hsep. unfold generate. cbn [backend with_projectName]. rewrite Hsep.
  repeat split.
  all: wp_go.
  all: try (subst; cbn; first [done | lia]).
Qed.

(** X12. When the backend needs no separate package,
    [generators/index.ts] itself writes no workspace-root manifest, makes
    no [fs.writeFile] call of its own (so writes no
    [pnpm-workspace.yaml]), and never calls its [generateDockerCompose],
    the function that writes the compose file with the database service
    and [.env.example] at the root, whether or not the [docker] extra is
    set.  What the frontend generator writes inside its [generate] call
    (with [docker] set, a [Dockerfile] and a [docker-compose.yml] of its
    own) is behind that call and not part of the statement. *)
Theorem single_package_layout_has_no_workspace
    (catalog : BackendFramework → BackendGenerator) (config : ProjectConfig)
    (w : World) :
  requiresSeparatePackage (backend config) = false →
  tally is_root_write (events (generate catalog config) w) = 0
  ∧ tally is_writeFile (events (generate catalog config) w) = 0
  ∧ tally is_dockerCompose (events (generate catalog config) w) = 0.
Proof.
  intros Hsep.
  destruct (generate_single_layout catalog config w Hsep) as (Hr & Hf & Hd).
  repeat split; by apply (wp_events _ _ _ (λ n, n = 0)).
Qed.

Lemma single_package_layout_has_no_workspace_witness :
  let config := next_config nextjs_builtin sqlite drizzle pnpm in
  let w := sample_world backend_none db_none orm_none npm in
  requiresSeparatePackage (backend config) = false
  ∧ tally is_root_write (events (generate sample_catalog config) w) = 0
  ∧ tally is_writeFile (events (generate sample_catalog config) w) = 0.
Proof.
  cbn zeta. split; [reflexivity |].
  destruct (single_package_layout_has_no_workspace sample_catalog
              (next_config nextjs_builtin sqlite drizzle pnpm)
              (sample_world backend_none db_none orm_none npm) eq_refl)
    as (Hr & Hf & _).
  by split.
Defined.

(** The [fs.ensureDir] calls of [generate] and of the two layout
    functions, in order. *)
Lemma generate_directories catalog config w :
  wpl is_ensureDir (generate catalog config) w
    (λ _ l,
       l = ((if bool_decide (projectName config = ".") then []
             else [EvEnsureDir (projectPath_of config w)])
            ++ (if requiresSeparatePackage (backend config)
                then [EvEnsureDir (path_join w [projectPath_of config w;
                                                "packages"; "frontend"]);
                      EvEnsureDir (path_join w [projectPath_of config w;
                                                "packages"; "backend"])]
                else []))%list)
    may_throw_after.
Proof.
  unfold projectPath_of, generate. cbn [backend with_projectName].
  destruct (bool_decide (projectName config = "."));
    destruct (requiresSeparatePackage (backend config)).
  all: (repeat first [ wpl_cut_branch (λ _ l, l = []) | wpl_step ]).
  all: try (subst; cbn; done).
Qed.

(** X13. In a run of [generate] that returns, the [fs.ensureDir]
    calls that [generators/index.ts] makes itself are, in this order: the
    project directory unless the name is [.], then [packages/frontend]
    and [packages/backend] under the project directory in the monorepo
    layout; and no other.  The directories that the generator classes
    create inside their [generate] calls ([BaseGenerator.writeFile] calls
    [fs.ensureDir] for every file) are behind those calls and not part of
    the statement. *)
Theorem generate_creates_directories
    (catalog : BackendFramework → BackendGenerator) (config : ProjectConfig)
    (w : World) (evs : list Event) :
  generate catalog config w = (Ok (), evs) →
  List.filter is_ensureDir evs
  = ((if bool_decide (projectName config = ".") then []
      else [EvEnsureDir (projectPath_of config w)])
     ++ (if requiresSeparatePackage (backend config)
         then [EvEnsureDir (path_join w [projectPath_of config w;
                                         "packages"; "frontend"]);
               EvEnsureDir (path_join w [projectPath_of config w;
                                         "packages"; "backend"])]
         else []))%list.
Proof.
  intros Hrun.
  exact (wpl_returned _ _ _ _ _ _ _ (generate_directories catalog config w) Hrun).
Qed.

Lemma generate_creates_directories_witness :
  ∃ evs,
    generate sample_catalog express_config
      (sample_world backend_none db_none orm_none npm) = (Ok (), evs)
    ∧ List.filter is_ensureDir evs
      = [EvEnsureDir "/home/user/my-app";
         EvEnsureDir "/home/user/my-app/packages/frontend";
         EvEnsureDir "/home/user/my-app/packages/backend"].
Proof.
  eexists. split; [vm_compute; reflexivity |].
  refine (generate_creates_directories sample_catalog express_config
            (sample_world backend_none db_none orm_none npm) _ _).
  vm_compute. reflexivity.
Defined.

Lemma frontendGenerate_hit f path config :
  is_frontendGenerate_other_than f path config
    (EvFrontendGenerate f path config) = false.
Proof. cbn. by rewrite bool_decide_eq_true_2. Qed.

Lemma backendGenerate_hit b path config :
  is_backendGenerate_other_than (Some b) path config
    (EvBackendGenerate b path config) = false.
Proof. cbn. by rewrite bool_decide_eq_true_2. Qed.

#[local] Hint Resolve frontendGenerate_hit backendGenerate_hit : effects.

Lemma generateMonorepoProject_generators catalog projectPath config w :
  wp (is_frontendGenerate_other_than (framework config)
        (path_join w [projectPath; "packages"; "frontend"])
        (with_projectName config "frontend"))
     (generateMonorepoProject catalog projectPath config) w
     (λ _ n, n = 0) (λ n, n = 0)
  ∧ wp (is_backendGenerate_other_than
          (generator_framework <$> getBackendGenerator catalog (backend config))
          (path_join w [projectPath; "packages"; "backend"])
          (with_projectName config "backend"))
      (generateMonorepoProject catalog projectPath config) w
      (λ _ n, n = 0) (λ n, n = 0)
  ∧ wp is_frontendGenerate (generateMonorepoProject catalog projectPath config) w
      (λ _ n, n = 1) may_throw.
Proof.
  unfold generateMonorepoProject. destruct (framework config).
  all: repeat split.
  all: wp_go.
  all: try (subst; cbn; first [done | lia]).
  all: apply wp_perform_skip; [apply backendGenerate_hit | |]; subst; cbn; done.
Qed.

(** The generator calls of the workspace branch, in order. *)
Lemma generateMonorepoProject_calls catalog projectPath config w :
  wpl is_generator_call (generateMonorepoProject catalog projectPath config) w
    (λ _ l,
       l = EvFrontendGenerate (framework config)
             (path_join w [projectPath; "packages"; "frontend"])
             (with_projectName config "frontend")
           :: match getBackendGenerator catalog (backend config) with
              | Some backendGenerator =>
                  [EvBackendGenerate (generator_framework backendGenerator)
                     (path_join w [projectPath; "packages"; "backend"])
                     (with_projectName config "backend")]
              | None => []
              end)
    may_throw_after.
Proof.
  unfold generateMonorepoProject.
  destruct (framework config);
    destruct (getBackendGenerator catalog (backend config)).
  all: (repeat first [ wpl_cut_branch (λ _ l, l = []) | wpl_step ]).
  all: try (subst; cbn; done).
Qed.

(** X14. A run of [generateMonorepoProject] that returns has made
    these generator calls, in this order, and no other: the frontend
    generator of the framework for [packages/frontend] with the
    configuration renamed to [frontend], then, when [getBackendGenerator]
    gives a generator, that generator for [packages/backend] with the
    configuration renamed to [backend].  In every run, returning or not,
    no generator is called with other arguments.  The frontend manifest is
    then named [frontend], but the backend manifest [backend-backend],
    while the root scripts filter on [backend].  [getBackendPackageName]
    agrees with the name in the backend manifest;
    [getFrontendPackageName] never agrees with the name in the frontend
    manifest. *)
Theorem monorepo_packages_are_named (catalog : BackendFramework → BackendGenerator)
    (projectPath : string) (config : ProjectConfig) (w : World) :
  let frontendConfig := with_projectName config "frontend" in
  let backendConfig := with_projectName config "backend" in
  let evs := events (generateMonorepoProject catalog projectPath config) w in
  (outcome (generateMonorepoProject catalog projectPath config) w = Ok () →
   List.filter is_generator_call evs
   = EvFrontendGenerate (framework config)
       (path_join w [projectPath; "packages"; "frontend"]) frontendConfig
     :: match getBackendGenerator catalog (backend config) with
        | Some backendGenerator =>
            [EvBackendGenerate (generator_framework backendGenerator)
               (path_join w [projectPath; "packages"; "backend"]) backendConfig]
        | None => []
        end)
  ∧ tally (is_frontendGenerate_other_than (framework config)
           (path_join w [projectPath; "packages"; "frontend"]) frontendConfig)
        evs = 0
  ∧ tally (is_backendGenerate_other_than
             (generator_framework <$> getBackendGenerator catalog (backend config))
             (path_join w [projectPath; "packages"; "backend"]) backendConfig)
          evs = 0
  ∧ (∀ this, name (BaseGenerator.getPackageJson this frontendConfig) = "frontend")
  ∧ (∀ this, name (BaseBackendGenerator.getPackageJson this backendConfig)
             = "backend-backend")
  ∧ root_scripts (rootPackageJson config) !! "dev:backend"
    = Some (to_string (packageManager config) +:+ " --filter backend dev")
  ∧ (∀ this config',
       name (BaseBackendGenerator.getPackageJson this config')
       = getBackendPackageName config')
  ∧ (∀ this config',
       name (BaseGenerator.getPackageJson this config')
       ≠ getFrontendPackageName config').
Proof.
  intros frontendConfig backendConfig evs. subst frontendConfig backendConfig evs.
  destruct (generateMonorepoProject_generators catalog projectPath config w)
    as (Hf & Hb & _).
  split.
  { pose proof (generateMonorepoProject_calls catalog projectPath config w)
      as Hcalls.
    unfold wpl, outcome, events in *.
    destruct (generateMonorepoProject catalog projectPath config w)
      as [[[]|e] evs]; [done | discriminate]. }
  split; [by apply (wp_events _ _ _ (λ n, n = 0)) |].
  split; [by apply (wp_events _ _ _ (λ n, n = 0)) |].
  split; [done |]. split; [done |]. split; [| split; [done |]].
  - unfold rootPackageJson. cbn [root_scripts]. unfold object.
    cbn [list_to_map foldr uncurry fst snd]. by simplify_map_eq.
  - intros this config' Heq. cbn in Heq. unfold getFrontendPackageName in Heq.
    apply (f_equal String.length) in Heq. rewrite length_append in Heq.
    cbn in Heq. lia.
Qed.

Lemma monorepo_packages_are_named_witness :
  let w := sample_world backend_none db_none orm_none npm in
  let evs := events (generateMonorepoProject sample_catalog "/home/user/my-app"
                       express_config) w in
  outcome (generateMonorepoProject sample_catalog "/home/user/my-app"
             express_config) w = Ok ()
  ∧ List.filter is_generator_call evs
    = [EvFrontendGenerate react "/home/user/my-app/packages/frontend"
         (with_projectName express_config "frontend");
       EvBackendGenerate express "/home/user/my-app/packages/backend"
         (with_projectName express_config "backend")].
Proof.
  cbn zeta. split; [vm_compute; reflexivity |].
  refine (proj1 (monorepo_packages_are_named sample_catalog "/home/user/my-app"
                   express_config
                   (sample_world backend_none db_none orm_none npm)) _).
  vm_compute. reflexivity.
Defined.

(** *** The non-empty directory check *)

Lemma bind_ask_run {A B} (f : World → A) (k : A → M B) (w : World) :
  (ask f ≫= k) w = k (f w) w.
Proof. rewrite bind_run. cbn. by destruct (k (f w) w). Qed.

Lemma bind_throws_run {A B} (m : M A) (k : A → M B) (w : World) e evs :
  m w = (Throw e, evs) → (m ≫= k) w = (Throw e, evs).
Proof. intros Hm. by rewrite bind_run, Hm. Qed.

Lemma visible_entry_counts (entries : list string) (f : string) :
  f ∈ entries →
  String.prefix "." f = false ∨ f = ".env" →
  (0 < length (List.filter
                 (λ f, negb (String.prefix "." f) || bool_decide (f = ".env"))
                 entries))%nat.
Proof.
  intros Hin Hf.
  assert (In f (List.filter
                  (λ f, negb (String.prefix "." f) || bool_decide (f = ".env"))
                  entries)) as Hin'.
  { apply List.filter_In. split; [by apply list_elem_of_In |].
    destruct Hf as [-> | ->]; [done |]. by rewrite orb_true_r. }
  destruct (List.filter _ entries); [done | cbn; lia].
Qed.

Lemma hidden_entries_filtered (entries : list string) :
  (∀ f, f ∈ entries → String.prefix "." f = true ∧ f ≠ ".env") →
  List.filter (λ f, negb (String.prefix "." f) || bool_decide (f = ".env"))
    entries = [].
Proof.
  intros Hall. induction entries as [|f entries IH]; [done |].
  cbn. destruct (Hall f) as [-> Hf]; [by left |].
  rewrite bool_decide_eq_false_2 by done. cbn.
  apply IH. intros f' Hf'. apply Hall. by right.
Qed.

(** X15. When the target directory exists and holds an entry that does
    not start with a dot, or [.env], [generate] asks for confirmation
    first; if the answer is not yes, it throws [CANCELLED] and the
    confirmation prompt is all that has happened. *)
Theorem declining_the_confirm_creates_nothing
    (catalog : BackendFramework → BackendGenerator) (config : ProjectConfig)
    (w : World) (entries : list string) (f : string) :
  fs_existsSync w (projectPath_of config w) = true →
  fs_readdirSync w (projectPath_of config w) = Ok entries →
  f ∈ entries →
  String.prefix "." f = false ∨ f = ".env" →
  answer_confirm w ≠ Value true →
  generate catalog config w
  = (Throw "CANCELLED",
     [EvConfirm
        (if bool_decide (projectName config = ".")
         then "Current directory is not empty. Continue anyway?"
         else "Directory " +:+ projectName config
                +:+ " is not empty. Continue anyway?")]).
Proof.
  unfold projectPath_of. intros Hexists Hread Hin Hf Hconfirm.
  unfold generate. rewrite !bind_ask_run. rewrite Hexists.
  apply bind_throws_run.
  rewrite bind_run. unfold fs_readdirSync_ at 1. rewrite Hread.
  rewrite bool_decide_eq_true_2 by (by eapply visible_entry_counts).
  unfold p_confirm. rewrite !bind_run. cbn.
  by destruct (answer_confirm w) as [|[|]].
Qed.

Lemma declining_the_confirm_creates_nothing_witness :
  generate sample_catalog express_config
    (sample_machine (Value []) (Value false) (λ _, true) ["README.md"]
       all_succeed)
  = (Throw "CANCELLED",
     [EvConfirm "Directory my-app is not empty. Continue anyway?"]).
Proof.
  apply (declining_the_confirm_creates_nothing sample_catalog express_config
           (sample_machine (Value []) (Value false) (λ _, true) ["README.md"]
              all_succeed)
           ["README.md"] "README.md").
  - reflexivity.
  - reflexivity.
  - constructor.
  - by left.
  - discriminate.
Defined.

Lemma generate_without_confirm catalog config w :
  (fs_existsSync w (projectPath_of config w) = false
   ∨ ∃ entries,
       fs_readdirSync w (projectPath_of config w) = Ok entries
       ∧ ∀ f, f ∈ entries → String.prefix "." f = true ∧ f ≠ ".env") →
  wp is_confirm (generate catalog config) w (λ _ n, n = 0) (λ n, n = 0).
Proof.
  unfold projectPath_of. intros Hdisk. unfold generate.
  do 3 (apply wp_bind, wp_ask).
  apply (wp_cut _ _ (λ _ n, n = 0)).
  - destruct Hdisk as [-> | (entries & Hread & Hall)]; [by apply wp_ret |].
    destruct (fs_existsSync w _); [| by apply wp_ret].
    apply wp_bind. unfold wp at 1, fs_readdirSync_ at 1. rewrite Hread.
    rewrite hidden_entries_filtered by done. by apply wp_ret.
  - intros ? ? ->. wp_go. all: try (subst; cbn; done).
Qed.

(** X16. When the target directory does not exist, or every entry of it
    starts with a dot and is not [.env], [generate] does not ask for
    confirmation. *)
Theorem hidden_entries_need_no_confirm
    (catalog : BackendFramework → BackendGenerator) (config : ProjectConfig)
    (w : World) :
  (fs_existsSync w (projectPath_of config w) = false
   ∨ ∃ entries,
       fs_readdirSync w (projectPath_of config w) = Ok entries
       ∧ ∀ f, f ∈ entries → String.prefix "." f = true ∧ f ≠ ".env") →
  tally is_confirm (events (generate catalog config) w) = 0.
Proof.
  intros Hdisk. apply (wp_events _ _ _ (λ n, n = 0)).
  by apply generate_without_confirm.
Qed.

Lemma hidden_entries_need_no_confirm_witness :
  tally is_confirm
    (events (generate sample_catalog express_config)
       (sample_machine (Value []) (Value false) (λ _, true)
          [".git"; ".DS_Store"] all_succeed))
  = 0.
Proof.
  apply hidden_entries_need_no_confirm. right.
  exists [".git"; ".DS_Store"]. split; [reflexivity |].
  intros f Hf. apply elem_of_cons in Hf as [-> | Hf]; [by split |].
  apply list_elem_of_singleton in Hf as ->. by split.
Defined.

(** *** Installation and version control *)

Lemma wp_perform_throws φ w (ev : Event) (end_ : World → Res unit)
    (Q : unit → nat → Prop) (E : nat → Prop) e :
  end_ w = Throw e → φ ev = false → E 0 → wp φ (perform ev end_) w Q E.
Proof. unfold wp, perform, tally. cbn. by intros -> ->. Qed.

Lemma wp_initGit_hit φ w cwd (Q : unit → nat → Prop) (E : nat → Prop) :
  (∀ args, φ (EvExeca "git" args (Some cwd)) = true) →
  Q () 1 → Q () 2 → Q () 3 → wp φ (initGit cwd) w Q E.
Proof.
  intros Hφ H1 H2 H3. unfold wp, initGit, try_catch. rewrite !bind_run.
  unfold execa, perform, tally. cbn.
  destruct (execa_result w "git" ["init"] (Some cwd)) as [[]|]; cbn;
    rewrite ?Hφ; [|done].
  destruct (execa_result w "git" ["add"; "-A"] (Some cwd)) as [[]|]; cbn;
    rewrite ?Hφ; [|done].
  by destruct (execa_result w "git" _ (Some cwd)) as [[]|]; cbn; rewrite ?Hφ.
Qed.

(** The install step of a configuration whose package manager is known. *)
Ltac wp_install :=
  lazymatch goal with
  | |- wp _ (installDependencies _ _) _ _ _ =>
      unfold installDependencies;
      cbn [getInstallCommand fst snd packageManager with_projectName]
  end.

Lemma generate_install_fails catalog config w e φ :
  φ = is_git ∨ φ = is_note →
  execa_result w (to_string (packageManager config)) ["install"]
    (Some (projectPath_of config w)) = Throw e →
  wp φ (generate catalog config) w (λ _ _, False) (λ n, n = 0).
Proof.
  unfold projectPath_of. intros Hφ Hinstall.
  destruct config as [name f b d o a s pm rt x]. cbn in Hinstall.
  unfold generate. cbn [projectName backend with_projectName].
  destruct pm, Hφ as [-> | ->].
  all: (repeat first
    [ wp_install
    | apply (wp_perform_throws _ _ _ _ _ _ e); [exact Hinstall | reflexivity |]
    | lazymatch goal with
      | |- wp _ ((if requiresSeparatePackage _ then _ else _) ≫= _) _ _ _ =>
          apply (wp_cut _ _ (λ _ _, False)); [| intros ? ? []]
      end
    | wp_eval_branch
    | wp_cut_branch (λ _ n, n = 0)
    | wp_step ]).
  all: try (subst; cbn; done).
Qed.

(** X17. Unlike a failing [git], a failing install is fatal: when the
    install command fails, [generate] throws, runs no [git] command and
    prints no success message. *)
Theorem install_failure_is_fatal (catalog : BackendFramework → BackendGenerator)
    (config : ProjectConfig) (w : World) (e : string) :
  execa_result w (to_string (packageManager config)) ["install"]
    (Some (projectPath_of config w)) = Throw e →
  (∃ e', outcome (generate catalog config) w = Throw e')
  ∧ tally is_git (events (generate catalog config) w) = 0
  ∧ tally is_note (events (generate catalog config) w) = 0.
Proof.
  intros Hinstall.
  pose proof (generate_install_fails catalog config w e is_git
                (or_introl eq_refl) Hinstall) as Hgit.
  pose proof (generate_install_fails catalog config w e is_note
                (or_intror eq_refl) Hinstall) as Hnote.
  unfold wp, outcome, events in *.
  destruct (generate catalog config w) as [[[]|e'] evs]; [done |].
  cbn. eauto.
Qed.

Lemma install_failure_is_fatal_witness :
  let w := sample_machine (Value []) (Value true) nothing_on_disk []
             install_fails in
  outcome (generate sample_catalog express_config) w = Throw "spawn npm ENOENT"
  ∧ tally is_git (events (generate sample_catalog express_config) w) = 0.
Proof.
  cbn zeta. split; [vm_compute; reflexivity |].
  exact (proj1 (proj2 (install_failure_is_fatal sample_catalog express_config
    (sample_machine (Value []) (Value true) nothing_on_disk [] install_fails)
    "spawn npm ENOENT" eq_refl))).
Defined.

Lemma install_hit config cwd :
  is_install config cwd
    (EvExeca (to_string (packageManager config)) ["install"] (Some cwd)) = true.
Proof. cbn. by rewrite !bool_decide_eq_true_2. Qed.

Lemma install_not_other config cwd :
  is_other_command config cwd
    (EvExeca (to_string (packageManager config)) ["install"] (Some cwd)) = false.
Proof.
  unfold is_other_command. rewrite install_hit. apply andb_false_r.
Qed.

(** The install command is the one that [is_install] counts. *)
Ltac wp_install_event :=
  lazymatch goal with
  | |- wp (is_other_command ?c ?p) (perform (EvExeca _ ["install"] _) _) _ _ _ =>
      apply wp_perform_skip; [exact (install_not_other c p) | |]
  | |- wp (is_install ?c ?p) (perform (EvExeca _ ["install"] _) _) _ _ _ =>
      apply wp_perform_hit; [exact (install_hit c p) | |]
  end.

Lemma generate_commands catalog config w :
  wp (is_other_command config (projectPath_of config w)) (generate catalog config) w
    (λ _ n, n = 0) (λ n, n = 0)
  ∧ wp (is_install config (projectPath_of config w)) (generate catalog config) w
      (λ _ n, n = 1) may_throw.
Proof.
  unfold projectPath_of.
  destruct config as [name f b d o a s pm rt x].
  unfold generate. cbn [projectName backend with_projectName].
  destruct pm; split.
  all: (repeat first
    [ wp_install | wp_install_event | wp_eval_branch
    | lazymatch goal with
      | |- wp (is_install _ _)
             ((if requiresSeparatePackage _ then _ else _) ≫= _) _ _ _ =>
          apply (wp_cut _ _ (λ _ n, n = 1)); [| intros ? ? ?]
      end
    | wp_cut_branch (λ _ n, n = 0) | wp_step ]).
  all: try (subst; cbn; done).
Qed.

(** X18. Apart from [git], the only command [generate] runs is
    [<package manager> install] in the project directory; a run that
    returns has run it exactly once, and it succeeded. *)
Theorem generate_runs_one_install (catalog : BackendFramework → BackendGenerator)
    (config : ProjectConfig) (w : World) :
  tally (is_other_command config (projectPath_of config w))
    (events (generate catalog config) w) = 0
  ∧ ∀ evs, generate catalog config w = (Ok (), evs) →
      tally (is_install config (projectPath_of config w)) evs = 1
      ∧ execa_result w (to_string (packageManager config)) ["install"]
          (Some (projectPath_of config w)) = Ok ().
Proof.
  destruct (generate_commands catalog config w) as [Hother Hinstall].
  split; [by apply (wp_events _ _ _ (λ n, n = 0)) |].
  intros evs Hrun. split.
  - exact (wp_returned _ _ _ _ _ _ _ Hinstall Hrun).
  - destruct (execa_result w _ _ _) as [[]|e] eqn:He; [done |].
    pose proof (generate_install_fails catalog config w e is_git
                  (or_introl eq_refl) He) as Hwp.
    unfold wp in Hwp. by rewrite Hrun in Hwp.
Qed.

Lemma generate_runs_one_install_witness :
  let w := sample_world backend_none db_none orm_none npm in
  ∃ evs,
    generate sample_catalog express_config w = (Ok (), evs)
    ∧ tally (is_install express_config "/home/user/my-app") evs = 1.
Proof.
  cbn zeta. eexists. split; [vm_compute; reflexivity |].
  refine (proj1 (proj2 (generate_runs_one_install sample_catalog express_config
                          (sample_world backend_none db_none orm_none npm))
                   _ _)).
  vm_compute. reflexivity.
Defined.

Lemma generate_with_repository catalog config w :
  fs_existsSync w (path_join w [projectPath_of config w; ".git"]) = true →
  wp is_git (generate catalog config) w (λ _ n, n = 0) (λ n, n = 0).
Proof.
  unfold projectPath_of. intros Hgit. unfold generate.
  (repeat first
    [ progress rewrite Hgit | wp_eval_branch
    | wp_cut_branch (λ _ n, n = 0) | wp_step ]).
  all: try (subst; cbn; done).
Qed.

Lemma generate_without_repository catalog config w :
  fs_existsSync w (path_join w [projectPath_of config w; ".git"]) = false →
  wp (is_git_command (projectPath_of config w)) (generate catalog config) w
    (λ _ n, (1 ≤ n ≤ 3)%nat) may_throw.
Proof.
  unfold projectPath_of. intros Hgit. unfold generate.
  (repeat first
    [ progress rewrite Hgit | wp_eval_branch
    | lazymatch goal with
      | |- wp _ (initGit _) _ _ _ =>
          apply wp_initGit_hit;
          [intros ?; cbn; by rewrite !bool_decide_eq_true_2 | | |]
      end
    | wp_cut_branch (λ _ n, n = 0) | wp_step ]).
  all: try (subst; cbn; first [done | lia]).
Qed.

(** X19. When the project directory already has a [.git] entry,
    [generate] runs no [git] command; when it has none, a run that returns
    has run between one and three [git] commands, in the project
    directory. *)
Theorem git_is_run_only_without_a_repository
    (catalog : BackendFramework → BackendGenerator) (config : ProjectConfig)
    (w : World) :
  let repository := path_join w [projectPath_of config w; ".git"] in
  (fs_existsSync w repository = true →
   tally is_git (events (generate catalog config) w) = 0)
  ∧ (fs_existsSync w repository = false →
     ∀ evs, generate catalog config w = (Ok (), evs) →
       (1 ≤ tally (is_git_command (projectPath_of config w)) evs ≤ 3)%nat).
Proof.
  intros repository. subst repository. split.
  - intros Hgit. apply (wp_events _ _ _ (λ n, n = 0)).
    by apply generate_with_repository.
  - intros Hgit evs Hrun.
    exact (wp_returned _ _ _ _ _ _ _
             (generate_without_repository catalog config w Hgit) Hrun).
Qed.

Lemma git_is_run_only_without_a_repository_witness :
  let w := sample_machine (Value []) (Value true)
             (λ path, bool_decide (path = "/home/user/my-app/.git")) []
             all_succeed in
  outcome (generate sample_catalog express_config) w = Ok ()
  ∧ tally is_git (events (generate sample_catalog express_config) w) = 0.
Proof.
  cbn zeta. split; [vm_compute; reflexivity |].
  exact (proj1 (git_is_run_only_without_a_repository sample_catalog
    express_config
    (sample_machine (Value []) (Value true)
       (λ path, bool_decide (path = "/home/user/my-app/.git")) [] all_succeed))
    eq_refl).
Defined.

(** *** The workspace file *)

Lemma workspace_file_hit path :
  is_workspace_file path
    (EvWriteFile path
       ("packages:" +:+ nl +:+ "  - " +:+ dq +:+ "packages/*" +:+ dq +:+ nl))
  = true.
Proof. cbn. by rewrite !bool_decide_eq_true_2. Qed.

Lemma writeFile_at_hit path file :
  is_writeFile_at path (EvWriteFile path file) = true.
Proof. cbn. by rewrite bool_decide_eq_true_2. Qed.

Lemma generate_workspace_file catalog config w φ :
  φ = is_writeFile_at
        (path_join w [projectPath_of config w; "pnpm-workspace.yaml"])
  ∨ φ = is_workspace_file
          (path_join w [projectPath_of config w; "pnpm-workspace.yaml"]) →
  requiresSeparatePackage (backend config) = true →
  wp φ (generate catalog config) w
    (λ _ n, n = if bool_decide (packageManager config = pnpm) then 1 else 0)
    may_throw.
Proof.
  unfold projectPath_of. intros Hφ Hsep.
  destruct config as [name f b d o a s pm rt x]. cbn in Hsep.
  unfold generate. cbn [projectName backend packageManager with_projectName].
  rewrite Hsep.
  destruct pm, Hφ as [-> | ->].
  all: (repeat first
    [ wp_install | wp_eval_branch
    | lazymatch goal with
      | |- wp (is_workspace_file ?p) (perform (EvWriteFile _ _) _) _ _ _ =>
          apply wp_perform_hit; [exact (workspace_file_hit p) | |]
      | |- wp (is_writeFile_at ?p) (perform (EvWriteFile _ ?f) _) _ _ _ =>
          apply wp_perform_hit; [exact (writeFile_at_hit p f) | |]
      end
    | wp_cut_branch (λ _ n, n = 0) | wp_step ]).
  all: try (subst; cbn; done).
Qed.

(** X20. A run of [generate] in the monorepo layout that returns has
    written [pnpm-workspace.yaml] under the project directory exactly
    once, with the one glob [packages/*], when the package manager is
    [pnpm], and has not written that file when it is another. *)
Theorem pnpm_workspace_file_only_for_pnpm
    (catalog : BackendFramework → BackendGenerator) (config : ProjectConfig)
    (w : World) (evs : list Event) :
  requiresSeparatePackage (backend config) = true →
  generate catalog config w = (Ok (), evs) →
  let n := if bool_decide (packageManager config = pnpm) then 1 else 0 in
  tally (is_writeFile_at
           (path_join w [projectPath_of config w; "pnpm-workspace.yaml"]))
        evs = n
  ∧ tally (is_workspace_file
             (path_join w [projectPath_of config w; "pnpm-workspace.yaml"]))
          evs = n.
Proof.
  intros Hsep Hrun n. subst n. split.
  - exact (wp_returned _ _ _ _ _ _ _
      (generate_workspace_file catalog config w _ (or_introl eq_refl) Hsep) Hrun).
  - exact (wp_returned _ _ _ _ _ _ _
      (generate_workspace_file catalog config w _ (or_intror eq_refl) Hsep) Hrun).
Qed.

Lemma pnpm_workspace_file_only_for_pnpm_witness :
  let w := sample_world backend_none db_none orm_none npm in
  ∃ evs,
    generate sample_catalog (next_config express db_none orm_none pnpm) w
      = (Ok (), evs)
    ∧ tally (is_writeFile_at "/home/user/my-app/pnpm-workspace.yaml") evs = 1
    ∧ tally (is_workspace_file "/home/user/my-app/pnpm-workspace.yaml") evs = 1.
Proof.
  cbn zeta. eexists. split; [vm_compute; reflexivity |].
  refine (pnpm_workspace_file_only_for_pnpm sample_catalog
            (next_config express db_none orm_none pnpm)
            (sample_world backend_none db_none orm_none npm)
            _ eq_refl _).
  vm_compute. reflexivity.
Defined.

(** *** The single-package layout *)




(** ** Commands *)

(** X22. [initGit] runs [git init], [git add -A] and [git commit] in
    this order and stops at the first that fails, without undoing the
    earlier ones.  [isGitInstalled] and [checkBunInstalled] run one
    [--version] command each, outside any directory, and return whether it
    succeeded; neither throws. *)
Theorem git_and_bun_commands_fail_quietly (cwd : string) (w : World) :
  let init := EvExeca "git" ["init"] (Some cwd) in
  let add := EvExeca "git" ["add"; "-A"] (Some cwd) in
  let commit :=
    EvExeca "git" ["commit"; "-m"; "Initial commit from create-mrn-app"]
      (Some cwd) in
  events (initGit cwd) w
  = match execa_result w "git" ["init"] (Some cwd) with
    | Throw _ => [init]
    | Ok _ =>
        match execa_result w "git" ["add"; "-A"] (Some cwd) with
        | Throw _ => [init; add]
        | Ok _ => [init; add; commit]
        end
    end
  ∧ isGitInstalled w
    = (Ok match execa_result w "git" ["--version"] None with
          | Ok _ => true
          | Throw _ => false
          end,
       [EvExeca "git" ["--version"] None])
  ∧ checkBunInstalled w
    = (Ok match execa_result w "bun" ["--version"] None with
          | Ok _ => true
          | Throw _ => false
          end,
       [EvExeca "bun" ["--version"] None]).
Proof.
  cbn zeta. split; [| split].
  - unfold events, initGit, try_catch. rewrite !bind_run.
    unfold execa, perform. cbn.
    destruct (execa_result w "git" ["init"] (Some cwd)) as [[]|]; [|done].
    destruct (execa_result w "git" ["add"; "-A"] (Some cwd)) as [[]|]; [|done].
    by destruct (execa_result w "git" _ (Some cwd)) as [[]|].
  - unfold isGitInstalled, try_catch. rewrite bind_run.
    unfold execa, perform. cbn.
    by destruct (execa_result w "git" ["--version"] None) as [[]|].
  - unfold checkBunInstalled, try_catch. rewrite bind_run.
    unfold execa, perform. cbn.
    by destruct (execa_result w "bun" ["--version"] None) as [[]|].
Qed.

(** X23. The [getRunCommand] of [generators/index.ts], which the success
    message uses, and the one exported by [utils/package-manager.ts] give
    the same command exactly when the package manager is not [bun]
    ([bun dev] against [bun run dev]). *)
Theorem run_commands_agree_except_for_bun (pm : PackageManager)
    (script : string) :
  getRunCommand pm script = package_manager.getRunCommand pm script ↔ pm ≠ bun.
Proof.
  split.
  - intros Heq ->. cbn in Heq.
    change ("bun " +:+ script = "bun " +:+ ("run " +:+ script)) in Heq.
    apply append_cancel_l in Heq.
    apply (f_equal String.length) in Heq. rewrite length_append in Heq.
    cbn in Heq. lia.
  - by destruct pm.
Qed.

Lemma run_commands_agree_except_for_bun_witness :
  getRunCommand npm "dev" = package_manager.getRunCommand npm "dev"
  ∧ getRunCommand bun "dev" ≠ package_manager.getRunCommand bun "dev".
Proof.
  split.
  - apply (proj2 (run_commands_agree_except_for_bun npm "dev")). discriminate.
  - intros Heq.
    by apply (proj1 (run_commands_agree_except_for_bun bun "dev")) in Heq.
Defined.

(** X24. [getAddCommand] runs the package manager's own binary, the
    same as [getInstallCommand]; its arguments are the verb ([install]
    for npm, [add] otherwise), the dev flag when [isDev], and then the
    packages in the order given.  With no package and no dev flag it is
    the install command exactly for npm.  [addDependencies] runs that one
    command in the given directory and fails when it fails. *)
Theorem add_command_passes_the_packages_last (pm : PackageManager)
    (packages : list string) (isDev : bool) :
  let command := package_manager.getAddCommand pm packages isDev in
  command.1 = to_string pm
  ∧ command.1 = (getInstallCommand pm).1
  ∧ (∃ verb,
       command.2
       = verb :: (if isDev
                  then [match pm with
                        | npm => "--save-dev" | pnpm => "-D" | bun => "-d"
                        end]
                  else []) ++ packages
       ∧ verb = if bool_decide (pm = npm) then "install" else "add")%list
  ∧ (package_manager.getAddCommand pm [] false = getInstallCommand pm
     ↔ pm = npm)
  ∧ ∀ cwd w,
      package_manager.addDependencies cwd pm packages isDev w
      = (execa_result w command.1 command.2 (Some cwd),
         [EvExeca command.1 command.2 (Some cwd)]).
Proof.
  cbn zeta. repeat split; try (by destruct pm).
  all: first [ by intros -> | destruct pm, isDev; eauto ].
Qed.

Lemma add_command_passes_the_packages_last_witness :
  package_manager.getAddCommand npm [] false = getInstallCommand npm.
Proof.
  destruct (add_command_passes_the_packages_last npm [] false)
    as (_ & _ & _ & Hnpm & _).
  by apply Hnpm.
Defined.

(** ** The manifests of the integrated backends *)

Lemma changed_entries_spec (before after : gmap string string) k v :
  before !! k = Some v →
  after !! k = Some v ∨ (k, v, after !! k) ∈ changed_entries before after.
Proof.
  intros Hk. destruct (decide (after !! k = Some v)) as [|Hne]; [by left |].
  right. unfold changed_entries. apply list_elem_of_omap.
  exists (k, v). split; [by apply elem_of_map_to_list |].
  by rewrite bool_decide_eq_false_2.
Qed.

Lemma next_api_dependencies_changed config :
  changed_entries
    (NextFrontend.getDependencies config)
    (dependencies (mergeBackendManifest NextJSAPIGenerator config
       (BaseGenerator.getPackageJson NextGenerator_getters config)))
  = ((if bool_decide (orm config = drizzle)
         && bool_decide (database config = sqlite)
      then [("better-sqlite3", "^11.7.0", Some "^11.6.0")] else [])
     ++ (if bool_decide (orm config = drizzle)
            && bool_decide (database config ∈ [neon; planetscale; turso; sqlite])
         then [("drizzle-orm", "^0.38.0", Some "^0.36.0")] else []))%list.
Proof.
  destruct config as [name f b d o a s pm rt x].
  (destruct d, o, a; vm_compute; reflexivity).
Qed.

Lemma next_api_devDependencies_changed config :
  changed_entries
    (Next.getDevDependencies config)
    (devDependencies (mergeBackendManifest NextJSAPIGenerator config
       (BaseGenerator.getPackageJson NextGenerator_getters config)))
  = if bool_decide (orm config = drizzle)
       && bool_decide (database config ∈ [neon; planetscale; turso; sqlite])
    then [("drizzle-kit", "^0.30.0", Some "^0.28.0")] else [].
Proof.
  destruct config as [name f b d o a s pm rt [ts es pr te pw dk]].
  (destruct d, o, s, ts, es, te; vm_compute; reflexivity).
Qed.

Lemma next_api_scripts_changed config :
  changed_entries
    (Next.getScripts config)
    (scripts (mergeBackendManifest NextJSAPIGenerator config
       (BaseGenerator.getPackageJson NextGenerator_getters config)))
  = [].
Proof.
  destruct config as [name f b d o a s pm rt [ts es pr te pw dk]].
  (destruct d, o, te; vm_compute; reflexivity).
Qed.

(** X25. Merging the built-in API into the manifest of the Next.js
    generator changes no script, and keeps every dependency and
    development dependency of the frontend at its version, except that
    with Drizzle it lowers [drizzle-orm] from [^0.38.0] to [^0.36.0],
    [better-sqlite3] from [^11.7.0] to [^11.6.0] and [drizzle-kit] from
    [^0.30.0] to [^0.28.0]. *)
Theorem next_api_merge_lowers_three_packages (config : ProjectConfig) :
  let frontend := BaseGenerator.getPackageJson NextGenerator_getters config in
  let merged := mergeBackendManifest NextJSAPIGenerator config frontend in
  (∀ k v, scripts frontend !! k = Some v → scripts merged !! k = Some v)
  ∧ (∀ k v, dependencies frontend !! k = Some v →
       dependencies merged !! k = Some v
       ∨ (orm config = drizzle
          ∧ ((k = "drizzle-orm" ∧ v = "^0.38.0"
              ∧ dependencies merged !! k = Some "^0.36.0")
             ∨ (k = "better-sqlite3" ∧ v = "^11.7.0"
                ∧ dependencies merged !! k = Some "^11.6.0"))))
  ∧ (∀ k v, devDependencies frontend !! k = Some v →
       devDependencies merged !! k = Some v
       ∨ (orm config = drizzle ∧ k = "drizzle-kit" ∧ v = "^0.30.0"
          ∧ devDependencies merged !! k = Some "^0.28.0")).
Proof.
  intros frontend merged. repeat split.
  - intros k v Hk.
    apply (changed_entries_spec _ (scripts merged)) in Hk as [Hk | Hk];
      [done |].
    subst frontend merged.
    cbn [scripts BaseGenerator.getPackageJson NextGenerator_getters
         frontend_getScripts] in Hk.
    rewrite next_api_scripts_changed in Hk. by apply elem_of_nil in Hk.
  - intros k v Hk.
    apply (changed_entries_spec _ (dependencies merged)) in Hk as [Hk | Hk];
      [by left |].
    right. subst frontend merged.
    cbn [dependencies BaseGenerator.getPackageJson NextGenerator_getters
         frontend_getDependencies] in Hk.
    rewrite next_api_dependencies_changed in Hk.
    destruct (bool_decide (orm config = drizzle)) eqn:Ho; cbn in Hk;
      [| repeat case_bool_decide; by apply elem_of_nil in Hk].
    apply bool_decide_eq_true_1 in Ho. split; [done |].
    repeat case_bool_decide; cbn in Hk; set_unfold in Hk;
      destruct_or?; simplify_eq; auto.
  - intros k v Hk.
    apply (changed_entries_spec _ (devDependencies merged)) in Hk as [Hk | Hk];
      [by left |].
    right. subst frontend merged.
    cbn [devDependencies BaseGenerator.getPackageJson NextGenerator_getters
         frontend_getDevDependencies] in Hk.
    rewrite next_api_devDependencies_changed in Hk.
    destruct (bool_decide (orm config = drizzle)) eqn:Ho; cbn in Hk;
      [| by apply elem_of_nil in Hk].
    apply bool_decide_eq_true_1 in Ho.
    case_bool_decide; set_unfold in Hk; destruct_or?; simplify_eq; auto.
Qed.

Lemma next_api_merge_lowers_three_packages_witness :
  let config := next_config nextjs_builtin sqlite drizzle pnpm in
  let frontend :=
    BaseGenerator.getPackageJson NextGenerator_getters config in
  let merged := mergeBackendManifest NextJSAPIGenerator config frontend in
  dependencies frontend !! "drizzle-orm" = Some "^0.38.0"
  ∧ dependencies merged !! "drizzle-orm" = Some "^0.36.0"
  ∧ devDependencies frontend !! "drizzle-kit" = Some "^0.30.0"
  ∧ devDependencies merged !! "drizzle-kit" = Some "^0.28.0".
Proof.
  cbn zeta.
  destruct (next_api_merge_lowers_three_packages
              (next_config nextjs_builtin sqlite drizzle pnpm))
    as (_ & Hdeps & HdevDeps).
  assert (dependencies
            (BaseGenerator.getPackageJson NextGenerator_getters
               (next_config nextjs_builtin sqlite drizzle pnpm))
            !! "drizzle-orm" = Some "^0.38.0") as Hfrontend
    by (vm_compute; reflexivity).
  assert (devDependencies
            (BaseGenerator.getPackageJson NextGenerator_getters
               (next_config nextjs_builtin sqlite drizzle pnpm))
            !! "drizzle-kit" = Some "^0.30.0") as HfrontendDev
    by (vm_compute; reflexivity).
  split; [exact Hfrontend |]. split; [| split; [exact HfrontendDev |]].
  - destruct (Hdeps _ _ Hfrontend)
      as [Hsame | (_ & [(_ & _ & Hlow) | (Hk & _)])];
      [vm_compute in Hsame; discriminate Hsame | exact Hlow | discriminate Hk].
  - destruct (HdevDeps _ _ HfrontendDev) as [Hsame | (_ & _ & _ & Hlow)];
      [vm_compute in Hsame; discriminate Hsame | exact Hlow].
Defined.

(** X26. Merging an integrated backend ([nextjs-builtin] or [convex])
    into a manifest leaves every script other than the four [db:] scripts
    and the three [convex:] scripts as the frontend has it: [dev],
    [build], [start] and [lint] are never replaced. *)
Theorem integrated_backends_only_add_their_own_scripts
    (catalog : BackendFramework → BackendGenerator) (b : BackendFramework)
    (g : BackendGenerator) (config : ProjectConfig) (p : PackageJson)
    (k : string) :
  integratesWithFrontend b = true →
  getBackendGenerator catalog b = Some g →
  k ∉ ["db:generate"; "db:push"; "db:migrate"; "db:studio";
       "convex:dev"; "convex:deploy"; "convex:codegen"] →
  scripts (mergeBackendManifest g config p) !! k = scripts p !! k.
Proof.
  intros Hb Hg Hk.
  assert (∀ k', k' ∈ ["db:generate"; "db:push"; "db:migrate"; "db:studio";
                      "convex:dev"; "convex:deploy"; "convex:codegen"] →
                k' ≠ k) as Hne.
  { intros k' Hk' ->. by apply Hk. }
  destruct (mergeBackendManifest_fields g config p) as (_ & _ & ->).
  rewrite spread2_lookup.
  cut (getScripts g config !! k = None); [by intros -> |].
  destruct b; try discriminate Hb; cbn in Hg; injection Hg as <-.
  - cbn. unfold NextJSAPI.getScripts.
    repeat case_bool_decide;
      rewrite ?lookup_insert_ne by (apply Hne; repeat constructor);
      apply lookup_empty.
  - cbn. unfold object. cbn [list_to_map foldr uncurry fst snd].
    rewrite !lookup_insert_ne by (apply Hne; repeat constructor).
    apply lookup_empty.
Qed.

Lemma integrated_backends_only_add_their_own_scripts_witness :
  let config := next_config nextjs_builtin sqlite drizzle pnpm in
  let frontend :=
    BaseGenerator.getPackageJson NextGenerator_getters config in
  scripts (mergeBackendManifest NextJSAPIGenerator config frontend) !! "dev"
  = Some "next dev".
Proof.
  cbn zeta.
  rewrite (integrated_backends_only_add_their_own_scripts sample_catalog
             nextjs_builtin NextJSAPIGenerator
             (next_config nextjs_builtin sqlite drizzle pnpm) _ "dev"
             eq_refl eq_refl).
  - vm_compute. reflexivity.
  - apply (bool_decide_unpack _). vm_compute. reflexivity.
Defined.

Lemma is_Some_iff (x : option string) (P : Prop) :
  match x with Some _ => P | None => ¬ P end → is_Some x ↔ P.
Proof.
  destruct x as [v|]; intros HP; split; intros H; try done;
    try by apply is_Some_None in H.
Qed.

(** X27. The built-in API generator declares [@prisma/client] and the
    [prisma] CLI exactly for Prisma, [drizzle-orm] and [drizzle-kit]
    exactly for Drizzle, [better-sqlite3] exactly when it declares its
    typings, and each of the four [db:] scripts exactly when an ORM is
    chosen. *)
Theorem nextjs_api_declares_orm_packages_in_pairs (config : ProjectConfig) :
  let deps := NextJSAPI.getDependencies config in
  let devDeps := NextJSAPI.getDevDependencies config in
  let scripts := NextJSAPI.getScripts config in
  (is_Some (deps !! "@prisma/client") ↔ orm config = prisma)
  ∧ (is_Some (devDeps !! "prisma") ↔ orm config = prisma)
  ∧ (is_Some (deps !! "drizzle-orm") ↔ orm config = drizzle)
  ∧ (is_Some (devDeps !! "drizzle-kit") ↔ orm config = drizzle)
  ∧ (is_Some (deps !! "better-sqlite3")
     ↔ is_Some (devDeps !! "@types/better-sqlite3"))
  ∧ (∀ k, k ∈ ["db:generate"; "db:push"; "db:migrate"; "db:studio"] →
       is_Some (scripts !! k) ↔ orm config ≠ orm_none).
Proof.
  destruct config as [name f b d o a s pm rt x]. cbn zeta.
  cbn [orm].
  split; [| split; [| split; [| split; [| split]]]].
  1-4: apply is_Some_iff; destruct d, o; vm_compute; congruence.
  { destruct d, o; vm_compute; split; intros [? H];
      first [discriminate H | eexists; reflexivity]. }
  intros k Hk. apply is_Some_iff.
  set_unfold in Hk. destruct_or?; subst; try done.
  all: destruct o; vm_compute; congruence.
Qed.

Lemma nextjs_api_declares_orm_packages_in_pairs_witness :
  let config := next_config nextjs_builtin sqlite prisma pnpm in
  is_Some (NextJSAPI.getDependencies config !! "@prisma/client")
  ∧ is_Some (NextJSAPI.getDevDependencies config !! "prisma").
Proof.
  cbn zeta.
  destruct (nextjs_api_declares_orm_packages_in_pairs
              (next_config nextjs_builtin sqlite prisma pnpm))
    as (Hclient & Hcli & _).
  split; [by apply Hclient | by apply Hcli].
Defined.

(** ** The command line *)

Lemma try_catch_run {A} (m : M A) (h : string → M A) (w : World) :
  try_catch m h w
  = match m w with
    | (Ok a, evs) => (Ok a, evs)
    | (Throw e, evs) => ((h e w).1, (evs ++ (h e w).2)%list)
    end.
Proof.
  unfold try_catch. destruct (m w) as [[a|e] evs]; [done |].
  by destruct (h e w).
Qed.

Lemma banner_run w : banner w = (Ok (), banner_lines).
Proof. done. Qed.

Lemma generate_no_resolver_event catalog config w :
  wp is_resolver_event (generate catalog config) w (λ _ n, n = 0) (λ n, n = 0).
Proof.
  unfold generate.
  wp_go.
  all: try (subst; cbn; done).
Qed.

Lemma bind_ret_run {A B} (a : A) (k : A → M B) (w : World) :
  (mret a ≫= k) w = k a w.
Proof. rewrite bind_run. cbn. by destruct (k a w). Qed.

Lemma action_non_interactive catalog name options w :
  name ≠ EmptyString →
  truthy_bool (flag_yes options) = true ∨ hasAllFlags options = true →
  action catalog (Some name) options w
  = match generate catalog (flags_config name options) w with
    | (Ok _, evs) => (Ok Returned, (banner_lines ++ evs)%list)
    | (Throw e, evs) =>
        (Ok (Exited (if bool_decide (e = "CANCELLED") then 0 else 1)),
         (banner_lines ++ evs
            ++ [EvConsoleLog
                  (if bool_decide (e = "CANCELLED")
                   then "warn - Operation cancelled"
                   else "error - " +:+ e)])%list)
    end.
Proof.
  intros Hname Hpath. unfold action.
  rewrite bind_run, banner_run. cbn [fst snd]. rewrite try_catch_run.
  assert (truthy_string (Some name) = true) as ->.
  { cbn. by rewrite bool_decide_eq_false_2. }
  rewrite !andb_true_r.
  match goal with
  | |- context [(?X ≫= ?k) w] =>
      assert (X = mret (flags_config name options)) as ->
  end.
  { destruct (truthy_bool (flag_yes options)) eqn:Hyes; [done |].
    destruct Hpath as [|Hall]; [done |]. rewrite Hall.
    unfold hasAllFlags in Hall. unfold flags_config.
    destruct options as [[?|] [?|] [?|] ? ? [?|] [?|] [?|] ? ? ? ? ? ?];
      cbn in Hall; try discriminate Hall; done. }
  rewrite bind_ret_run, bind_run.
  destruct (generate catalog (flags_config name options) w) as [[[]|e] evs];
    cbn.
  - by rewrite app_nil_r.
  - by case_bool_decide.
Qed.

(** X28. With a project name and [--yes], or with a project name and
    the six flags of [hasAllFlags], the command line runs [generate] on
    the flags (with the defaults of [--yes]) and nothing of [runPrompts]:
    no question, no notice, no probe for Bun.  The Bun-only rule is
    therefore not applied: a run that returns has installed with the
    package manager of the flags. *)
Theorem non_interactive_paths_skip_the_resolver
    (catalog : BackendFramework → BackendGenerator) (name : string)
    (options : CLIOptions) (w : World) :
  name ≠ EmptyString →
  truthy_bool (flag_yes options) = true ∨ hasAllFlags options = true →
  let config := flags_config name options in
  let evs := events (action catalog (Some name) options) w in
  (∃ tail, evs = (banner_lines ++ events (generate catalog config) w ++ tail)%list)
  ∧ tally is_resolver_event evs = 0
  ∧ (outcome (action catalog (Some name) options) w = Ok Returned →
     tally (is_install config (projectPath_of config w)) evs = 1).
Proof.
  intros Hname Hpath config evs. subst evs. unfold events, outcome.
  rewrite (action_non_interactive catalog name options w Hname Hpath).
  fold config.
  pose proof (generate_no_resolver_event catalog config w) as Hres.
  destruct (generate_commands catalog config w) as [_ Hinstall].
  unfold wp in Hres, Hinstall.
  destruct (generate catalog config w) as [[[]|e] evs]; cbn [fst snd].
  - split; [exists []; by rewrite app_nil_r |].
    rewrite !tally_app, Hres, Hinstall. done.
  - split; [eauto |]. rewrite !tally_app, Hres. split; [done | discriminate].
Qed.

Lemma non_interactive_paths_skip_the_resolver_witness :
  let w := sample_world backend_none db_none orm_none pnpm in
  let config := flags_config "my-app" elysia_npm_flags in
  backend config = elysia
  ∧ packageManager config = npm
  ∧ outcome (action sample_catalog (Some "my-app") elysia_npm_flags) w
    = Ok Returned
  ∧ tally is_resolver_event
      (events (action sample_catalog (Some "my-app") elysia_npm_flags) w) = 0
  ∧ tally (is_install config "/home/user/my-app")
      (events (action sample_catalog (Some "my-app") elysia_npm_flags) w) = 1.
Proof.
  cbn zeta. split; [reflexivity |]. split; [reflexivity |].
  assert (outcome (action sample_catalog (Some "my-app") elysia_npm_flags)
            (sample_world backend_none db_none orm_none pnpm) = Ok Returned)
    as Hout by (vm_compute; reflexivity).
  split; [exact Hout |].
  destruct (non_interactive_paths_skip_the_resolver sample_catalog "my-app"
              elysia_npm_flags (sample_world backend_none db_none orm_none pnpm))
    as (_ & Hres & Hinstall); [discriminate | by right |].
  split; [exact Hres | exact (Hinstall Hout)].
Defined.

Lemma runPrompts_no_note (options : PromptOptions) (w : World) :
  wp is_note (runPrompts options) w (λ _ n, n = 0) (λ n, n = 0).
Proof.
  unfold runPrompts.
  repeat first [ wp_cut_branch (λ _ n, n = 0) | wp_step ].
  all: try (subst; cbn; done).
Qed.

Lemma generate_one_note catalog config w :
  wp is_note (generate catalog config) w (λ _ n, n = 1) (λ n, n = 0).
Proof.
  unfold generate.
  wp_go.
  all: try (subst; cbn; done).
Qed.

(** X29. The action of the command line never throws.  It returns after
    one success message; or it prints no success message and exits with
    code 0 after [warn - Operation cancelled]; or exits with code 1 after
    [error - ] and the message of an error other than [CANCELLED]. *)
Theorem action_turns_errors_into_exit_codes
    (catalog : BackendFramework → BackendGenerator) (name : option string)
    (options : CLIOptions) (w : World) :
  ∃ c evs,
    action catalog name options w = (Ok c, evs)
    ∧ match c with
      | Returned => tally is_note evs = 1
      | Exited code =>
          tally is_note evs = 0
          ∧ ((code = 0
              ∧ last evs = Some (EvConsoleLog "warn - Operation cancelled"))
             ∨ (code = 1
                ∧ ∃ e, e ≠ "CANCELLED"
                       ∧ last evs = Some (EvConsoleLog ("error - " +:+ e))))
      end.
Proof.
  unfold action. rewrite bind_run, banner_run. cbn [fst snd].
  rewrite try_catch_run.
  match goal with
  | |- context [match ?inner w with _ => _ end] =>
      assert (wp is_note inner w (λ c n, c = Returned ∧ n = 1) (λ n, n = 0))
        as Hinner; [| unfold wp in Hinner; destruct (inner w) as [[c|e] evs]]
  end.
  - apply (wp_cut _ _ (λ _ n, n = 0)).
    + repeat case_match; first [ by apply wp_ret | by apply wp_throw
                                | apply runPrompts_no_note ].
    + intros config ? ->. apply wp_bind.
      eapply wp_mono; [apply generate_one_note | |]; cbn; [| done].
      by intros [] ? ->.
  - destruct Hinner as [-> Hn]. cbn [fst snd]. eexists _, _. split; [done |].
    cbn beta iota. by rewrite tally_app, Hn.
  - assert (∀ x, last (banner_lines ++ evs ++ [x])%list = Some x) as Hlast.
    { intros x. by rewrite app_assoc, last_snoc. }
    assert (∀ x, tally is_note (banner_lines ++ evs ++ [EvConsoleLog x])%list = 0)
      as Htally.
    { intros x. by rewrite !tally_app, Hinner. }
    case_bool_decide; cbn; eexists _, _; (split; [done |]); cbn.
    + split; [apply Htally | left; split; [done | apply Hlast]].
    + split; [apply Htally |].
      right. split; [done |]. exists e. split; [done | apply Hlast].
Qed.
